(** * EDA_HIGGS: the loader and the report generator

    A shallow embedding of [higgs_loader.py] (function [load_data]) and of
    [EDA_UCI_HIGGS_DATASET.py] (functions [save_plot] and [perform_eda]).

    The Python code is a sequence of calls into pandas, numpy, matplotlib
    and seaborn.  What the script itself decides is modelled as it is
    written: the existence check and the column schema of the loader, the
    label guard, the choice of features, the sample sizes, the sorting of
    the correlations with the label, the summary counts, and above all the
    [try]/[except] structure around every step.  What a library call does
    is kept to what the script can observe of it: whether the call raises
    (an oracle of the run, [fails]), the file it writes, and, where the
    script computes with the value, the value itself. *)

From Stdlib Require Import List String Ascii ZArith QArith Qround Bool Lia.
From Stdlib Require Import Permutation Sorted DecimalString.
Import ListNotations.

Local Open Scope string_scope.
Local Open Scope Z_scope.

(* ===================================================================== *)
(** ** Tables *)
(* ===================================================================== *)

(** A cell of a numeric table: a value (float64 read as a rational) or a
    missing value.  Text cells are outside the model. *)
Inductive Cell : Type :=
| Num (q : Q)
| NaN.

Inductive Dtype : Type := Int64 | Float64 | Object.

(** A [DataFrame] keeps its column names with their dtypes, in order, and
    its rows.  Column names are taken to be distinct, as the loader's schema
    makes them; a field missing from a row reads as [NaN]. *)
Record DataFrame : Type := mkDataFrame {
  schema : list (string * Dtype);
  rows : list (list Cell)
}.

(** A [Series] is a list of (index label, value); a [Frame] (the result of
    [df.corr()]) maps each column name to its series. *)
Definition Series : Type := list (string * Cell).
Definition Frame : Type := list (string * Series).

(** [df.columns] *)
Definition columns (df : DataFrame) : list string := map fst (schema df).

(** [len(df)] *)
Definition len (df : DataFrame) : Z := Z.of_nat (List.length (rows df)).

(** [df.shape[1]] *)
Definition shape1 (df : DataFrame) : Z := Z.of_nat (List.length (schema df)).

(** [name in names] on Python lists and indexes of strings *)
Definition mem (name : string) (names : list string) : bool :=
  existsb (String.eqb name) names.

(** position of a column name *)
Fixpoint index_of (name : string) (names : list string) : option nat :=
  match names with
  | [] => None
  | n :: rest =>
      if String.eqb name n then Some O
      else option_map S (index_of name rest)
  end.

(** [df[name]], the cells of one column; [None] is Python's [KeyError]. *)
Definition column (df : DataFrame) (name : string) : option (list Cell) :=
  match index_of name (columns df) with
  | Some i => Some (map (fun r => nth i r NaN) (rows df))
  | None => None
  end.

(** [df.head(n)] *)
Definition head (n : nat) (df : DataFrame) : DataFrame :=
  mkDataFrame (schema df) (firstn n (rows df)).

(* ===================================================================== *)
(** ** Exceptions, events and the monad of a run *)
(* ===================================================================== *)

(** Instances of Python's [Exception], all of which [except Exception]
    catches. *)
Inductive exn : Type :=
| FileNotFoundError (msg : string)
| ValueError (msg : string)
| UnboundLocalError (name : string)
| KeyError (name : string)
| LibraryError (msg : string).

(** A printed line is kept as its pieces; the decimal rendering of numbers
    is not modelled. *)
Inductive Piece : Type :=
| Str (s : string)
| Int (z : Z)
| Exn (e : exn)
| Names (l : list string)
| Table (df : DataFrame).

(** What a written file holds.  Files whose content no step computes in
    this model are [Text], [Image] or [Csv]. *)
Inductive Artifact : Type :=
| Text
| Image
| Csv
| FrameCsv (f : Frame)
| SeriesCsv (s : Series)
| SummaryCsv (n_rows n_columns positive_labels negative_labels : Z).

(** What a run does that can be observed: lines printed, the traceback,
    the file read, files written, and the row samples drawn (with the size
    asked for, the [random_state] passed, and what came back). *)
Inductive Event : Type :=
| Print (line : list Piece)
| Traceback (e : exn)
| ReadCsv (path : string)
| Write (path : string) (a : Artifact)
| Sample (n : Z) (random_state : option Z) (drawn : exn + list (list Cell)).

(** The local variables of [perform_eda] that are assigned inside one
    [try] block and read in a later one.  [None] is an unbound name. *)
Record Locals : Type := mkLocals {
  corr : option Frame;
  sample_n : option Z
}.

Record Res (A : Type) : Type := mkRes {
  result : exn + A;
  locals : Locals;
  events : list Event
}.
Arguments mkRes {A} _ _ _.
Arguments result {A} _.
Arguments locals {A} _.
Arguments events {A} _.

(** A computation reads and updates the local variables, emits events in
    order, and returns or raises. *)
Definition M (A : Type) : Type := Locals -> Res A.

Definition ret {A} (a : A) : M A := fun l => mkRes (inr a) l [].

Definition raise {A} (e : exn) : M A := fun l => mkRes (inl e) l [].

Definition bind {A B} (m : M A) (f : A -> M B) : M B := fun l =>
  let r := m l in
  match result r with
  | inl e => mkRes (inl e) (locals r) (events r)
  | inr a =>
      let r' := f a (locals r) in
      mkRes (result r') (locals r') (events r ++ events r')
  end.

(** [try: m  except Exception as e: h e].  Assignments and output made
    before the exception stay. *)
Definition try_except {A} (m : M A) (h : exn -> M A) : M A := fun l =>
  let r := m l in
  match result r with
  | inl e =>
      let r' := h e (locals r) in
      mkRes (result r') (locals r') (events r ++ events r')
  | inr _ => r
  end.

Definition emit (e : Event) : M unit := fun l => mkRes (inr tt) l [e].

Declare Scope run_scope.
Delimit Scope run_scope with run.
Notation "x <- m ;; k" := (bind m (fun x => k))
  (at level 100, m at next level, right associativity) : run_scope.
Notation "m ;; k" := (bind m (fun _ => k))
  (at level 100, right associativity) : run_scope.
Local Open Scope run_scope.

Definition print (line : list Piece) : M unit := emit (Print line).

(** [for x in xs: body x] *)
Fixpoint for_each {A} (xs : list A) (body : A -> M unit) : M unit :=
  match xs with
  | [] => ret tt
  | x :: rest => body x ;; for_each rest body
  end.

(** A delimited file as the reader tokenises it: its data rows, field by
    field (a row may have any number of fields), and, since a cell keeps
    the value of a field and not its spelling, whether the field at a row
    and position is written as an integer. *)
Record CsvFile : Type := mkCsvFile {
  fields : list (list Cell);
  integer_literal : nat -> nat -> bool
}.

(** The circumstances of one run: what the disk holds at a path (nothing,
    something the reader fails on, or a delimited file), which library
    calls raise ([fails step function argument]), and the state of numpy's
    global generator. *)
Record Env : Type := mkEnv {
  disk : string -> option (exn + CsvFile);
  fails : nat -> string -> string -> option exn;
  global_rng : Z
}.

(** The values pandas and numpy compute, the same in every run: the
    correlation matrix, the variances, the row positions a generator in a
    given state picks ([choice state population n]), and which of two
    entries of equal value a sort puts first (pandas' default sort is not
    stable). *)
Record Lib : Type := mkLib {
  df_corr : DataFrame -> Frame;
  df_var : DataFrame -> Series;
  choice : Z -> nat -> nat -> list nat;
  tie_first : string * Cell -> string * Cell -> bool
}.

(** A library call that has no effect the model keeps, beyond raising. *)
Definition call (oracle : string -> string -> option exn)
    (function argument : string) : M unit :=
  match oracle function argument with
  | Some e => raise e
  | None => ret tt
  end.

(* ===================================================================== *)
(** ** higgs_loader.py *)
(* ===================================================================== *)

Definition low_level : list string :=
  [ "lepton_pT"; "lepton_eta"; "lepton_phi";
    "missing_energy_magnitude"; "missing_energy_phi";
    "jet1_pt"; "jet1_eta"; "jet1_phi"; "jet1_b-tag";
    "jet2_pt"; "jet2_eta"; "jet2_phi"; "jet2_b-tag";
    "jet3_pt"; "jet3_eta"; "jet3_phi"; "jet3_b-tag";
    "jet4_pt"; "jet4_eta"; "jet4_phi"; "jet4_b-tag" ].

Definition high_level : list string :=
  [ "m_jj"; "m_jjj"; "m_lv"; "m_jlv"; "m_bb"; "m_wbb"; "m_wwbb" ].

(** [os.path.exists] *)
Definition path_exists (env : Env) (path : string) : bool :=
  match disk env path with
  | Some _ => true
  | None => false
  end.

Definition is_integer (c : Cell) : bool :=
  match c with
  | Num q => Qeq_bool q (inject_Z (Qfloor q))
  | NaN => false
  end.

(** The dtype pandas infers for a column of numeric fields: [int64] when
    every field read is written as an integer, [float64] otherwise (a
    missing field makes the column [float64]); a column of no field at all
    is [object]. *)
Definition infer_dtype (literals : list bool) (cells : list Cell) : Dtype :=
  match cells with
  | [] => Object
  | _ =>
      if forallb (fun b => b) literals && forallb is_integer cells
      then Int64 else Float64
  end.

(** The schema of the rows [table], whose field [i] was at position
    [lead + i] of the file *)
Fixpoint name_columns (file : CsvFile) (lead i : nat) (names : list string)
    (table : list (list Cell)) : list (string * Dtype) :=
  match names with
  | [] => []
  | n :: rest =>
      (n, infer_dtype
            (map (fun r => integer_literal file r (lead + i))
                 (seq 0 (List.length table)))
            (map (fun r => nth i r NaN) table))
        :: name_columns file lead (S i) rest table
  end.

(** A row with fewer fields than expected is filled with missing values. *)
Definition pad (width : nat) (r : list Cell) : list Cell :=
  (r ++ repeat NaN (width - List.length r))%list.

(** The number of fields the reader expects in a row: that of the first
    row of the file, and at least one per name. *)
Definition expected_fields (file : CsvFile) (names : list string) : nat :=
  Nat.max (List.length (hd [] (fields file))) (List.length names).

(** The first row with more than [expected] fields, with its line number
    in the file (lines count from 1; the file has no header line). *)
Fixpoint first_long_row (expected line : nat) (read : list (list Cell))
    : option (nat * nat) :=
  match read with
  | [] => None
  | r :: rest =>
      if (expected <? List.length r)%nat then Some (line, List.length r)
      else first_long_row expected (S line) rest
  end.

Definition decimal (n : nat) : string :=
  NilEmpty.string_of_uint (Nat.to_uint n).

Definition newline : string := String (ascii_of_nat 10) "".

(** The message of the tokeniser's error *)
Definition too_many_fields (expected line saw : nat) : exn :=
  ValueError ("Error tokenizing data. C error: Expected " ++ decimal expected
              ++ " fields in line " ++ decimal line
              ++ ", saw " ++ decimal saw ++ newline).

(** The rows [read] as a table under [names].  A row with more fields
    than expected is an error of the tokeniser (a [ParserError], which is
    a [ValueError]); when the first row has more fields than there are
    names, the leading fields are the index and the names apply to the
    fields after them. *)
Definition parse (file : CsvFile) (names : list string)
    (read : list (list Cell)) : M DataFrame :=
  let expected := expected_fields file names in
  match first_long_row expected 1 read with
  | Some (line, saw) => raise (too_many_fields expected line saw)
  | None =>
      let lead := (expected - List.length names)%nat in
      let table := map (fun r => skipn lead (pad expected r)) read in
      ret (mkDataFrame (name_columns file lead 0 names table) table)
  end.

(** [pd.read_csv(path, names=names, nrows=nrows)]: no header line, the
    names applied by position, at most [nrows] rows from the start. *)
Definition read_csv (env : Env) (path : string) (names : list string)
    (nrows : option Z) : M DataFrame :=
  emit (ReadCsv path) ;;
  match disk env path with
  | None => raise (FileNotFoundError path)
  | Some (inl e) => raise e
  | Some (inr file) =>
      match nrows with
      | None => parse file names (fields file)
      | Some n =>
          if n <? 0 then raise (ValueError "'nrows' must be an integer >=0")
          else parse file names (firstn (Z.to_nat n) (fields file))
      end
  end.

Definition load_data (env : Env) (file_path : string) (nrows : option Z)
    : M DataFrame :=
  if negb (path_exists env file_path) then
    raise (FileNotFoundError ("File not found: " ++ file_path))
  else
    let columns := (["label"] ++ low_level ++ high_level)%list in
    print [Str "Loading data from "; Str file_path; Str "..."] ;;
    df <- read_csv env file_path columns nrows ;;
    print [Str "Loaded "; Int (len df); Str " rows and ";
           Int (shape1 df); Str " columns."] ;;
    print [Table (head 10 df)] ;;
    ret df.

(* ===================================================================== *)
(** ** EDA_UCI_HIGGS_DATASET.py: what the script computes itself *)
(* ===================================================================== *)

Definition OUTPUT_DIR : string := "results/eda".

(** [os.path.join(OUTPUT_DIR, name)] *)
Definition out_path (name : string) : string := OUTPUT_DIR ++ "/" ++ name.

Definition default_features : list string :=
  [ "lepton_pT"; "lepton_eta"; "missing_energy_magnitude";
    "jet1_pt"; "jet1_b-tag"; "m_jj"; "m_wwbb" ].

Definition is_number (d : Dtype) : bool :=
  match d with
  | Object => false
  | _ => true
  end.

(** [df.select_dtypes(include=[np.number]).columns.tolist()] *)
Definition numeric_columns (df : DataFrame) : list string :=
  map fst (filter (fun c => is_number (snd c)) (schema df)).

Definition not_label (col : string) : bool := negb (String.eqb col "label").

(** Lines 89-98: the preferred features that exist, else the first seven
    numeric columns other than the label. *)
Definition select_features (df : DataFrame) : list string :=
  let features := filter (fun f => mem f (columns df)) default_features in
  match features with
  | [] =>
      let numeric_cols := numeric_columns df in
      firstn 7 (filter not_label numeric_cols)
  | _ => features
  end.

(** Line 178: [min(20000, max(2000, len(df) // 50))] *)
Definition kde_sample_n (df : DataFrame) : Z :=
  Z.min 20000 (Z.max 2000 (len df / 50)).

(** Line 223 *)
Definition pair_size (sample_n : Z) : Z := Z.min 5000 sample_n.

(** Line 254 *)
Definition scatter_size (sample_n : Z) : Z := Z.min 15000 sample_n.

(** Lines 119 and 203: [(num_feats + cols - 1) // cols] *)
Definition grid_rows (num_feats cols : nat) : nat :=
  ((num_feats + cols - 1) / cols)%nat.

(** [frame.columns] and [frame[name]] *)
Definition frame_columns (f : Frame) : list string := map fst f.

Fixpoint getitem (f : Frame) (name : string) : option Series :=
  match f with
  | [] => None
  | (n, s) :: rest => if String.eqb name n then Some s else getitem rest name
  end.

(** [series.drop(label, errors="ignore")] *)
Definition drop (label : string) (s : Series) : Series :=
  filter (fun e => negb (String.eqb (fst e) label)) s.

(** The order [sort_values(ascending=False)] puts values in: larger
    first, missing values last. *)
Definition cell_geb (x y : Cell) : bool :=
  match x, y with
  | Num a, Num b => Qle_bool b a
  | _, NaN => true
  | NaN, Num _ => false
  end.

(** [insert_desc first e s] puts [e] into the sorted [s]: before the
    first entry of smaller value, and among entries of equal value where
    [first] says. *)
Fixpoint insert_desc (first : string * Cell -> string * Cell -> bool)
    (e : string * Cell) (s : Series) : Series :=
  match s with
  | [] => [e]
  | x :: rest =>
      if cell_geb (snd e) (snd x) then
        if cell_geb (snd x) (snd e) then
          if first e x then e :: x :: rest
          else x :: insert_desc first e rest
        else e :: x :: rest
      else x :: insert_desc first e rest
  end.

(** [series.sort_values(ascending=False)]: sorted by value; the order of
    entries of equal value is the library's. *)
Definition sort_values_desc (lib : Lib) (s : Series) : Series :=
  fold_right (insert_desc (tie_first lib)) [] s.

(** Line 165: [corr["label"].drop("label", errors="ignore")
    .sort_values(ascending=False)] *)
Definition label_corr_of (lib : Lib) (column_of_label : Series) : Series :=
  sort_values_desc lib (drop "label" column_of_label).

(** [series.sum()], which skips missing values.  The sum is exact here;
    pandas adds the values as float64 (or int64), which gives the same
    sum on the 0 and 1 of a label column. *)
Definition series_sum (cells : list Cell) : Q :=
  fold_left (fun acc c => match c with Num q => (acc + q)%Q | NaN => acc end)
            cells 0%Q.

(** [(series == 0).sum()] *)
Definition count_zero (cells : list Cell) : Z :=
  Z.of_nat (List.length
    (filter (fun c => match c with Num q => Qeq_bool q 0 | NaN => false end)
            cells)).

(** Python's [int()] on a float: truncation toward zero *)
Definition py_int (q : Q) : Z := Z.quot (Qnum q) (Zpos (Qden q)).

(** Lines 297-302: the one row of the summary overview *)
Definition summary_of (df : DataFrame) (label : list Cell) : Artifact :=
  SummaryCsv (len df) (shape1 df)
             (py_int (series_sum label)) (count_zero label).

(** What [df.sample(n)] draws with a generator in state [state]: an
    error when rows are asked of a table that has none, or more rows than
    the table has (the sample is without replacement), else the rows at
    the positions picked. *)
Definition draw (lib : Lib) (state : Z) (df : DataFrame) (n : Z)
    : exn + list (list Cell) :=
  if n <? 0 then
    inl (ValueError
      "A negative number of rows requested. Please provide `n` >= 0.")
  else if (len df =? 0) && (0 <? n) then
    inl (ValueError "a must be greater than 0 unless no samples are taken")
  else if len df <? n then
    inl (ValueError
      "Cannot take a larger sample than population when 'replace=False'")
  else
    inr (map (fun i => nth i (rows df) [])
             (choice lib state (List.length (rows df)) (Z.to_nat n))).

(** [df.sample(n, random_state=random_state)]: the generator is seeded
    with [random_state], or is numpy's global one (in state [global]) when
    none is passed. *)
Definition df_sample (lib : Lib) (global : Z) (df : DataFrame) (n : Z)
    (random_state : option Z) : M DataFrame :=
  let state :=
    match random_state with
    | Some seed => seed
    | None => global
    end in
  let drawn := draw lib state df n in
  emit (Sample n random_state drawn) ;;
  match drawn with
  | inl e => raise e
  | inr picked => ret (mkDataFrame (schema df) picked)
  end.

(** Reading and assigning the locals shared between [try] blocks. *)
Definition set_corr (c : Frame) : M unit := fun l =>
  mkRes (inr tt) (mkLocals (Some c) (sample_n l)) [].

Definition set_sample_n (n : Z) : M unit := fun l =>
  mkRes (inr tt) (mkLocals (corr l) (Some n)) [].

Definition read_corr : M Frame := fun l =>
  match corr l with
  | Some c => mkRes (inr c) l []
  | None => mkRes (inl (UnboundLocalError "corr")) l []
  end.

Definition read_sample_n : M Z := fun l =>
  match sample_n l with
  | Some n => mkRes (inr n) l []
  | None => mkRes (inl (UnboundLocalError "sample_n")) l []
  end.

(** [obj.to_csv(path)] and [fig.savefig(path)]: the call raises, or the
    file is written. *)
Definition to_csv (oracle : string -> string -> option exn)
    (obj path : string) (content : Artifact) : M unit :=
  call oracle (obj ++ ".to_csv") path ;;
  emit (Write path content).

Definition savefig (oracle : string -> string -> option exn)
    (obj path : string) : M unit :=
  call oracle (obj ++ ".savefig") path ;;
  emit (Write path Image).

(* ===================================================================== *)
(** ** EDA_UCI_HIGGS_DATASET.py: [save_plot] and the steps of
       [perform_eda] *)
(* ===================================================================== *)

(** The oracle of one step: [oracle function argument] is the exception
    the call raises in this run, if any. *)
Definition Oracle : Type := string -> string -> option exn.

(** Lines 29-43.  The fallback and the final [plt.close("all")] are as in
    the source; only an exception of that last call leaves [save_plot]. *)
Definition save_plot (o : Oracle) (path : string) : M unit :=
  try_except
    (savefig o "fig" path ;;
     call o "plt.close" "fig")
    (fun _ =>
       try_except
         (savefig o "plt" path ;;
          call o "plt.close" "")
         (fun e =>
            print [Str "Could not save plot: "; Str path; Exn e] ;;
            call o "plt.close" "all")).

Section Steps.

Variable lib : Lib.
Variable df : DataFrame.
Variable features : list string.

(** [for ax in axes[used:]: ax.axis("off")] on a grid of [cells] axes *)
Definition hide_unused (o : Oracle) (used cells : nat) : M unit :=
  for_each (seq used (cells - used)) (fun _ => call o "ax.axis" "off").

(** Each step is a [try] block and a handler that prints one line: the
    statements inside the [try] are [step_k_try], the step is
    [try_except step_k_try handler]. *)

(** Lines 105-111 *)
Definition step_1_try (o : Oracle) : M unit :=
  call o "plt.subplots" "" ;;
  call o "sns.countplot" "label" ;;
  call o "ax.set_title" "Target Label Distribution" ;;
  save_plot o (out_path "1_target_distribution.png").

Definition step_1_target_distribution (o : Oracle) : M unit :=
  try_except (step_1_try o)
    (fun e => print [Str "Error while plotting target distribution:"; Exn e]).

(** Lines 116-134 *)
Definition step_2_try (o : Oracle) : M unit :=
  let num_feats := List.length features in
  let cols := 3%nat in
  let rows := grid_rows num_feats cols in
  call o "plt.subplots" "" ;;
  call o "axes.flatten" "" ;;
  for_each features (fun feature =>
    call o "sns.histplot" feature ;;
    call o "ax.set_title" feature) ;;
  hide_unused o num_feats (rows * cols) ;;
  call o "plt.tight_layout" "" ;;
  save_plot o (out_path "2_feature_histograms.png").

Definition step_2_feature_histograms (o : Oracle) : M unit :=
  try_except (step_2_try o)
    (fun e => print [Str "Error while creating histograms:"; Exn e]).

(** Lines 139-147.  [corr] is bound as soon as [df.corr()] returns. *)
Definition step_3_try (o : Oracle) : M unit :=
  call o "df.corr" "" ;;
  let c := df_corr lib df in
  set_corr c ;;
  call o "plt.subplots" "" ;;
  call o "sns.heatmap" "" ;;
  call o "ax.set_title" "Correlation Matrix" ;;
  save_plot o (out_path "3_correlation_matrix.png") ;;
  to_csv o "corr" (out_path "3_correlation_matrix.csv") (FrameCsv c).

Definition step_3_correlation_matrix (o : Oracle) : M unit :=
  try_except (step_3_try o)
    (fun e => print [Str "Error computing correlation matrix:"; Exn e]).

(** Lines 152-158 *)
Definition step_4_try (o : Oracle) : M unit :=
  call o "plt.subplots" "" ;;
  call o "df.isnull" "" ;;
  call o "sns.heatmap" "" ;;
  call o "ax.set_title" "Missing Value Heatmap" ;;
  save_plot o (out_path "4_missing_value_heatmap.png").

Definition step_4_missing_value_heatmap (o : Oracle) : M unit :=
  try_except (step_4_try o)
    (fun e => print [Str "Error creating missing-value heatmap:"; Exn e]).

(** Lines 163-172.  The step reads the [corr] of step 3. *)
Definition step_5_body (o : Oracle) (c : Frame) : M unit :=
  if mem "label" (frame_columns c) then
    match getitem c "label" with
    | None => raise (KeyError "label")
    | Some column_of_label =>
        let label_corr := label_corr_of lib column_of_label in
        call o "plt.subplots" "" ;;
        call o "label_corr.plot" "barh" ;;
        call o "ax.set_title" "Correlation with Target Label" ;;
        save_plot o (out_path "5_corr_with_target.png") ;;
        to_csv o "label_corr" (out_path "5_corr_with_target.csv")
               (SeriesCsv label_corr)
    end
  else ret tt.

Definition step_5_try (o : Oracle) : M unit :=
  c <- read_corr ;;
  step_5_body o c.

Definition step_5_corr_with_target (o : Oracle) : M unit :=
  try_except (step_5_try o)
    (fun e => print [Str "Error while computing correlation with target:";
                     Exn e]).

(** Lines 177-195 *)
Definition step_6_body (o : Oracle) (global : Z) (n0 : Z) : M unit :=
  sample_df <- df_sample lib global df n0 (Some 42) ;;
  let n := Nat.min (List.length features) 6 in
  let rows := ((n + 2) / 3)%nat in
  call o "plt.subplots" "" ;;
  call o "axes.flatten" "" ;;
  for_each (firstn n features) (fun feat =>
    call o "sns.kdeplot" feat ;;
    call o "ax.set_title" ("KDE: " ++ feat)) ;;
  hide_unused o n (rows * 3) ;;
  save_plot o (out_path "6_kde_plots.png").

Definition step_6_try (o : Oracle) (global : Z) : M unit :=
  let n0 := kde_sample_n df in
  set_sample_n n0 ;;
  step_6_body o global n0.

Definition step_6_kde_plots (o : Oracle) (global : Z) : M unit :=
  try_except (step_6_try o global)
    (fun e => print [Str "Error creating KDE plots:"; Exn e]).

(** Lines 200-217 *)
Definition step_7_try (o : Oracle) : M unit :=
  let num_feats := List.length features in
  let cols := 3%nat in
  let rows := grid_rows num_feats cols in
  call o "plt.subplots" "" ;;
  call o "axes.flatten" "" ;;
  for_each features (fun feat =>
    call o "sns.boxplot" feat ;;
    call o "ax.set_title" ("Boxplot: " ++ feat)) ;;
  hide_unused o num_feats (rows * cols) ;;
  save_plot o (out_path "7_boxplots_by_label.png").

Definition step_7_boxplots_by_label (o : Oracle) : M unit :=
  try_except (step_7_try o)
    (fun e => print [Str "Error creating boxplots:"; Exn e]).

(** Lines 222-232.  The step reads the [sample_n] of step 6. *)
Definition step_8_body (o : Oracle) (global : Z) (n0 : Z) : M unit :=
  pair_df <- df_sample lib global df (pair_size n0) (Some 42) ;;
  let pair_features := ("label" :: firstn 4 features)%list in
  call o "pair_df.__getitem__" "" ;;
  call o "sns.pairplot" "" ;;
  call o "pp.fig.suptitle" "Pairplot (Sample)" ;;
  savefig o "pp.fig" (out_path "8_pairplot_sample.png") ;;
  call o "plt.close" "".

Definition step_8_try (o : Oracle) (global : Z) : M unit :=
  n0 <- read_sample_n ;;
  step_8_body o global n0.

Definition step_8_pairplot (o : Oracle) (global : Z) : M unit :=
  try_except (step_8_try o global)
    (fun e => print [Str "Pairplot skipped:"; Exn e]).

(** Lines 237-247 *)
Definition step_9_try (o : Oracle) : M unit :=
  call o "df.var" "" ;;
  let variance := sort_values_desc lib (df_var lib df) in
  let top_var := firstn 15 variance in
  call o "plt.subplots" "" ;;
  call o "top_var.plot" "barh" ;;
  call o "ax.set_title" "Top 15 Most Variable Features" ;;
  save_plot o (out_path "9_feature_variance.png") ;;
  to_csv o "top_var" (out_path "9_feature_variance.csv") (SeriesCsv top_var).

Definition step_9_feature_variance (o : Oracle) : M unit :=
  try_except (step_9_try o)
    (fun e => print [Str "Error computing feature variance:"; Exn e]).

(** Lines 252-269 *)
Definition step_10_body (o : Oracle) (global : Z) (n0 : Z) : M unit :=
  scatter_df <- df_sample lib global df (scatter_size n0) (Some 42) ;;
  call o "plt.subplots" "" ;;
  call o "sns.scatterplot" "" ;;
  call o "ax.set_title" "lepton_pT vs missing_energy_magnitude" ;;
  save_plot o (out_path "10_jointplot_scatter.png").

Definition step_10_try (o : Oracle) (global : Z) : M unit :=
  if mem "lepton_pT" (columns df)
     && mem "missing_energy_magnitude" (columns df)
  then
    n0 <- read_sample_n ;;
    step_10_body o global n0
  else ret tt.

Definition step_10_scatter (o : Oracle) (global : Z) : M unit :=
  try_except (step_10_try o global)
    (fun e => print [Str "Error creating scatter plot:"; Exn e]).

(** Lines 274-291 *)
Definition step_11_try (o : Oracle) : M unit :=
  let num_cols := numeric_columns df in
  let num_cols := filter not_label num_cols in
  let check_cols := firstn 6 num_cols in
  call o "plt.subplots" "" ;;
  call o "axes.flatten" "" ;;
  for_each check_cols (fun col =>
    call o "sns.boxplot" col ;;
    call o "ax.set_title" ("Outliers: " ++ col)) ;;
  hide_unused o (List.length check_cols) 6 ;;
  save_plot o (out_path "11_outlier_iqr.png").

Definition step_11_outliers (o : Oracle) : M unit :=
  try_except (step_11_try o)
    (fun e => print [Str "Error computing outliers:"; Exn e]).

(** Lines 296-305 *)
Definition step_12_try (o : Oracle) : M unit :=
  match column df "label" with
  | None => raise (KeyError "label")
  | Some label =>
      let summary := summary_of df label in
      call o "pd.DataFrame" "" ;;
      to_csv o "summary" (out_path "12_summary_overview.csv") summary
  end.

Definition step_12_summary (o : Oracle) : M unit :=
  try_except (step_12_try o)
    (fun e => print [Str "Error saving summary file:"; Exn e]).

End Steps.

(** Lines 65-307: [perform_eda] once the table is loaded.  The three
    statements at the top are not inside any [try]; the twelve steps are. *)
Definition report (lib : Lib) (env : Env) (df : DataFrame) : M unit :=
  let o := fails env in
  print [Str "Loaded "; Int (len df); Str " rows and "; Int (shape1 df);
         Str " columns."] ;;
  let info_file := out_path "0_info.txt" in
  call (o 0%nat) "open" info_file ;;
  emit (Write info_file Text) ;;
  call (o 0%nat) "df.info" "" ;;
  print [Str "Saved dataset info."] ;;
  call (o 0%nat) "df.describe" "" ;;
  call (o 0%nat) "transpose" "" ;;
  to_csv (o 0%nat) "describe" (out_path "1_describe.csv") Csv ;;
  print [Str "Saved summary statistics."] ;;
  call (o 0%nat) "df.isnull" "" ;;
  call (o 0%nat) "sum" "" ;;
  to_csv (o 0%nat) "isnull" (out_path "2_missing_values.csv") Csv ;;
  print [Str "Saved missing value report."] ;;
  if negb (mem "label" (columns df)) then
    print [Str "The dataset does not contain a 'label' column. Stopping EDA."]
  else
    let features := select_features df in
    print [Str "Using these features:"; Names features] ;;
    step_1_target_distribution (o 1%nat) ;;
    step_2_feature_histograms features (o 2%nat) ;;
    step_3_correlation_matrix lib df (o 3%nat) ;;
    step_4_missing_value_heatmap (o 4%nat) ;;
    step_5_corr_with_target lib (o 5%nat) ;;
    step_6_kde_plots lib df features (o 6%nat) (global_rng env) ;;
    step_7_boxplots_by_label features (o 7%nat) ;;
    step_8_pairplot lib df features (o 8%nat) (global_rng env) ;;
    step_9_feature_variance lib df (o 9%nat) ;;
    step_10_scatter lib df (o 10%nat) (global_rng env) ;;
    step_11_outliers df (o 11%nat) ;;
    step_12_summary df (o 12%nat) ;;
    print [Str "EDA complete. All results saved in:"; Str OUTPUT_DIR].

(** Lines 46-63, then [report].  [load_data] is called with its default
    path. *)
Definition perform_eda (lib : Lib) (env : Env) (nrows : Z) : M unit :=
  print [Str "Loading up to "; Int nrows; Str " rows..."] ;;
  loaded <- try_except
              (df <- load_data env "HIGGS.csv.gz" (Some nrows) ;;
               ret (Some df))
              (fun e =>
                 print [Str "Could not load dataset:"; Exn e] ;;
                 emit (Traceback e) ;;
                 ret None) ;;
  match loaded with
  | None => ret tt
  | Some df => report lib env df
  end.

(** A run starts with no local bound. *)
Definition start : Locals := mkLocals None None.

(** The files a trace writes, the samples it draws, the lines it prints *)
Definition written (evs : list Event) : list (string * Artifact) :=
  flat_map (fun e => match e with Write p a => [(p, a)] | _ => [] end) evs.

Definition sampled (evs : list Event)
    : list (Z * option Z * (exn + list (list Cell))) :=
  flat_map (fun e => match e with Sample n s d => [(n, s, d)] | _ => [] end)
           evs.

Definition printed (evs : list Event) : list (list Piece) :=
  flat_map (fun e => match e with Print line => [line] | _ => [] end) evs.

(* ===================================================================== *)
(** ** Definitions used by the statements *)
(* ===================================================================== *)

(** The 29 names of the schema, as [load_data] builds them *)
Definition schema_names : list string :=
  (["label"] ++ low_level ++ high_level)%list.

(** [clamp x lo hi], in the words of the specification: [x] brought into
    the interval from [lo] to [hi] *)
Definition clamp (x lo hi : Z) : Z :=
  if x <? lo then lo else if hi <? x then hi else x.

(** No library call of the run raises / of one step raises *)
Definition no_failure : Oracle := fun _ _ => None.

(** Concrete inputs for the examples below *)
Definition lib0 : Lib :=
  mkLib (fun df => map (fun c => (c, map (fun r => (r, Num 0)) (columns df)))
                       (columns df))
        (fun df => map (fun c => (c, Num 1)) (columns df))
        (fun state population n => seq 0 n)
        (fun _ _ => true).

Definition event_row (label lepton_pT : Z) : list Cell :=
  Num (inject_Z label) :: Num (inject_Z lepton_pT) :: repeat (Num 0) 27.

Definition three_rows : list (list Cell) :=
  [event_row 1 10; event_row 0 20; event_row 1 30].

Definition file_three_rows : CsvFile :=
  mkCsvFile three_rows (fun _ _ => false).

Definition env_three_rows : Env :=
  mkEnv (fun path => if String.eqb path "HIGGS.csv.gz"
                     then Some (inr file_three_rows) else None)
        (fun _ => no_failure) 0.

Definition env_no_file : Env :=
  mkEnv (fun _ => None) (fun _ => no_failure) 0.

(** The preliminary statements raise nothing in this run *)
Definition prelim_ok (env : Env) : Prop :=
  forall function argument, fails env 0%nat function argument = None.

(** The step an artifact belongs to: 0 for the three preliminary files,
    1 to 12 for the steps *)
Definition artifact_steps : list (string * nat) :=
  [ (out_path "0_info.txt", 0); (out_path "1_describe.csv", 0);
    (out_path "2_missing_values.csv", 0);
    (out_path "1_target_distribution.png", 1);
    (out_path "2_feature_histograms.png", 2);
    (out_path "3_correlation_matrix.png", 3);
    (out_path "3_correlation_matrix.csv", 3);
    (out_path "4_missing_value_heatmap.png", 4);
    (out_path "5_corr_with_target.png", 5);
    (out_path "5_corr_with_target.csv", 5);
    (out_path "6_kde_plots.png", 6);
    (out_path "7_boxplots_by_label.png", 7);
    (out_path "8_pairplot_sample.png", 8);
    (out_path "9_feature_variance.png", 9);
    (out_path "9_feature_variance.csv", 9);
    (out_path "10_jointplot_scatter.png", 10);
    (out_path "11_outlier_iqr.png", 11);
    (out_path "12_summary_overview.csv", 12) ]%nat.

Fixpoint owner_in (table : list (string * nat)) (path : string)
    : option nat :=
  match table with
  | [] => None
  | (p, k) :: rest => if String.eqb path p then Some k else owner_in rest path
  end.

Definition owned_by (k : nat) (path : string) : bool :=
  match owner_in artifact_steps path with
  | Some j => Nat.eqb j k
  | None => false
  end.

(** The artifacts of step [k] in a trace *)
Definition written_by (k : nat) (evs : list Event)
    : list (string * Artifact) :=
  filter (fun pa => owned_by k (fst pa)) (written evs).

(** An event step [k] may emit outside its sampling call: any line, and
    writes of its own artifacts only *)
Definition allowed (k : nat) (e : Event) : bool :=
  match e with
  | Write p _ => owned_by k p
  | Sample _ _ _ => false
  | _ => true
  end.

(** A computation that neither reads nor assigns the locals, and whose
    events all satisfy [P] *)
Definition quiet {A} (P : Event -> bool) (m : M A) : Prop :=
  exists (r : exn + A) (evs : list Event),
    forallb P evs = true /\ forall l, m l = mkRes r l evs.

(** Computations run one after the other, each from the locals the one
    before it left: the locals at the end, and the events in order *)
Fixpoint locals_all (ms : list (M unit)) (l : Locals) : Locals :=
  match ms with
  | [] => l
  | m :: rest => locals_all rest (locals (m l))
  end.

Fixpoint trace_all (ms : list (M unit)) (l : Locals) : list Event :=
  match ms with
  | [] => []
  | m :: rest => (events (m l) ++ trace_all rest (locals (m l)))%list
  end.

(** The line that closes a complete run *)
Definition closing_line : Event :=
  Print [Str "EDA complete. All results saved in:"; Str OUTPUT_DIR].

(** What step 5 writes for a correlation matrix when none of its calls
    raises *)
Definition corr_with_target_files (lib : Lib) (c : Frame)
    : list (string * Artifact) :=
  if mem "label" (frame_columns c) then
    match getitem c "label" with
    | Some col =>
        [ (out_path "5_corr_with_target.png", Image);
          (out_path "5_corr_with_target.csv",
           SeriesCsv (label_corr_of lib col)) ]
    | None => []
    end
  else [].

(** What a run writes when the three sampling steps write nothing and no
    call of the other steps raises *)
Definition artifacts_without_sampling (lib : Lib) (df : DataFrame)
    (label : list Cell) : list (string * Artifact) :=
  ([ (out_path "0_info.txt", Text);
     (out_path "1_describe.csv", Csv);
     (out_path "2_missing_values.csv", Csv);
     (out_path "1_target_distribution.png", Image);
     (out_path "2_feature_histograms.png", Image);
     (out_path "3_correlation_matrix.png", Image);
     (out_path "3_correlation_matrix.csv", FrameCsv (df_corr lib df));
     (out_path "4_missing_value_heatmap.png", Image) ]
   ++ corr_with_target_files lib (df_corr lib df)
   ++ [ (out_path "7_boxplots_by_label.png", Image);
        (out_path "9_feature_variance.png", Image);
        (out_path "9_feature_variance.csv",
         SeriesCsv (firstn 15 (sort_values_desc lib (df_var lib df))));
        (out_path "11_outlier_iqr.png", Image);
        (out_path "12_summary_overview.csv", summary_of df label) ])%list.

(** The error of a sample larger than the table, that of a sample of a
    table without rows, and the one a table raises for a sample of [n] *)
Definition too_large : exn :=
  ValueError "Cannot take a larger sample than population when 'replace=False'".

Definition empty_population : exn :=
  ValueError "a must be greater than 0 unless no samples are taken".

Definition sample_error (df : DataFrame) : exn :=
  if len df =? 0 then empty_population else too_large.

(** A result with events emitted before it *)
Definition prefix {A} (evs : list Event) (r : Res A) : Res A :=
  mkRes (result r) (locals r) (evs ++ events r).

(** The locals once step 3 is over (in a run that started with none
    bound), and once step 6 is over *)
Definition locals_3 (lib : Lib) (o3 : Oracle) (df : DataFrame) : Locals :=
  mkLocals (match o3 "df.corr" "" with
            | Some _ => None
            | None => Some (df_corr lib df)
            end) None.

Definition locals_6 (lib : Lib) (o3 : Oracle) (df : DataFrame) : Locals :=
  mkLocals (corr (locals_3 lib o3 df)) (Some (kde_sample_n df)).

(** The events of step [k] in the run of [report] on [df] *)
Definition step_events (lib : Lib) (env : Env) (df : DataFrame) (k : nat)
    : list Event :=
  let o := fails env in
  let g := global_rng env in
  let features := select_features df in
  let l3 := locals_3 lib (o 3%nat) df in
  let l6 := locals_6 lib (o 3%nat) df in
  match k with
  | 1%nat => events (step_1_target_distribution (o 1%nat) start)
  | 2%nat => events (step_2_feature_histograms features (o 2%nat) start)
  | 3%nat => events (step_3_correlation_matrix lib df (o 3%nat) start)
  | 4%nat => events (step_4_missing_value_heatmap (o 4%nat) l3)
  | 5%nat => events (step_5_corr_with_target lib (o 5%nat) l3)
  | 6%nat => events (step_6_kde_plots lib df features (o 6%nat) g l3)
  | 7%nat => events (step_7_boxplots_by_label features (o 7%nat) l6)
  | 8%nat => events (step_8_pairplot lib df features (o 8%nat) g l6)
  | 9%nat => events (step_9_feature_variance lib df (o 9%nat) l6)
  | 10%nat => events (step_10_scatter lib df (o 10%nat) g l6)
  | 11%nat => events (step_11_outliers df (o 11%nat) l6)
  | 12%nat => events (step_12_summary df (o 12%nat) l6)
  | _ => []
  end.

(** The test of line 253 *)
Definition has_scatter_columns (df : DataFrame) : bool :=
  mem "lepton_pT" (columns df) && mem "missing_energy_magnitude" (columns df).

(** The samples a run of the twelve steps draws, in order: steps 6 and 8,
    and step 10 when its two columns are there *)
Definition expected_samples (lib : Lib) (df : DataFrame)
    : list (Z * option Z * (exn + list (list Cell))) :=
  let s := kde_sample_n df in
  ([ (s, Some 42, draw lib 42 df s);
     (pair_size s, Some 42, draw lib 42 df (pair_size s)) ]
   ++ (if has_scatter_columns df
       then [ (scatter_size s, Some 42, draw lib 42 df (scatter_size s)) ]
       else []))%list.

(** An event that is not a write of another step's artifact *)
Definition owns (k : nat) (e : Event) : bool :=
  match e with
  | Write p _ => owned_by k p
  | _ => true
  end.

(** The events of the three preliminary statements when none raises *)
Definition prelim_events (df : DataFrame) : list Event :=
  [ Print [Str "Loaded "; Int (len df); Str " rows and "; Int (shape1 df);
           Str " columns."];
    Write (out_path "0_info.txt") Text;
    Print [Str "Saved dataset info."];
    Write (out_path "1_describe.csv") Csv;
    Print [Str "Saved summary statistics."];
    Write (out_path "2_missing_values.csv") Csv;
    Print [Str "Saved missing value report."] ].

Definition count_one (cells : list Cell) : Z :=
  Z.of_nat (List.length
    (filter (fun c => match c with Num q => Qeq_bool q 1 | NaN => false end)
            cells)).

(** [descending x y]: [x] may stand before [y] in a series sorted by
    value, larger first, missing values last *)
Definition descending (x y : Cell) : Prop :=
  match x, y with
  | Num a, Num b => (b <= a)%Q
  | _, NaN => True
  | NaN, Num _ => False
  end.

(** the order of two entries of a series sorted by value *)
Definition by_value (x y : string * Cell) : Prop :=
  descending (snd x) (snd y).

(** a label that is 0 or 1 *)
Definition is_0_or_1 (c : Cell) : Prop :=
  exists q, c = Num q /\ (q == 0 \/ q == 1)%Q.

(** a table whose only column is the label *)
Definition label_only : DataFrame :=
  mkDataFrame [("label", Int64)] [[Num 1]].

(** a table with one row, labelled 2 *)
Definition label_two : DataFrame :=
  mkDataFrame [("label", Int64); ("lepton_pT", Float64)] [[Num 2; Num 10]].

(** the two rows of the specification's scenario *)
Definition two_rows : DataFrame :=
  mkDataFrame (map (fun n => (n, Float64)) schema_names)
              [event_row 1 10; event_row 0 20].

Definition frame0 : Frame :=
  [ ("label", [("label", Num 1); ("m_jj", Num (1 # 4)); ("m_bb", NaN);
               ("m_lv", Num (3 # 4)); ("m_wbb", Num (-1 # 2))]) ].

(** a table without a label column *)
Definition no_label_table : DataFrame :=
  mkDataFrame [("lepton_pT", Float64); ("m_jj", Float64)]
              [[Num 10; Num 1]; [Num 20; Num 2]].

(** a table of 2000 rows with the 29 columns of the schema *)
Definition table_2000 : DataFrame :=
  mkDataFrame (map (fun n => (n, Float64)) schema_names)
              (repeat (event_row 1 10) 2000).

(** a run in which only [df.corr()] raises *)
Definition env_corr_raises : Env :=
  mkEnv (fun _ => None)
        (fun k f _ =>
           if Nat.eqb k 3 && String.eqb f "df.corr"
           then Some (LibraryError "could not convert string to float")
           else None)
        0.

(** a run in which [df.describe()] raises *)
Definition env_describe_raises : Env :=
  mkEnv (fun _ => None)
        (fun k f _ =>
           if Nat.eqb k 0 && String.eqb f "df.describe"
           then Some (ValueError "Cannot describe a DataFrame without columns")
           else None)
        0.

(** a run over the same file as [env_three_rows], with another state of
    the global generator, in which every plot of step 1 fails *)
Definition env_three_rows_again : Env :=
  mkEnv (disk env_three_rows)
        (fun k f _ =>
           if Nat.eqb k 1 then Some (LibraryError "no display") else None)
        7.

(** a library whose correlation matrix is [frame0] *)
Definition lib_frame0 : Lib :=
  mkLib (fun _ => frame0) (df_var lib0) (choice lib0) (tie_first lib0).

(* ===================================================================== *)
(** ** higgs_loader.py, lines 37-46: the loader run as a script *)
(* ===================================================================== *)

(** [df.dtypes] shows the names with their dtypes: it is kept as the
    table without its rows. *)
Definition dtypes (df : DataFrame) : DataFrame := mkDataFrame (schema df) [].

Definition loader_main (env : Env) : M unit :=
  try_except
    (df <- load_data env "HIGGS.csv.gz" (Some 1000) ;;
     print [Str "First 5 rows:"] ;;
     print [Table (head 5 df)] ;;
     print [Str "Data types:"] ;;
     print [Table (dtypes df)])
    (fun e => print [Str "Error loading data: "; Exn e]).

(** a run in which no image can be saved *)
Definition env_no_savefig : Env :=
  mkEnv (fun _ => None)
        (fun _ f _ =>
           if String.eqb f "fig.savefig" || String.eqb f "plt.savefig"
           then Some (LibraryError "disk full") else None)
        0.

(** a run over a file the reader fails on *)
Definition env_bad_file : Env :=
  mkEnv (fun path => if String.eqb path "HIGGS.csv.gz"
                     then Some (inl (LibraryError "Error tokenizing data"))
                     else None)
        (fun _ => no_failure) 0.

(** a run in which [df.info] raises *)
Definition env_info_raises : Env :=
  mkEnv (fun _ => None)
        (fun k f _ =>
           if Nat.eqb k 0 && String.eqb f "df.info"
           then Some (LibraryError "info failed") else None)
        0.

(** What a run writes when no call raises and every sample can be drawn *)
Definition all_artifacts (lib : Lib) (df : DataFrame) (label : list Cell)
    : list (string * Artifact) :=
  ([ (out_path "0_info.txt", Text);
     (out_path "1_describe.csv", Csv);
     (out_path "2_missing_values.csv", Csv);
     (out_path "1_target_distribution.png", Image);
     (out_path "2_feature_histograms.png", Image);
     (out_path "3_correlation_matrix.png", Image);
     (out_path "3_correlation_matrix.csv", FrameCsv (df_corr lib df));
     (out_path "4_missing_value_heatmap.png", Image) ]
   ++ corr_with_target_files lib (df_corr lib df)
   ++ [ (out_path "6_kde_plots.png", Image);
        (out_path "7_boxplots_by_label.png", Image);
        (out_path "8_pairplot_sample.png", Image);
        (out_path "9_feature_variance.png", Image);
        (out_path "9_feature_variance.csv",
         SeriesCsv (firstn 15 (sort_values_desc lib (df_var lib df)))) ]
   ++ (if has_scatter_columns df
       then [ (out_path "10_jointplot_scatter.png", Image) ] else [])
   ++ [ (out_path "11_outlier_iqr.png", Image);
        (out_path "12_summary_overview.csv", summary_of df label) ])%list.

(** an event of the loader: a printed line or the read of the file *)
Definition is_output (e : Event) : bool :=
  match e with
  | Print _ | ReadCsv _ => true
  | _ => false
  end.

(** A computation whose events all satisfy [P], whatever the locals *)
Definition emits {A} (P : Event -> bool) (m : M A) : Prop :=
  forall l, forallb P (events (m l)) = true.

(** An event that is not a write outside the eighteen fixed artifacts *)
Definition fixed_artifact (e : Event) : bool :=
  match e with
  | Write p _ => mem p (map fst artifact_steps)
  | _ => true
  end.

(* ===================================================================== *)
(** ** The twelve steps in a run *)
(* ===================================================================== *)

(** The statements inside the [try] of each step, in order, as [report]
    calls them, and the message of each handler *)
Definition try_blocks (lib : Lib) (env : Env) (df : DataFrame)
    : list (M unit) :=
  let o := fails env in
  let features := select_features df in
  [ step_1_try (o 1%nat);
    step_2_try features (o 2%nat);
    step_3_try lib df (o 3%nat);
    step_4_try (o 4%nat);
    step_5_try lib (o 5%nat);
    step_6_try lib df features (o 6%nat) (global_rng env);
    step_7_try features (o 7%nat);
    step_8_try lib df features (o 8%nat) (global_rng env);
    step_9_try lib df (o 9%nat);
    step_10_try lib df (o 10%nat) (global_rng env);
    step_11_try df (o 11%nat);
    step_12_try df (o 12%nat) ].

Definition step_messages : list string :=
  [ "Error while plotting target distribution:";
    "Error while creating histograms:";
    "Error computing correlation matrix:";
    "Error creating missing-value heatmap:";
    "Error while computing correlation with target:";
    "Error creating KDE plots:";
    "Error creating boxplots:";
    "Pairplot skipped:";
    "Error computing feature variance:";
    "Error creating scatter plot:";
    "Error computing outliers:";
    "Error saving summary file:" ].

(** A [try] block under the handler of its step, which prints the
    step's message and the exception, and the twelve steps of [report] as
    such *)
Definition handled (body : M unit) (msg : string) : M unit :=
  try_except body (fun e => print [Str msg; Exn e]).

Definition handled_steps (lib : Lib) (env : Env) (df : DataFrame)
    : list (M unit) :=
  map (fun step => handled (fst step) (snd step))
      (combine (try_blocks lib env df) step_messages).

(** The files of the three preliminary statements and of step [k], by
    name.  Step 5 has files when the correlation matrix has a label
    column, step 10 when the table has its two columns. *)
Definition prelim_files : list string :=
  [ out_path "0_info.txt"; out_path "1_describe.csv";
    out_path "2_missing_values.csv" ].

Definition step_files (lib : Lib) (df : DataFrame) (k : nat) : list string :=
  match k with
  | 1%nat => [ out_path "1_target_distribution.png" ]
  | 2%nat => [ out_path "2_feature_histograms.png" ]
  | 3%nat => [ out_path "3_correlation_matrix.png";
               out_path "3_correlation_matrix.csv" ]
  | 4%nat => [ out_path "4_missing_value_heatmap.png" ]
  | 5%nat => if mem "label" (frame_columns (df_corr lib df))
             then [ out_path "5_corr_with_target.png";
                    out_path "5_corr_with_target.csv" ]
             else []
  | 6%nat => [ out_path "6_kde_plots.png" ]
  | 7%nat => [ out_path "7_boxplots_by_label.png" ]
  | 8%nat => [ out_path "8_pairplot_sample.png" ]
  | 9%nat => [ out_path "9_feature_variance.png";
               out_path "9_feature_variance.csv" ]
  | 10%nat => if has_scatter_columns df
              then [ out_path "10_jointplot_scatter.png" ] else []
  | 11%nat => [ out_path "11_outlier_iqr.png" ]
  | 12%nat => [ out_path "12_summary_overview.csv" ]
  | _ => []
  end.

(** The steps that draw a sample *)
Definition sampling_step (k : nat) : bool :=
  Nat.eqb k 6 || Nat.eqb k 8 || Nat.eqb k 10.

(** The names of the files of a complete run, in the order they are
    written, and of a run whose sampling steps write nothing *)
Definition all_file_names (lib : Lib) (df : DataFrame) : list string :=
  (prelim_files ++ flat_map (step_files lib df) (seq 1 12))%list.

Definition file_names_without_sampling (lib : Lib) (df : DataFrame)
    : list string :=
  (prelim_files
   ++ flat_map (fun k => if sampling_step k then [] else step_files lib df k)
               (seq 1 12))%list.

(* ===================================================================== *)
(** ** More inputs for the examples *)
(* ===================================================================== *)

(** a file of 2500 rows of 29 fields, all different *)
Definition rows_2500 : list (list Cell) :=
  map (fun i => event_row (Z.of_nat (i mod 2)) (Z.of_nat i)) (seq 0 2500).

Definition file_2500 : CsvFile := mkCsvFile rows_2500 (fun _ _ => false).

Definition disk_2500 (path : string) : option (exn + CsvFile) :=
  if String.eqb path "HIGGS.csv.gz" then Some (inr file_2500) else None.

(** two runs over that file: one in which nothing raises, one with
    another state of the global generator in which every call of step 1
    raises *)
Definition env_2500 : Env := mkEnv disk_2500 (fun _ => no_failure) 0.

Definition env_2500_again : Env :=
  mkEnv disk_2500
        (fun k f _ =>
           if Nat.eqb k 1 then Some (LibraryError "no display") else None)
        7.

(** a run over that file in which only [df.corr()] raises *)
Definition env_2500_corr_raises : Env :=
  mkEnv disk_2500 (fails env_corr_raises) 0.

(** the table of that file *)
Definition loaded_2500 : DataFrame :=
  mkDataFrame (map (fun n => (n, Float64)) schema_names) rows_2500.

(** a library whose generator picks the rows that follow its state *)
Definition lib_rotating : Lib :=
  mkLib (df_corr lib0) (df_var lib0)
        (fun state population n =>
           map (fun i => ((Z.to_nat state + i) mod population)%nat) (seq 0 n))
        (fun _ _ => true).

(** a file whose second row has 30 fields *)
Definition file_long_row : CsvFile :=
  mkCsvFile [event_row 1 10; (event_row 0 20 ++ [Num 0])%list]
            (fun _ _ => false).

Definition env_long_row : Env :=
  mkEnv (fun path => if String.eqb path "HIGGS.csv.gz"
                     then Some (inr file_long_row) else None)
        (fun _ => no_failure) 0.

(* ===================================================================== *)
(** ** The loader *)
(* ===================================================================== *)

Lemma name_columns_names : forall names file lead i table,
  map fst (name_columns file lead i names table) = names.
Proof.
  induction names as [| n rest IH]; intros file lead i table; simpl.
  - reflexivity.
  - now rewrite IH.
Qed.

Lemma schema_names_count :
  List.length schema_names = 29%nat /\
  List.length low_level = 21%nat /\ List.length high_level = 7%nat /\
  hd "" schema_names = "label" /\ NoDup schema_names.
Proof.
  repeat split; try reflexivity.
  unfold schema_names, low_level, high_level. simpl.
  repeat (constructor; [simpl; intuition discriminate |]).
  constructor.
Qed.

Lemma firstn_all_rows {A} (n : nat) (data : list A) :
  (List.length data <= n)%nat -> firstn n data = data.
Proof. intros H. now apply firstn_all2. Qed.

Lemma first_long_row_none (expected : nat) (read : list (list Cell)) :
  Forall (fun r => (List.length r <= expected)%nat) read ->
  forall line, first_long_row expected line read = None.
Proof.
  induction 1 as [| r rest Hr _ IH]; intros line; simpl.
  - reflexivity.
  - destruct (Nat.ltb_spec expected (List.length r)) as [Hlt | _]; [lia |].
    apply IH.
Qed.

Lemma first_long_row_some (expected : nat) (read : list (list Cell)) :
  forall line p,
    first_long_row expected line read = Some p ->
    (expected < snd p)%nat.
Proof.
  induction read as [| r rest IH]; intros line p; simpl.
  - discriminate.
  - destruct (Nat.ltb_spec expected (List.length r)) as [Hlt | _].
    + intros [= <-]. exact Hlt.
    + apply IH.
Qed.

(** What [parse] returns: an error of the tokeniser, or a table under the
    names, and no event either way *)
Lemma parse_cases (file : CsvFile) (names : list string)
    (read : list (list Cell)) :
  (exists line saw,
     forall l, parse file names read l
               = mkRes (inl (too_many_fields (expected_fields file names)
                                             line saw)) l []) \/
  (exists df, columns df = names /\ len df = Z.of_nat (List.length read) /\
     forall l, parse file names read l = mkRes (inr df) l []).
Proof.
  unfold parse.
  destruct (first_long_row (expected_fields file names) 1 read)
    as [[line saw] |].
  - left. exists line, saw. reflexivity.
  - right. eexists. split; [| split; [| reflexivity]].
    + unfold columns; simpl. apply name_columns_names.
    + unfold len; simpl. now rewrite length_map.
Qed.

Lemma parse_ok (file : CsvFile) (names : list string)
    (read : list (list Cell)) (l : Locals) :
  Forall (fun r => (List.length r <= expected_fields file names)%nat) read ->
  let expected := expected_fields file names in
  let lead := (expected - List.length names)%nat in
  let table := map (fun r => skipn lead (pad expected r)) read in
  parse file names read l
    = mkRes (inr (mkDataFrame (name_columns file lead 0 names table) table))
            l [].
Proof.
  intros Hread. unfold parse.
  now rewrite (first_long_row_none _ _ Hread).
Qed.

Lemma pad_full (width : nat) (r : list Cell) :
  List.length r = width -> skipn (width - width) (pad width r) = r.
Proof.
  intros <-. unfold pad. rewrite !Nat.sub_diag. simpl. apply app_nil_r.
Qed.

Lemma expected_fields_29 (file : CsvFile) :
  Forall (fun r => List.length r = 29%nat) (fields file) ->
  expected_fields file schema_names = 29%nat.
Proof.
  unfold expected_fields. intros Hall.
  destruct Hall as [| r rest Hr _]; simpl hd.
  - reflexivity.
  - rewrite Hr. reflexivity.
Qed.

Lemma Forall_firstn {A} (P : A -> Prop) (n : nat) (xs : list A) :
  Forall P xs -> Forall P (firstn n xs).
Proof.
  intros H. rewrite Forall_forall in *. intros x Hx. apply H.
  rewrite <- (firstn_skipn n xs). apply in_or_app. now left.
Qed.

(** C2, amended.  A file on the disk whose data rows read (all K of them, or the
    first M under a limit M below K) have no more fields than the reader
    expects (the number of fields of the first row of the file, and at
    least 29): the loader returns a table of exactly K rows when the limit
    is at least K or there is none, of exactly M rows when the limit M is
    below K.  The table has the 29 names of the schema, the label first,
    applied by position to the last 29 fields the reader expects, a missing
    field being a missing value.  When every row of the file has 29 fields
    the rows of the table are the rows read, field by field. *)
Theorem load_data_rows_and_columns :
  forall (env : Env) (path : string) (file : CsvFile)
         (nrows : option Z) (l : Locals),
    disk env path = Some (inr file) ->
    (forall m, nrows = Some m -> 0 <= m) ->
    let expected := expected_fields file schema_names in
    let read :=
      match nrows with
      | None => fields file
      | Some m => firstn (Z.to_nat m) (fields file)
      end in
    Forall (fun r => (List.length r <= expected)%nat) read ->
    exists df,
      result (load_data env path nrows l) = inr df /\
      columns df = (["label"] ++ low_level ++ high_level)%list /\
      List.length (columns df) = 29%nat /\
      rows df = map (fun r => skipn (expected - 29) (pad expected r)) read /\
      (Forall (fun r => List.length r = 29%nat) (fields file) ->
       rows df = read) /\
      let K := Z.of_nat (List.length (fields file)) in
      match nrows with
      | None => len df = K
      | Some m => (K <= m -> len df = K) /\ (m < K -> len df = m)
      end.
Proof.
  intros env path file nrows l Hdisk Hpos expected read Hread.
  assert (Hload : result (load_data env path nrows l)
            = inr (mkDataFrame
                     (name_columns file (expected - 29) 0 schema_names
                        (map (fun r => skipn (expected - 29) (pad expected r))
                             read))
                     (map (fun r => skipn (expected - 29) (pad expected r))
                          read))).
  { unfold load_data, path_exists, read_csv. rewrite Hdisk.
    simpl negb. cbv iota.
    fold schema_names.
    assert (Hparse := fun l' => parse_ok file schema_names read l' Hread).
    cbv zeta in Hparse. fold expected in Hparse.
    replace (List.length schema_names) with 29%nat in Hparse by reflexivity.
    destruct nrows as [m |].
    - specialize (Hpos m eq_refl).
      destruct (Z.ltb_spec m 0) as [Hneg | _]; [lia |].
      fold read. unfold bind, print, emit.
      cbv beta iota delta [negb]. cbn [result locals events].
      rewrite Hparse. reflexivity.
    - fold read. unfold bind, print, emit.
      cbv beta iota delta [negb]. cbn [result locals events].
      rewrite Hparse. reflexivity. }
  eexists. split; [exact Hload |].
  unfold columns, len; cbn [schema rows].
  rewrite name_columns_names.
  split; [reflexivity | split; [reflexivity | split; [reflexivity |]]].
  split.
  - intros Hall.
    assert (H29 : expected = 29%nat) by (apply expected_fields_29; exact Hall).
    rewrite H29.
    assert (Hr : Forall (fun r => List.length r = 29%nat) read).
    { subst read. destruct nrows; [apply Forall_firstn |]; exact Hall. }
    clear - Hr. induction Hr as [| r rest Hlen _ IH]; cbn [map].
    + reflexivity.
    + rewrite IH. f_equal. apply (pad_full 29 r Hlen).
  - rewrite length_map. subst read.
    destruct nrows as [m |]; [| reflexivity].
    specialize (Hpos m eq_refl).
    rewrite length_firstn. split; intros Hm; lia.
Qed.

Lemma load_data_rows_and_columns_witness :
  exists df,
    result (load_data env_three_rows "HIGGS.csv.gz" (Some 2) start) = inr df /\
    len df = 2 /\ List.length (columns df) = 29%nat /\
    rows df = [event_row 1 10; event_row 0 20].
Proof.
  destruct (load_data_rows_and_columns env_three_rows "HIGGS.csv.gz"
              file_three_rows (Some 2) start)
    as [df [Hr [_ [Hc [_ [Hrows Hlen]]]]]].
  - reflexivity.
  - intros m Hm. injection Hm as <-. lia.
  - repeat (constructor; [vm_compute; lia |]). constructor.
  - exists df. split; [exact Hr | split; [| split; [exact Hc |]]].
    + simpl in Hlen. destruct Hlen as [_ Hlt]. apply Hlt. lia.
    + apply Hrows. repeat (constructor; [reflexivity |]). constructor.
Defined.

(** C2, the claim at a file of two data rows whose second row has 30
    fields: with no limit and with a limit of 2 rows the loader returns no
    table, the reader raises the tokeniser's error. *)
Lemma load_data_long_row :
  disk env_long_row "HIGGS.csv.gz" = Some (inr file_long_row) /\
  List.length (fields file_long_row) = 2%nat /\
  result (load_data env_long_row "HIGGS.csv.gz" None start)
    = inl (too_many_fields 29 2 30) /\
  result (load_data env_long_row "HIGGS.csv.gz" (Some 2) start)
    = inl (too_many_fields 29 2 30).
Proof. repeat split; reflexivity. Qed.

(** The message of that error, as the script prints it *)
Example too_many_fields_message :
  too_many_fields 29 2 30
  = ValueError
      ("Error tokenizing data. C error: Expected 29 fields in line 2, saw 30"
       ++ newline).
Proof. reflexivity. Qed.

(** C3.  At a path where nothing exists [load_data] raises
    [FileNotFoundError] at once: it prints nothing and reads nothing.  When
    that path is the one [perform_eda] loads, the run prints the error,
    prints the traceback and returns: no file is written. *)
Theorem missing_file_stops_the_run :
  forall (lib : Lib) (env : Env) (path : string) (nrows : option Z)
         (l : Locals),
    disk env path = None ->
    load_data env path nrows l
      = mkRes (inl (FileNotFoundError ("File not found: " ++ path))) l [] /\
    (path = "HIGGS.csv.gz" ->
     forall n : Z,
       let e := FileNotFoundError "File not found: HIGGS.csv.gz" in
       perform_eda lib env n start
         = mkRes (inr tt) start
             [ Print [Str "Loading up to "; Int n; Str " rows..."];
               Print [Str "Could not load dataset:"; Exn e];
               Traceback e ] /\
       written (events (perform_eda lib env n start)) = []).
Proof.
  intros lib env path nrows l Hdisk.
  assert (Hload : forall nr l', load_data env path nr l'
            = mkRes (inl (FileNotFoundError ("File not found: " ++ path))) l' []).
  { intros nr l'. unfold load_data, path_exists. rewrite Hdisk. reflexivity. }
  split; [apply Hload |].
  intros -> n e.
  assert (Hrun : perform_eda lib env n start
            = mkRes (inr tt) start
                [ Print [Str "Loading up to "; Int n; Str " rows..."];
                  Print [Str "Could not load dataset:"; Exn e];
                  Traceback e ]).
  { unfold perform_eda, bind, try_except. simpl. rewrite Hload. reflexivity. }
  split; [exact Hrun |].
  rewrite Hrun. reflexivity.
Qed.

Lemma missing_file_stops_the_run_witness :
  written (events (perform_eda lib0 env_no_file 500000 start)) = [].
Proof.
  destruct (missing_file_stops_the_run lib0 env_no_file "HIGGS.csv.gz"
              (Some 500000) start eq_refl) as [_ Hrun].
  destruct (Hrun eq_refl 500000) as [_ Hw]. exact Hw.
Defined.

(* ===================================================================== *)
(** ** Feature selection *)
(* ===================================================================== *)

Lemma mem_In (x : string) (l : list string) : mem x l = true <-> In x l.
Proof.
  unfold mem. rewrite existsb_exists. split.
  - intros [y [Hin Heq]]. apply String.eqb_eq in Heq. now subst.
  - intros Hin. exists x. split; [exact Hin | apply String.eqb_refl].
Qed.

Lemma in_firstn {A} (n : nat) (x : A) (l : list A) :
  In x (firstn n l) -> In x l.
Proof.
  intros Hin. rewrite <- (firstn_skipn n l). apply in_or_app. now left.
Qed.

Lemma not_label_true (c : string) : not_label c = true <-> c <> "label".
Proof.
  unfold not_label. rewrite negb_true_iff. apply String.eqb_neq.
Qed.

Lemma preferred_length (df : DataFrame) :
  (List.length (filter (fun f => mem f (columns df)) default_features) <= 7)%nat.
Proof.
  change 7%nat with (List.length default_features). apply filter_length_le.
Qed.

Lemma preferred_not_label (df : DataFrame) :
  ~ In "label" (filter (fun f => mem f (columns df)) default_features).
Proof.
  intros Hin. apply filter_In in Hin. destruct Hin as [Hin _].
  simpl in Hin. intuition discriminate.
Qed.

(** Feature selection never returns the label and never more than seven
    names; what it returns is empty exactly when the table has none of the
    preferred columns and no numeric column other than the label. *)
Lemma select_features_bounds :
  forall df : DataFrame,
    ~ In "label" (select_features df) /\
    (List.length (select_features df) <= 7)%nat /\
    (select_features df = [] <->
       (forall f, In f default_features -> ~ In f (columns df)) /\
       (forall c, In c (numeric_columns df) -> c = "label")).
Proof.
  intros df. unfold select_features.
  pose proof (preferred_length df) as Hlen.
  pose proof (preferred_not_label df) as Hlab.
  destruct (filter (fun f => mem f (columns df)) default_features)
    as [| f0 rest] eqn:Hpref.
  - split; [| split].
    + intros Hin. apply in_firstn in Hin. apply filter_In in Hin.
      destruct Hin as [_ Hne]. apply not_label_true in Hne. now apply Hne.
    + rewrite length_firstn. lia.
    + split.
      * intros Hnil. split.
        -- intros f Hf Hcol.
           assert (Hin : In f (filter (fun f => mem f (columns df))
                                      default_features)).
           { apply filter_In. split; [exact Hf | now apply mem_In]. }
           rewrite Hpref in Hin. exact Hin.
        -- intros c Hc.
           destruct (String.eqb_spec c "label") as [-> | Hne]; [reflexivity |].
           assert (Hin : In c (filter not_label (numeric_columns df))).
           { apply filter_In. split; [exact Hc | now apply not_label_true]. }
           destruct (filter not_label (numeric_columns df)) as [| x xs].
           ++ destruct Hin.
           ++ discriminate Hnil.
      * intros [_ Hnum].
        destruct (filter not_label (numeric_columns df)) as [| x xs] eqn:Hf;
          [reflexivity |].
        assert (Hin : In x (filter not_label (numeric_columns df))).
        { rewrite Hf. now left. }
        apply filter_In in Hin. destruct Hin as [Hx Hne].
        apply not_label_true in Hne. now specialize (Hnum x Hx).
  - split; [exact Hlab | split; [exact Hlen |]].
    split; [discriminate |].
    intros [Hnone _]. exfalso.
    assert (Hin : In f0 (filter (fun f => mem f (columns df))
                                default_features)).
    { rewrite Hpref. now left. }
    apply filter_In in Hin. destruct Hin as [Hdef Hcol].
    apply (Hnone f0 Hdef). now apply mem_In.
Qed.

(* ===================================================================== *)
(** ** Sorting by value, and the correlation with the label *)
(* ===================================================================== *)

Section SortValues.

Lemma cell_geb_descending (x y : Cell) :
  cell_geb x y = true <-> descending x y.
Proof.
  destruct x as [a |], y as [b |]; simpl; try tauto.
  - apply Qle_bool_iff.
  - split; [discriminate | tauto].
Qed.

Lemma descending_total (x y : Cell) :
  cell_geb x y = false -> descending y x.
Proof.
  destruct x as [a |], y as [b |]; simpl; try discriminate; try tauto.
  intros Hf. apply Qlt_le_weak. apply Qnot_le_lt.
  intros Hle. apply Qle_bool_iff in Hle. congruence.
Qed.

Lemma descending_trans (x y z : Cell) :
  descending x y -> descending y z -> descending x z.
Proof.
  destruct x as [a |], y as [b |], z as [c |]; simpl; try tauto.
  intros Hba Hcb. now apply Qle_trans with b.
Qed.

Variable lib : Lib.

Lemma insert_desc_perm (first : string * Cell -> string * Cell -> bool)
    (e : string * Cell) (s : Series) :
  Permutation (insert_desc first e s) (e :: s).
Proof.
  assert (Hnext : forall x rest,
            Permutation (insert_desc first e rest) (e :: rest) ->
            Permutation (x :: insert_desc first e rest) (e :: x :: rest)).
  { intros x rest IH. apply Permutation_trans with (x :: e :: rest).
    - now apply perm_skip.
    - apply perm_swap. }
  induction s as [| x rest IH]; simpl.
  - apply Permutation_refl.
  - destruct (cell_geb (snd e) (snd x)); [| now apply Hnext].
    destruct (cell_geb (snd x) (snd e)); [| apply Permutation_refl].
    destruct (first e x); [apply Permutation_refl | now apply Hnext].
Qed.

Lemma sort_values_desc_perm (s : Series) :
  Permutation (sort_values_desc lib s) s.
Proof.
  induction s as [| e rest IH]; simpl.
  - apply perm_nil.
  - apply Permutation_trans with (e :: sort_values_desc lib rest).
    + apply insert_desc_perm.
    + now apply perm_skip.
Qed.

Lemma insert_desc_sorted (first : string * Cell -> string * Cell -> bool)
    (e : string * Cell) (s : Series) :
  StronglySorted by_value s ->
  StronglySorted by_value (insert_desc first e s).
Proof.
  induction s as [| x rest IH]; intros Hs; simpl.
  - constructor; constructor.
  - inversion Hs as [| ? ? Hrest Hall]; subst.
    assert (Hfront : descending (snd e) (snd x) ->
                     StronglySorted by_value (e :: x :: rest)).
    { intros Hcmp. constructor; [exact Hs |].
      constructor; [exact Hcmp |].
      eapply Forall_impl; [| exact Hall].
      intros y Hy. unfold by_value in *.
      eapply descending_trans; eassumption. }
    assert (Hnext : descending (snd x) (snd e) ->
                    StronglySorted by_value (x :: insert_desc first e rest)).
    { intros Hcmp. constructor; [now apply IH |].
      eapply Permutation_Forall.
      - apply Permutation_sym, insert_desc_perm.
      - constructor; assumption. }
    destruct (cell_geb (snd e) (snd x)) eqn:Hex.
    + apply cell_geb_descending in Hex.
      destruct (cell_geb (snd x) (snd e)) eqn:Hxe; [| now apply Hfront].
      apply cell_geb_descending in Hxe.
      destruct (first e x); [now apply Hfront | now apply Hnext].
    + apply Hnext. now apply descending_total.
Qed.

Lemma sort_values_desc_sorted (s : Series) :
  StronglySorted by_value (sort_values_desc lib s).
Proof.
  induction s as [| e rest IH]; simpl.
  - constructor.
  - now apply insert_desc_sorted.
Qed.

Lemma label_corr_of_sorted (col : Series) :
  StronglySorted (fun x y => descending (snd x) (snd y))
                 (label_corr_of lib col).
Proof. apply (sort_values_desc_sorted (drop "label" col)). Qed.

End SortValues.

Lemma drop_spec (label : string) (s : Series) (e : string * Cell) :
  In e (drop label s) <-> In e s /\ fst e <> label.
Proof.
  unfold drop. rewrite filter_In, negb_true_iff, String.eqb_neq. tauto.
Qed.

Lemma label_corr_of_entries (lib : Lib) (col : Series) (e : string * Cell) :
  In e (label_corr_of lib col) <-> In e col /\ fst e <> "label".
Proof.
  unfold label_corr_of. rewrite <- drop_spec. split; intros Hin.
  - eapply Permutation_in; [apply sort_values_desc_perm | exact Hin].
  - eapply Permutation_in;
      [apply Permutation_sym, sort_values_desc_perm | exact Hin].
Qed.

Lemma getitem_mem (c : Frame) (name : string) :
  mem name (frame_columns c) = true -> exists col, getitem c name = Some col.
Proof.
  induction c as [| [n s] rest IH]; simpl.
  - discriminate.
  - unfold mem, frame_columns in *. simpl.
    destruct (String.eqb name n).
    + intros _. now exists s.
    + simpl. exact IH.
Qed.

(* ===================================================================== *)
(** ** The counts of the summary *)
(* ===================================================================== *)

Lemma py_int_of_integer (q : Q) (k : Z) : (q == inject_Z k)%Q -> py_int q = k.
Proof.
  unfold Qeq, py_int. simpl. intros H.
  rewrite Z.mul_1_r in H. rewrite H. apply Z.quot_mul. discriminate.
Qed.

Lemma sum_of_labels (cells : list Cell) :
  Forall is_0_or_1 cells ->
  forall acc : Q,
    (fold_left (fun a c => match c with Num q => (a + q)%Q | NaN => a end)
               cells acc
     == acc + inject_Z (count_one cells))%Q
    /\ count_one cells + count_zero cells = Z.of_nat (List.length cells).
Proof.
  unfold count_one, count_zero.
  induction 1 as [| c rest [q [-> Hq]] _ IH]; intros acc; simpl.
  - split; [ring | reflexivity].
  - specialize (IH (acc + q)%Q). destruct IH as [IHsum IHcount].
    destruct Hq as [H0 | H1].
    + assert (E1 : Qeq_bool q 1 = false).
      { apply not_true_iff_false. intros E. apply Qeq_bool_iff in E.
        rewrite H0 in E. discriminate E. }
      assert (E0 : Qeq_bool q 0 = true) by now apply Qeq_bool_iff.
      rewrite E1, E0. simpl List.length. split.
      * rewrite IHsum, H0. ring.
      * lia.
    + assert (E1 : Qeq_bool q 1 = true) by now apply Qeq_bool_iff.
      assert (E0 : Qeq_bool q 0 = false).
      { apply not_true_iff_false. intros E. apply Qeq_bool_iff in E.
        rewrite H1 in E. discriminate E. }
      rewrite E1, E0. simpl List.length. split.
      * rewrite IHsum, H1. rewrite !Nat2Z.inj_succ.
        unfold Z.succ. rewrite inject_Z_plus. ring.
      * lia.
Qed.

Lemma column_length (df : DataFrame) (name : string) (cells : list Cell) :
  column df name = Some cells -> Z.of_nat (List.length cells) = len df.
Proof.
  unfold column, len. destruct (index_of name (columns df)); [| discriminate].
  intros H. injection H as <-. now rewrite length_map.
Qed.

Lemma column_mem (df : DataFrame) (name : string) :
  mem name (columns df) = true -> exists cells, column df name = Some cells.
Proof.
  unfold column. generalize (columns df) as names.
  induction names as [| n rest IH]; simpl.
  - discriminate.
  - unfold mem in *. simpl. destruct (String.eqb name n); simpl.
    + intros _. eexists. reflexivity.
    + intros H. destruct (IH H) as [cells Hc].
      destruct (index_of name rest); [| discriminate]. simpl.
      eexists. reflexivity.
Qed.

Lemma summary_counts (df : DataFrame) (label : list Cell) :
  column df "label" = Some label ->
  Forall is_0_or_1 label ->
  py_int (series_sum label) + count_zero label = len df.
Proof.
  intros Hcol H01.
  destruct (sum_of_labels label H01 0%Q) as [Hsum Hcount].
  unfold series_sum. rewrite (py_int_of_integer _ (count_one label)).
  - rewrite Hcount. now apply column_length with "label".
  - rewrite Hsum. ring.
Qed.

(* ===================================================================== *)
(** ** Reasoning about runs *)
(* ===================================================================== *)

Lemma res_eta {A} (r : Res A) : mkRes (result r) (locals r) (events r) = r.
Proof. now destruct r. Qed.

(** A [try] whose handler only prints always returns. *)
Lemma guarded_returns (body : M unit) (msg : exn -> list Piece) (l : Locals) :
  result (try_except body (fun e => print (msg e)) l) = inr tt.
Proof.
  unfold try_except. destruct (body l) as [[e | []] l1 evs]; reflexivity.
Qed.

Section Quiet.

Variable P : Event -> bool.

Lemma quiet_ret {A} (a : A) : quiet P (ret a).
Proof. exists (inr a), []. split; reflexivity. Qed.

Lemma quiet_raise {A} (e : exn) : quiet P (@raise A e).
Proof. exists (inl e), []. split; reflexivity. Qed.

Lemma quiet_emit (e : Event) : P e = true -> quiet P (emit e).
Proof.
  intros He. exists (inr tt), [e]. split; [| reflexivity].
  simpl. now rewrite He.
Qed.

Lemma quiet_call (o : Oracle) (f a : string) : quiet P (call o f a).
Proof.
  unfold call. destruct (o f a); [apply quiet_raise | apply quiet_ret].
Qed.

Lemma quiet_bind {A B} (m : M A) (f : A -> M B) :
  quiet P m -> (forall a, quiet P (f a)) -> quiet P (bind m f).
Proof.
  intros [[e | a] [evs [Hevs Hm]]] Hf.
  - exists (inl e), evs. split; [exact Hevs |].
    intros l. unfold bind. now rewrite Hm.
  - destruct (Hf a) as [r' [evs' [Hevs' Hfa]]].
    exists r', (evs ++ evs')%list. split.
    + rewrite forallb_app. now rewrite Hevs, Hevs'.
    + intros l. unfold bind. rewrite Hm. simpl. now rewrite Hfa.
Qed.

Lemma quiet_try {A} (m : M A) (h : exn -> M A) :
  quiet P m -> (forall e, quiet P (h e)) -> quiet P (try_except m h).
Proof.
  intros [[e | a] [evs [Hevs Hm]]] Hh.
  - destruct (Hh e) as [r' [evs' [Hevs' Hhe]]].
    exists r', (evs ++ evs')%list. split.
    + rewrite forallb_app. now rewrite Hevs, Hevs'.
    + intros l. unfold try_except. rewrite Hm. simpl. now rewrite Hhe.
  - exists (inr a), evs. split; [exact Hevs |].
    intros l. unfold try_except. now rewrite Hm.
Qed.

Lemma quiet_for_each {A} (xs : list A) (body : A -> M unit) :
  (forall x, quiet P (body x)) -> quiet P (for_each xs body).
Proof.
  intros Hbody. induction xs as [| x rest IH]; simpl.
  - apply quiet_ret.
  - apply quiet_bind; [apply Hbody | intros _; exact IH].
Qed.

Lemma quiet_locals {A} (m : M A) (l : Locals) :
  quiet P m -> locals (m l) = l.
Proof. intros [r [evs [_ Hm]]]. now rewrite Hm. Qed.

Lemma quiet_events {A} (m : M A) (l : Locals) :
  quiet P m -> forallb P (events (m l)) = true.
Proof. intros [r [evs [Hevs Hm]]]. now rewrite Hm. Qed.

Lemma quiet_anywhere {A} (m : M A) (l l' : Locals) :
  quiet P m -> m l = mkRes (result (m l')) l (events (m l')).
Proof. intros [r [evs [_ Hm]]]. now rewrite !Hm. Qed.

End Quiet.

(** Solves [quiet P m] for a computation built from calls, prints, writes
    of allowed files, loops and handlers. *)
Ltac quiet_tac :=
  repeat first
    [ apply quiet_ret
    | apply quiet_raise
    | apply quiet_call
    | apply quiet_emit; reflexivity
    | apply quiet_for_each; intros ?
    | apply quiet_bind; [| intros ?]
    | apply quiet_try; [| intros ?]
    | progress cbv zeta ].

Lemma quiet_to_csv P (o : Oracle) (obj path : string) (a : Artifact) :
  P (Write path a) = true -> quiet P (to_csv o obj path a).
Proof.
  intros Hw. unfold to_csv.
  apply quiet_bind; [apply quiet_call | intros _; now apply quiet_emit].
Qed.

Lemma quiet_savefig P (o : Oracle) (obj path : string) :
  P (Write path Image) = true -> quiet P (savefig o obj path).
Proof.
  intros Hw. unfold savefig.
  apply quiet_bind; [apply quiet_call | intros _; now apply quiet_emit].
Qed.

Lemma quiet_save_plot P (o : Oracle) (path : string) :
  P (Write path Image) = true -> (forall line, P (Print line) = true) ->
  quiet P (save_plot o path).
Proof.
  intros Hw Hp. unfold save_plot, print.
  apply quiet_try; [| intros _; apply quiet_try; [| intros e]].
  - apply quiet_bind; [now apply quiet_savefig | intros _; apply quiet_call].
  - apply quiet_bind; [now apply quiet_savefig | intros _; apply quiet_call].
  - apply quiet_bind; [apply quiet_emit, Hp | intros _; apply quiet_call].
Qed.

Lemma quiet_hide_unused P (o : Oracle) (used cells : nat) :
  quiet P (hide_unused o used cells).
Proof. unfold hide_unused. apply quiet_for_each. intros _. apply quiet_call. Qed.

Ltac quiet_step :=
  unfold print;
  repeat first
    [ apply quiet_ret
    | apply quiet_raise
    | apply quiet_call
    | apply quiet_hide_unused
    | apply quiet_save_plot; [reflexivity | intros ?; reflexivity]
    | apply quiet_to_csv; reflexivity
    | apply quiet_savefig; reflexivity
    | apply quiet_emit; reflexivity
    | apply quiet_for_each; intros ?
    | apply quiet_bind; [| intros ?]
    | apply quiet_try; [| intros ?]
    | progress cbv zeta ].

Section StepsAreQuiet.

Variable lib : Lib.
Variable df : DataFrame.
Variable features : list string.
Variable o : Oracle.

Lemma step_1_quiet : quiet (allowed 1) (step_1_target_distribution o).
Proof. unfold step_1_target_distribution, step_1_try. quiet_step. Qed.

Lemma step_2_quiet : quiet (allowed 2) (step_2_feature_histograms features o).
Proof. unfold step_2_feature_histograms, step_2_try. quiet_step. Qed.

Lemma step_4_quiet : quiet (allowed 4) (step_4_missing_value_heatmap o).
Proof. unfold step_4_missing_value_heatmap, step_4_try. quiet_step. Qed.

Lemma step_7_quiet : quiet (allowed 7) (step_7_boxplots_by_label features o).
Proof. unfold step_7_boxplots_by_label, step_7_try. quiet_step. Qed.

Lemma step_9_quiet : quiet (allowed 9) (step_9_feature_variance lib df o).
Proof. unfold step_9_feature_variance, step_9_try. quiet_step. Qed.

Lemma step_11_quiet : quiet (allowed 11) (step_11_outliers df o).
Proof. unfold step_11_outliers, step_11_try. quiet_step. Qed.

Lemma step_12_quiet : quiet (allowed 12) (step_12_summary df o).
Proof.
  unfold step_12_summary, step_12_try. destruct (column df "label"); quiet_step.
Qed.

End StepsAreQuiet.

(* --------------------------------------------------------------------- *)
(** *** Unfolding a run at its first statement *)
(* --------------------------------------------------------------------- *)

Lemma prefix_nil {A} (r : Res A) : prefix [] r = r.
Proof. now destruct r. Qed.

Lemma prefix_prefix {A} (a b : list Event) (r : Res A) :
  prefix a (prefix b r) = prefix (a ++ b) r.
Proof. unfold prefix. simpl. now rewrite app_assoc. Qed.

Lemma bind_emit {B} (e : Event) (k : unit -> M B) (l : Locals) :
  bind (emit e) k l = prefix [e] (k tt l).
Proof. reflexivity. Qed.

Lemma bind_call_ok {B} (o : Oracle) (f a : string) (k : unit -> M B)
    (l : Locals) :
  o f a = None -> bind (call o f a) k l = k tt l.
Proof.
  intros Hok. unfold bind, call. rewrite Hok. simpl. apply res_eta.
Qed.

Lemma bind_to_csv_ok {B} (o : Oracle) (obj path : string) (a : Artifact)
    (k : unit -> M B) (l : Locals) :
  o (obj ++ ".to_csv") path = None ->
  bind (to_csv o obj path a) k l = prefix [Write path a] (k tt l).
Proof.
  intros Hok. unfold bind, to_csv, call. rewrite Hok. reflexivity.
Qed.

Lemma bind_total {B} (m : M unit) (k : unit -> M B) (l : Locals) :
  result (m l) = inr tt ->
  bind m k l = prefix (events (m l)) (k tt (locals (m l))).
Proof. intros Hm. unfold bind. now rewrite Hm. Qed.

Lemma try_call_raises {A} (o : Oracle) (f a : string) (e : exn)
    (k : unit -> M A) (h : exn -> M A) (l : Locals) :
  o f a = Some e -> try_except (bind (call o f a) k) h l = h e l.
Proof.
  intros Hf. unfold try_except, bind, call. rewrite Hf. simpl. apply res_eta.
Qed.

Lemma try_call_ok {A} (o : Oracle) (f a : string)
    (k : unit -> M A) (h : exn -> M A) (l : Locals) :
  o f a = None -> try_except (bind (call o f a) k) h l = try_except (k tt) h l.
Proof.
  intros Hf. unfold try_except, bind, call. rewrite Hf. simpl.
  destruct (k tt l) as [[e | a'] l1 evs]; reflexivity.
Qed.

Lemma try_set_corr {A} (c : Frame) (k : unit -> M A) (h : exn -> M A)
    (l : Locals) :
  try_except (bind (set_corr c) k) h l
    = try_except (k tt) h (mkLocals (Some c) (sample_n l)).
Proof.
  unfold try_except, bind, set_corr. simpl.
  destruct (k tt _) as [[e | a'] l1 evs]; reflexivity.
Qed.

Lemma try_set_sample_n {A} (n : Z) (k : unit -> M A) (h : exn -> M A)
    (l : Locals) :
  try_except (bind (set_sample_n n) k) h l
    = try_except (k tt) h (mkLocals (corr l) (Some n)).
Proof.
  unfold try_except, bind, set_sample_n. simpl.
  destruct (k tt _) as [[e | a'] l1 evs]; reflexivity.
Qed.

Lemma try_read_corr {A} (k : Frame -> M A) (h : exn -> M A) (l : Locals) :
  try_except (bind read_corr k) h l
    = match corr l with
      | Some c => try_except (k c) h l
      | None => h (UnboundLocalError "corr") l
      end.
Proof.
  unfold try_except, bind, read_corr. destruct (corr l) as [c |]; simpl.
  - destruct (k c l) as [[e | a'] l1 evs]; reflexivity.
  - apply res_eta.
Qed.

Lemma try_read_sample_n {A} (k : Z -> M A) (h : exn -> M A) (l : Locals) :
  try_except (bind read_sample_n k) h l
    = match sample_n l with
      | Some n => try_except (k n) h l
      | None => h (UnboundLocalError "sample_n") l
      end.
Proof.
  unfold try_except, bind, read_sample_n. destruct (sample_n l) as [n |]; simpl.
  - destruct (k n l) as [[e | a'] l1 evs]; reflexivity.
  - apply res_eta.
Qed.

(** A [try] that starts by drawing a sample with the seed 42: the sample
    is its first event; when drawing raises, the handler runs at once. *)
Lemma try_sample (P : Event -> bool) (lib : Lib) (df : DataFrame) (n : Z)
    (rest : DataFrame -> M unit) (h : exn -> M unit) :
  (forall d, quiet P (rest d)) -> (forall e, quiet P (h e)) ->
  exists r tail,
    forallb P tail = true /\
    (forall e, draw lib 42 df n = inl e ->
               forall l0, tail = events (h e l0)) /\
    forall global l,
      try_except (bind (df_sample lib global df n (Some 42)) rest) h l
        = mkRes r l (Sample n (Some 42) (draw lib 42 df n) :: tail).
Proof.
  intros Hrest Hh.
  destruct (draw lib 42 df n) as [e | picked] eqn:Hdraw.
  - destruct (Hh e) as [r [evs [Hevs Hhe]]].
    exists r, evs. split; [exact Hevs | split].
    + intros e' He' l0. injection He' as <-. now rewrite Hhe.
    + intros global l. unfold try_except, bind, df_sample, emit, raise.
      simpl. rewrite Hdraw. simpl. now rewrite Hhe.
  - assert (Hq : quiet P (try_except (rest (mkDataFrame (schema df) picked)) h)).
    { apply quiet_try; [apply Hrest | apply Hh]. }
    destruct Hq as [r [evs [Hevs Hq]]].
    exists r, evs. split; [exact Hevs | split].
    + intros e He. discriminate He.
    + intros global l. specialize (Hq l). revert Hq.
      unfold try_except, bind, df_sample, emit, ret.
      simpl. rewrite Hdraw. simpl.
      destruct (rest _ l) as [[e | []] l1 evs1]; simpl.
      * destruct (h e l1) as [r2 l2 evs2]. simpl.
        intros Hq. injection Hq as -> -> ->. reflexivity.
      * intros Hq. injection Hq as <- -> ->. reflexivity.
Qed.

(* --------------------------------------------------------------------- *)
(** *** The steps that share locals *)
(* --------------------------------------------------------------------- *)

Section SharedLocals.

Variable lib : Lib.
Variable df : DataFrame.
Variable features : list string.
Variable o : Oracle.

(** Step 3 binds [corr] when [df.corr()] returns, whatever follows. *)
Lemma step_3_run :
  exists evs,
    forallb (allowed 3) evs = true /\
    forall l,
      step_3_correlation_matrix lib df o l
        = mkRes (inr tt)
            (match o "df.corr" "" with
             | Some _ => l
             | None => mkLocals (Some (df_corr lib df)) (sample_n l)
             end) evs.
Proof.
  unfold step_3_correlation_matrix, step_3_try. cbv zeta.
  destruct (o "df.corr" "") as [e |] eqn:Hcorr.
  - exists [Print [Str "Error computing correlation matrix:"; Exn e]].
    split; [reflexivity |]. intros l.
    now rewrite (try_call_raises _ _ _ e) by exact Hcorr.
  - match goal with
    | |- context [bind (set_corr ?c) (fun _ => ?rest)] =>
        assert (Hq : quiet (allowed 3)
                  (try_except rest (fun e =>
                     print [Str "Error computing correlation matrix:"; Exn e])))
    end.
    { quiet_step. }
    destruct Hq as [r [evs [Hevs Hq]]]. exists evs. split; [exact Hevs |].
    intros l. rewrite try_call_ok by exact Hcorr. rewrite try_set_corr.
    rewrite Hq. f_equal.
    pose proof (guarded_returns
      (call o "plt.subplots" "" ;;
       call o "sns.heatmap" "" ;;
       call o "ax.set_title" "Correlation Matrix" ;;
       save_plot o (out_path "3_correlation_matrix.png") ;;
       to_csv o "corr" (out_path "3_correlation_matrix.csv")
              (FrameCsv (df_corr lib df)))
      (fun e => [Str "Error computing correlation matrix:"; Exn e]) l) as Hr.
    rewrite Hq in Hr. exact Hr.
Qed.

Lemma step_5_body_quiet (c : Frame) : quiet (allowed 5) (step_5_body lib o c).
Proof.
  unfold step_5_body. destruct (mem "label" (frame_columns c));
    [destruct (getitem c "label") |]; quiet_step.
Qed.

(** Step 5 leaves the locals as they are; its events depend on [corr]
    alone. *)
Lemma step_5_run (l : Locals) :
  step_5_corr_with_target lib o l
    = mkRes (inr tt) l
        (events (step_5_corr_with_target lib o (mkLocals (corr l) None))) /\
  forallb (allowed 5) (events (step_5_corr_with_target lib o l)) = true.
Proof.
  pose proof (guarded_returns (c <- read_corr ;; step_5_body lib o c)
    (fun e => [Str "Error while computing correlation with target:"; Exn e]))
    as Hret.
  unfold step_5_corr_with_target, step_5_try in *.
  rewrite !try_read_corr. simpl corr.
  pose proof (Hret l) as Hl. rewrite try_read_corr in Hl.
  destruct (corr l) as [c |].
  - assert (Hq : quiet (allowed 5)
              (try_except (step_5_body lib o c) (fun e =>
                 print [Str "Error while computing correlation with target:";
                        Exn e]))).
    { apply quiet_try; [apply step_5_body_quiet | intros e; quiet_step]. }
    destruct Hq as [r [evs [Hevs Hq]]].
    rewrite !Hq in *. simpl in Hl. subst r. split; [reflexivity | exact Hevs].
  - split; reflexivity.
Qed.

Lemma step_6_rest_quiet (global : Z) (d : DataFrame) :
  quiet (allowed 6)
    (let n := Nat.min (List.length features) 6 in
     let rows := ((n + 2) / 3)%nat in
     call o "plt.subplots" "" ;;
     call o "axes.flatten" "" ;;
     for_each (firstn n features) (fun feat =>
       call o "sns.kdeplot" feat ;;
       call o "ax.set_title" ("KDE: " ++ feat)) ;;
     hide_unused o n (rows * 3) ;;
     save_plot o (out_path "6_kde_plots.png")).
Proof. quiet_step. Qed.

(** Step 6 binds [sample_n] and draws its sample first. *)
Lemma step_6_run :
  exists tail,
    forallb (allowed 6) tail = true /\
    (forall e, draw lib 42 df (kde_sample_n df) = inl e ->
               tail = [Print [Str "Error creating KDE plots:"; Exn e]]) /\
    forall global l,
      step_6_kde_plots lib df features o global l
        = mkRes (inr tt) (mkLocals (corr l) (Some (kde_sample_n df)))
            (Sample (kde_sample_n df) (Some 42)
                    (draw lib 42 df (kde_sample_n df)) :: tail).
Proof.
  destruct (try_sample (allowed 6) lib df (kde_sample_n df)
              (fun _ => let n := Nat.min (List.length features) 6 in
                 let rows := ((n + 2) / 3)%nat in
                 call o "plt.subplots" "" ;;
                 call o "axes.flatten" "" ;;
                 for_each (firstn n features) (fun feat =>
                   call o "sns.kdeplot" feat ;;
                   call o "ax.set_title" ("KDE: " ++ feat)) ;;
                 hide_unused o n (rows * 3) ;;
                 save_plot o (out_path "6_kde_plots.png"))
              (fun e => print [Str "Error creating KDE plots:"; Exn e]))
    as [r [tail [Htail [Herr Hrun]]]].
  - intros d. apply (step_6_rest_quiet 0 d).
  - intros e. quiet_step.
  - exists tail. split; [exact Htail | split].
    + intros e He. now rewrite (Herr e He start).
    + intros global l. unfold step_6_kde_plots, step_6_try. cbv zeta.
      rewrite try_set_sample_n.
      pose proof (guarded_returns
        (step_6_body lib df features o global (kde_sample_n df))
        (fun e => [Str "Error creating KDE plots:"; Exn e])
        (mkLocals (corr l) (Some (kde_sample_n df)))) as Hret.
      unfold step_6_body in *. rewrite Hrun in *. simpl in Hret.
      now subst r.
Qed.

(** Steps 8 and 10 read [sample_n] and draw their sample first. *)
Lemma step_8_run (n : Z) :
  exists tail,
    forallb (allowed 8) tail = true /\
    (forall e, draw lib 42 df (pair_size n) = inl e ->
               tail = [Print [Str "Pairplot skipped:"; Exn e]]) /\
    forall global l,
      sample_n l = Some n ->
      step_8_pairplot lib df features o global l
        = mkRes (inr tt) l
            (Sample (pair_size n) (Some 42)
                    (draw lib 42 df (pair_size n)) :: tail).
Proof.
  destruct (try_sample (allowed 8) lib df (pair_size n)
              (fun _ =>
                 call o "pair_df.__getitem__" "" ;;
                 call o "sns.pairplot" "" ;;
                 call o "pp.fig.suptitle" "Pairplot (Sample)" ;;
                 savefig o "pp.fig" (out_path "8_pairplot_sample.png") ;;
                 call o "plt.close" "")
              (fun e => print [Str "Pairplot skipped:"; Exn e]))
    as [r [tail [Htail [Herr Hrun]]]].
  - intros d. quiet_step.
  - intros e. quiet_step.
  - exists tail. split; [exact Htail | split].
    + intros e He. now rewrite (Herr e He start).
    + intros global l Hn. unfold step_8_pairplot, step_8_try.
      rewrite try_read_sample_n, Hn.
      pose proof (guarded_returns (step_8_body lib df features o global n)
        (fun e => [Str "Pairplot skipped:"; Exn e]) l) as Hret.
      unfold step_8_body in *. cbv zeta in *. rewrite Hrun in *.
      simpl in Hret. now subst r.
Qed.

Lemma step_10_run (n : Z) :
  exists tail,
    forallb (allowed 10) tail = true /\
    (forall e, draw lib 42 df (scatter_size n) = inl e ->
               tail = [Print [Str "Error creating scatter plot:"; Exn e]]) /\
    forall global l,
      sample_n l = Some n ->
      step_10_scatter lib df o global l
        = mkRes (inr tt) l
            (if mem "lepton_pT" (columns df)
                && mem "missing_energy_magnitude" (columns df)
             then Sample (scatter_size n) (Some 42)
                         (draw lib 42 df (scatter_size n)) :: tail
             else []).
Proof.
  destruct (try_sample (allowed 10) lib df (scatter_size n)
              (fun _ =>
                 call o "plt.subplots" "" ;;
                 call o "sns.scatterplot" "" ;;
                 call o "ax.set_title" "lepton_pT vs missing_energy_magnitude" ;;
                 save_plot o (out_path "10_jointplot_scatter.png"))
              (fun e => print [Str "Error creating scatter plot:"; Exn e]))
    as [r [tail [Htail [Herr Hrun]]]].
  - intros d. quiet_step.
  - intros e. quiet_step.
  - exists tail. split; [exact Htail | split].
    + intros e He. now rewrite (Herr e He start).
    + intros global l Hn. unfold step_10_scatter, step_10_try.
      destruct (mem "lepton_pT" (columns df)
                && mem "missing_energy_magnitude" (columns df)).
      * rewrite try_read_sample_n, Hn.
        pose proof (guarded_returns (step_10_body lib df o global n)
          (fun e => [Str "Error creating scatter plot:"; Exn e]) l) as Hret.
        unfold step_10_body in *. rewrite Hrun in *.
        simpl in Hret. now subst r.
      * reflexivity.
Qed.

End SharedLocals.

(* --------------------------------------------------------------------- *)
(** *** The trace of [report] *)
(* --------------------------------------------------------------------- *)

Lemma step_6_locals (lib : Lib) (df : DataFrame) (features : list string)
    (o : Oracle) (global : Z) (l : Locals) :
  locals (step_6_kde_plots lib df features o global l)
    = mkLocals (corr l) (Some (kde_sample_n df)).
Proof.
  destruct (step_6_run lib df features o) as [tail [_ [_ H6]]].
  now rewrite H6.
Qed.

Lemma step_8_locals (lib : Lib) (df : DataFrame) (features : list string)
    (o : Oracle) (global : Z) (l : Locals) (n : Z) :
  sample_n l = Some n ->
  locals (step_8_pairplot lib df features o global l) = l.
Proof.
  intros Hn. destruct (step_8_run lib df features o n) as [tail [_ [_ H8]]].
  now rewrite H8.
Qed.

Lemma step_10_locals (lib : Lib) (df : DataFrame) (o : Oracle) (global : Z)
    (l : Locals) (n : Z) :
  sample_n l = Some n ->
  locals (step_10_scatter lib df o global l) = l.
Proof.
  intros Hn. destruct (step_10_run lib df o n) as [tail [_ [_ H10]]].
  now rewrite H10.
Qed.

(** With a label column and the preliminary statements passing, a run of
    [report] returns, and its trace is the preliminary events, the line
    naming the features, the events of the twelve steps in order, and the
    closing line. *)
Lemma report_trace (lib : Lib) (env : Env) (df : DataFrame) :
  mem "label" (columns df) = true ->
  prelim_ok env ->
  report lib env df start
    = mkRes (inr tt) (locals_6 lib (fails env 3%nat) df)
        (prelim_events df
         ++ Print [Str "Using these features:"; Names (select_features df)]
         :: flat_map (step_events lib env df) (seq 1 12)
         ++ [Print [Str "EDA complete. All results saved in:";
                    Str OUTPUT_DIR]]).
Proof.
  intros Hlabel Hok. unfold report, print. cbv zeta.
  rewrite bind_emit.
  rewrite bind_call_ok by apply Hok.
  rewrite bind_emit.
  rewrite bind_call_ok by apply Hok.
  rewrite bind_emit.
  rewrite bind_call_ok by apply Hok.
  rewrite bind_call_ok by apply Hok.
  rewrite bind_to_csv_ok by apply Hok.
  rewrite bind_emit.
  rewrite bind_call_ok by apply Hok.
  rewrite bind_call_ok by apply Hok.
  rewrite bind_to_csv_ok by apply Hok.
  rewrite bind_emit.
  rewrite Hlabel. change (negb true) with false. cbv iota.
  rewrite bind_emit.
  destruct (step_3_run lib df (fails env 3%nat)) as [ev3 [_ H3]].
  rewrite bind_total by apply guarded_returns.
  rewrite (quiet_locals _ _ _ (step_1_quiet _)).
  rewrite bind_total by apply guarded_returns.
  rewrite (quiet_locals _ _ _ (step_2_quiet _ _)).
  rewrite bind_total by apply guarded_returns.
  assert (Hl3 : locals (step_3_correlation_matrix lib df (fails env 3%nat) start)
                = locals_3 lib (fails env 3%nat) df).
  { rewrite H3. unfold locals_3. simpl.
    now destruct (fails env 3%nat "df.corr" ""). }
  rewrite Hl3.
  rewrite bind_total by apply guarded_returns.
  rewrite (quiet_locals _ _ _ (step_4_quiet _)).
  rewrite bind_total by apply guarded_returns.
  rewrite (proj1 (step_5_run _ _ _)) at 2. simpl locals.
  rewrite bind_total by apply guarded_returns.
  rewrite step_6_locals. fold (locals_6 lib (fails env 3%nat) df).
  rewrite bind_total by apply guarded_returns.
  rewrite (quiet_locals _ _ _ (step_7_quiet _ _)).
  rewrite bind_total by apply guarded_returns.
  rewrite (step_8_locals _ _ _ _ _ _ (kde_sample_n df)) by reflexivity.
  rewrite bind_total by apply guarded_returns.
  rewrite (quiet_locals _ _ _ (step_9_quiet _ _ _)).
  rewrite bind_total by apply guarded_returns.
  rewrite (step_10_locals _ _ _ _ _ (kde_sample_n df)) by reflexivity.
  rewrite bind_total by apply guarded_returns.
  rewrite (quiet_locals _ _ _ (step_11_quiet _ _)).
  rewrite bind_total by apply guarded_returns.
  rewrite (quiet_locals _ _ _ (step_12_quiet _ _)).
  rewrite !prefix_prefix. unfold prefix, emit. cbn [result locals events].
  f_equal. unfold prelim_events. cbn [flat_map seq].
  cbv beta iota zeta delta [step_events].
  rewrite <- !app_assoc. cbn [app]. rewrite ?app_nil_r. reflexivity.
Qed.

(* --------------------------------------------------------------------- *)
(** *** What the events of a step can be *)
(* --------------------------------------------------------------------- *)

Lemma allowed_owns (k : nat) (evs : list Event) :
  forallb (allowed k) evs = true -> forallb (owns k) evs = true.
Proof.
  induction evs as [| e rest IH]; simpl; [reflexivity |].
  intros H. apply andb_true_iff in H. destruct H as [He Hrest].
  rewrite (IH Hrest), andb_true_r. now destruct e.
Qed.

Lemma allowed_not_sampled (k : nat) (evs : list Event) :
  forallb (allowed k) evs = true -> sampled evs = [].
Proof.
  induction evs as [| e rest IH]; simpl; [reflexivity |].
  intros H. apply andb_true_iff in H. destruct H as [He Hrest].
  rewrite (IH Hrest). now destruct e.
Qed.

Lemma written_app (a b : list Event) :
  written (a ++ b) = (written a ++ written b)%list.
Proof. unfold written. apply flat_map_app. Qed.

Lemma sampled_app (a b : list Event) :
  sampled (a ++ b) = (sampled a ++ sampled b)%list.
Proof. unfold sampled. apply flat_map_app. Qed.

Lemma written_by_app (k : nat) (a b : list Event) :
  written_by k (a ++ b) = (written_by k a ++ written_by k b)%list.
Proof. unfold written_by. now rewrite written_app, filter_app. Qed.

Lemma owned_by_one_step (j k : nat) (p : string) :
  owned_by k p = true -> j <> k -> owned_by j p = false.
Proof.
  unfold owned_by. destruct (owner_in artifact_steps p) as [i |];
    [| discriminate].
  intros Hk Hjk. apply Nat.eqb_eq in Hk. subst i.
  apply Nat.eqb_neq. congruence.
Qed.

Lemma written_by_other (j k : nat) (evs : list Event) :
  forallb (owns k) evs = true -> j <> k -> written_by j evs = [].
Proof.
  intros Hevs Hjk. induction evs as [| e rest IH]; [reflexivity |].
  simpl in Hevs. apply andb_true_iff in Hevs. destruct Hevs as [He Hrest].
  change (e :: rest) with ([e] ++ rest)%list. rewrite written_by_app.
  rewrite (IH Hrest), app_nil_r.
  destruct e; try reflexivity.
  unfold written_by. simpl. simpl in He.
  now rewrite (owned_by_one_step j k path He Hjk).
Qed.

Section StepEvents.

Variable lib : Lib.
Variable df : DataFrame.

(** Every write of step [k] is a write of one of its own artifacts. *)
Lemma step_events_owns (env : Env) (k : nat) :
  forallb (owns k) (step_events lib env df k) = true.
Proof.
  unfold step_events.
  destruct k as [|[|[|[|[|[|[|[|[|[|[|[|[| k]]]]]]]]]]]]];
    [reflexivity | .. | reflexivity].
  - apply allowed_owns, quiet_events, step_1_quiet.
  - apply allowed_owns, quiet_events, step_2_quiet.
  - destruct (step_3_run lib df (fails env 3%nat)) as [evs [Hevs H3]].
    rewrite H3. now apply allowed_owns.
  - apply allowed_owns, quiet_events, step_4_quiet.
  - apply allowed_owns, step_5_run.
  - destruct (step_6_run lib df (select_features df) (fails env 6%nat))
      as [tail [Htail [_ H6]]].
    rewrite H6. simpl. now apply allowed_owns.
  - apply allowed_owns, quiet_events, step_7_quiet.
  - destruct (step_8_run lib df (select_features df) (fails env 8%nat)
                (kde_sample_n df)) as [tail [Htail [_ H8]]].
    rewrite H8 by reflexivity. simpl. now apply allowed_owns.
  - apply allowed_owns, quiet_events, step_9_quiet.
  - destruct (step_10_run lib df (fails env 10%nat) (kde_sample_n df))
      as [tail [Htail [_ H10]]].
    rewrite H10 by reflexivity. simpl.
    destruct (mem "lepton_pT" (columns df)
              && mem "missing_energy_magnitude" (columns df));
      [simpl; now apply allowed_owns | reflexivity].
  - apply allowed_owns, quiet_events, step_11_quiet.
  - apply allowed_owns, quiet_events, step_12_quiet.
Qed.

(** The events of step [k] depend on the library calls of step [k] alone;
    those of step 5 also on whether [df.corr()] returned in step 3. *)
Lemma step_events_local (env env' : Env) (k : nat) :
  fails env' k = fails env k ->
  (k = 5%nat ->
   fails env' 3%nat "df.corr" "" = fails env 3%nat "df.corr" "") ->
  step_events lib env' df k = step_events lib env df k.
Proof.
  intros Hk H5. unfold step_events.
  destruct k as [|[|[|[|[|[|[|[|[|[|[|[|[| k]]]]]]]]]]]]];
    [reflexivity | .. | reflexivity]; rewrite Hk.
  - reflexivity.
  - reflexivity.
  - reflexivity.
  - rewrite (quiet_anywhere _ _ _ start (step_4_quiet _)).
    now rewrite (quiet_anywhere _ _ (locals_3 lib (fails env 3%nat) df) start
                   (step_4_quiet _)).
  - unfold locals_3. now rewrite (H5 eq_refl).
  - destruct (step_6_run lib df (select_features df) (fails env 6%nat))
      as [tail [_ [_ H6]]].
    now rewrite !H6.
  - rewrite (quiet_anywhere _ _ _ start (step_7_quiet _ _)).
    now rewrite (quiet_anywhere _ _ (locals_6 lib (fails env 3%nat) df) start
                   (step_7_quiet _ _)).
  - destruct (step_8_run lib df (select_features df) (fails env 8%nat)
                (kde_sample_n df)) as [tail [_ [_ H8]]].
    now rewrite !H8 by reflexivity.
  - rewrite (quiet_anywhere _ _ _ start (step_9_quiet _ _ _)).
    now rewrite (quiet_anywhere _ _ (locals_6 lib (fails env 3%nat) df) start
                   (step_9_quiet _ _ _)).
  - destruct (step_10_run lib df (fails env 10%nat) (kde_sample_n df))
      as [tail [_ [_ H10]]].
    now rewrite !H10 by reflexivity.
  - rewrite (quiet_anywhere _ _ _ start (step_11_quiet _ _)).
    now rewrite (quiet_anywhere _ _ (locals_6 lib (fails env 3%nat) df) start
                   (step_11_quiet _ _)).
  - rewrite (quiet_anywhere _ _ _ start (step_12_quiet _ _)).
    now rewrite (quiet_anywhere _ _ (locals_6 lib (fails env 3%nat) df) start
                   (step_12_quiet _ _)).
Qed.

End StepEvents.

Lemma written_by_absent (k : nat) (E : nat -> list Event) (js : list nat) :
  (forall j, forallb (owns j) (E j) = true) ->
  ~ In k js -> written_by k (flat_map E js) = [].
Proof.
  intros Hown. induction js as [| j rest IH]; intros Hk; [reflexivity |].
  simpl. rewrite written_by_app.
  rewrite (written_by_other k j (E j) (Hown j)).
  - apply IH. intros Hin. apply Hk. now right.
  - intros ->. apply Hk. now left.
Qed.

Lemma written_by_steps (k : nat) (E : nat -> list Event) (js : list nat) :
  (forall j, forallb (owns j) (E j) = true) ->
  NoDup js -> In k js ->
  written_by k (flat_map E js) = written_by k (E k).
Proof.
  intros Hown. induction js as [| j rest IH]; intros Hnd Hin; [destruct Hin |].
  inversion Hnd as [| ? ? Hnotin Hnd']; subst.
  simpl. rewrite written_by_app.
  destruct (Nat.eq_dec j k) as [-> | Hjk].
  - rewrite (written_by_absent k E rest Hown Hnotin). apply app_nil_r.
  - rewrite (written_by_other k j (E j) (Hown j)) by congruence.
    apply IH; [exact Hnd' |]. destruct Hin as [-> | Hin]; [congruence | exact Hin].
Qed.

(* --------------------------------------------------------------------- *)
(** *** The samples of a run *)
(* --------------------------------------------------------------------- *)

Lemma step_events_sampled (lib : Lib) (env : Env) (df : DataFrame) (k : nat) :
  sampled (step_events lib env df k)
    = let s := kde_sample_n df in
      match k with
      | 6%nat => [ (s, Some 42, draw lib 42 df s) ]
      | 8%nat => [ (pair_size s, Some 42, draw lib 42 df (pair_size s)) ]
      | 10%nat =>
          if has_scatter_columns df
          then [ (scatter_size s, Some 42, draw lib 42 df (scatter_size s)) ]
          else []
      | _ => []
      end.
Proof.
  unfold step_events, has_scatter_columns. cbv zeta.
  destruct k as [|[|[|[|[|[|[|[|[|[|[|[|[| k]]]]]]]]]]]]];
    [reflexivity | .. | reflexivity].
  - eapply allowed_not_sampled, quiet_events, step_1_quiet.
  - eapply allowed_not_sampled, quiet_events, step_2_quiet.
  - destruct (step_3_run lib df (fails env 3%nat)) as [evs [Hevs H3]].
    rewrite H3. now apply allowed_not_sampled with 3%nat.
  - eapply allowed_not_sampled, quiet_events, step_4_quiet.
  - eapply allowed_not_sampled, step_5_run.
  - destruct (step_6_run lib df (select_features df) (fails env 6%nat))
      as [tail [Htail [_ H6]]].
    rewrite H6. simpl. now rewrite (allowed_not_sampled 6 tail Htail).
  - eapply allowed_not_sampled, quiet_events, step_7_quiet.
  - destruct (step_8_run lib df (select_features df) (fails env 8%nat)
                (kde_sample_n df)) as [tail [Htail [_ H8]]].
    rewrite H8 by reflexivity. simpl.
    now rewrite (allowed_not_sampled 8 tail Htail).
  - eapply allowed_not_sampled, quiet_events, step_9_quiet.
  - destruct (step_10_run lib df (fails env 10%nat) (kde_sample_n df))
      as [tail [Htail [_ H10]]].
    rewrite H10 by reflexivity. simpl.
    destruct (mem "lepton_pT" (columns df)
              && mem "missing_energy_magnitude" (columns df));
      [| reflexivity].
    simpl. now rewrite (allowed_not_sampled 10 tail Htail).
  - eapply allowed_not_sampled, quiet_events, step_11_quiet.
  - eapply allowed_not_sampled, quiet_events, step_12_quiet.
Qed.

Lemma report_sampled (lib : Lib) (env : Env) (df : DataFrame) :
  mem "label" (columns df) = true ->
  prelim_ok env ->
  sampled (events (report lib env df start)) = expected_samples lib df.
Proof.
  intros Hlabel Hok. rewrite report_trace by assumption.
  cbn [events]. rewrite sampled_app.
  change (Print ?x :: ?r) with ([Print x] ++ r)%list.
  rewrite !sampled_app.
  cbn [flat_map seq]. rewrite !sampled_app, !step_events_sampled.
  unfold expected_samples. cbv zeta.
  destruct (has_scatter_columns df); reflexivity.
Qed.

Lemma report_without_label (lib : Lib) (env : Env) (df : DataFrame)
    (l : Locals) :
  mem "label" (columns df) = false ->
  prelim_ok env ->
  report lib env df l
    = mkRes (inr tt) l
        (prelim_events df ++
         [Print [Str
           "The dataset does not contain a 'label' column. Stopping EDA."]]).
Proof.
  intros Hlabel Hok. unfold report, print. cbv zeta.
  rewrite bind_emit.
  rewrite bind_call_ok by apply Hok.
  rewrite bind_emit.
  rewrite bind_call_ok by apply Hok.
  rewrite bind_emit.
  rewrite bind_call_ok by apply Hok.
  rewrite bind_call_ok by apply Hok.
  rewrite bind_to_csv_ok by apply Hok.
  rewrite bind_emit.
  rewrite bind_call_ok by apply Hok.
  rewrite bind_call_ok by apply Hok.
  rewrite bind_to_csv_ok by apply Hok.
  rewrite bind_emit.
  rewrite Hlabel. reflexivity.
Qed.

Lemma kde_sample_n_clamp (df : DataFrame) :
  kde_sample_n df = clamp (len df / 50) 2000 20000.
Proof.
  unfold kde_sample_n, clamp.
  destruct (Z.ltb_spec (len df / 50) 2000);
    [| destruct (Z.ltb_spec 20000 (len df / 50))]; lia.
Qed.

(* --------------------------------------------------------------------- *)
(** *** The steps when no library call raises *)
(* --------------------------------------------------------------------- *)

Lemma for_each_silent {A} (xs : list A) (body : A -> M unit) :
  (forall x l, body x l = mkRes (inr tt) l []) ->
  forall l, for_each xs body l = mkRes (inr tt) l [].
Proof.
  intros Hbody. induction xs as [| x rest IH]; intros l; simpl.
  - reflexivity.
  - unfold bind. rewrite Hbody. simpl. now rewrite IH.
Qed.

Lemma try_silent {A} (m : M unit) (k : unit -> M A) (h : exn -> M A)
    (l : Locals) :
  m l = mkRes (inr tt) l [] ->
  try_except (bind m k) h l = try_except (k tt) h l.
Proof.
  intros Hm. unfold try_except, bind. rewrite Hm. simpl.
  destruct (k tt l) as [[e | a] l1 evs]; reflexivity.
Qed.

Lemma hide_unused_silent (used cells : nat) (l : Locals) :
  hide_unused no_failure used cells l = mkRes (inr tt) l [].
Proof. unfold hide_unused. apply for_each_silent. reflexivity. Qed.

Section NoFailure.

Variable lib : Lib.
Variable df : DataFrame.
Variable features : list string.

Lemma step_1_ok (l : Locals) :
  step_1_target_distribution no_failure l
    = mkRes (inr tt) l [Write (out_path "1_target_distribution.png") Image].
Proof. reflexivity. Qed.

Lemma step_2_ok (l : Locals) :
  step_2_feature_histograms features no_failure l
    = mkRes (inr tt) l [Write (out_path "2_feature_histograms.png") Image].
Proof.
  unfold step_2_feature_histograms, step_2_try. cbv zeta.
  rewrite !try_call_ok by reflexivity.
  rewrite try_silent by (apply for_each_silent; reflexivity).
  rewrite try_silent by apply hide_unused_silent.
  reflexivity.
Qed.

Lemma step_3_ok (l : Locals) :
  step_3_correlation_matrix lib df no_failure l
    = mkRes (inr tt) (mkLocals (Some (df_corr lib df)) (sample_n l))
        [ Write (out_path "3_correlation_matrix.png") Image;
          Write (out_path "3_correlation_matrix.csv")
                (FrameCsv (df_corr lib df)) ].
Proof. reflexivity. Qed.

Lemma step_4_ok (l : Locals) :
  step_4_missing_value_heatmap no_failure l
    = mkRes (inr tt) l [Write (out_path "4_missing_value_heatmap.png") Image].
Proof. reflexivity. Qed.

Lemma step_5_ok (l : Locals) (c : Frame) :
  corr l = Some c ->
  step_5_corr_with_target lib no_failure l
    = mkRes (inr tt) l
        (if mem "label" (frame_columns c) then
           match getitem c "label" with
           | Some col =>
               [ Write (out_path "5_corr_with_target.png") Image;
                 Write (out_path "5_corr_with_target.csv")
                       (SeriesCsv (label_corr_of lib col)) ]
           | None =>
               [ Print [Str "Error while computing correlation with target:";
                        Exn (KeyError "label")] ]
           end
         else []).
Proof.
  intros Hc. unfold step_5_corr_with_target, step_5_try.
  rewrite try_read_corr, Hc. unfold step_5_body.
  destruct (mem "label" (frame_columns c)); [| reflexivity].
  destruct (getitem c "label"); reflexivity.
Qed.

Lemma step_7_ok (l : Locals) :
  step_7_boxplots_by_label features no_failure l
    = mkRes (inr tt) l [Write (out_path "7_boxplots_by_label.png") Image].
Proof.
  unfold step_7_boxplots_by_label, step_7_try. cbv zeta.
  rewrite !try_call_ok by reflexivity.
  rewrite try_silent by (apply for_each_silent; reflexivity).
  rewrite try_silent by apply hide_unused_silent.
  reflexivity.
Qed.

Lemma step_9_ok (l : Locals) :
  step_9_feature_variance lib df no_failure l
    = mkRes (inr tt) l
        [ Write (out_path "9_feature_variance.png") Image;
          Write (out_path "9_feature_variance.csv")
                (SeriesCsv (firstn 15 (sort_values_desc lib (df_var lib df)))) ].
Proof. reflexivity. Qed.

Lemma step_11_ok (l : Locals) :
  step_11_outliers df no_failure l
    = mkRes (inr tt) l [Write (out_path "11_outlier_iqr.png") Image].
Proof.
  unfold step_11_outliers, step_11_try. cbv zeta.
  rewrite !try_call_ok by reflexivity.
  rewrite try_silent by (apply for_each_silent; reflexivity).
  rewrite try_silent by apply hide_unused_silent.
  reflexivity.
Qed.

Lemma step_12_ok (l : Locals) (label : list Cell) :
  column df "label" = Some label ->
  step_12_summary df no_failure l
    = mkRes (inr tt) l
        [Write (out_path "12_summary_overview.csv") (summary_of df label)].
Proof.
  intros Hcol. unfold step_12_summary, step_12_try. rewrite Hcol. reflexivity.
Qed.

End NoFailure.

(* ===================================================================== *)
(** ** The label guard *)
(* ===================================================================== *)

(** C5.  On a table without a label column, when the three preliminary
    statements pass, the run writes the info file, the descriptive
    statistics and the null counts, prints that there is no label column,
    and returns: nothing else is written and nothing is raised. *)
Theorem no_label_stops_after_three_files :
  forall (lib : Lib) (env : Env) (df : DataFrame) (l : Locals),
    mem "label" (columns df) = false ->
    prelim_ok env ->
    let run := report lib env df l in
    result run = inr tt /\
    written (events run)
      = [ (out_path "0_info.txt", Text);
          (out_path "1_describe.csv", Csv);
          (out_path "2_missing_values.csv", Csv) ] /\
    last (events run) closing_line
      = Print [Str
          "The dataset does not contain a 'label' column. Stopping EDA."] /\
    sampled (events run) = [] /\
    ~ In closing_line (events run).
Proof.
  intros lib env df l Hlabel Hok. cbv zeta.
  rewrite (report_without_label lib env df l Hlabel Hok).
  repeat split.
  unfold closing_line. simpl. intuition discriminate.
Qed.

Lemma no_label_stops_after_three_files_witness :
  map fst (written (events (report lib0 env_no_file no_label_table start)))
    = [ "results/eda/0_info.txt"; "results/eda/1_describe.csv";
        "results/eda/2_missing_values.csv" ].
Proof.
  destruct (no_label_stops_after_three_files lib0 env_no_file no_label_table
              start) as [_ [Hw _]].
  - reflexivity.
  - intros f a. reflexivity.
  - rewrite Hw. reflexivity.
Defined.

(* ===================================================================== *)
(** ** Sample sizes *)
(* ===================================================================== *)

(** C6.  In a run of the steps, the KDE step asks for
    clamp(R // 50, 2000, 20000) rows, that is min(20000, max(2000, R // 50)),
    the pairplot step for min(5000, that size), and the scatter step, when
    its two columns are there, for min(15000, that size). *)
Theorem sample_sizes :
  forall (lib : Lib) (env : Env) (df : DataFrame),
    mem "label" (columns df) = true ->
    prelim_ok env ->
    let R := len df in
    let size := clamp (R / 50) 2000 20000 in
    size = Z.min 20000 (Z.max 2000 (R / 50)) /\
    map (fun s => fst (fst s)) (sampled (events (report lib env df start)))
      = ([size; Z.min 5000 size]
         ++ (if has_scatter_columns df then [Z.min 15000 size] else []))%list.
Proof.
  intros lib env df Hlabel Hok R size.
  assert (Hsize : kde_sample_n df = size) by apply kde_sample_n_clamp.
  split; [now rewrite <- Hsize |].
  rewrite (report_sampled lib env df Hlabel Hok).
  unfold expected_samples, pair_size, scatter_size. cbv zeta. rewrite Hsize.
  destruct (has_scatter_columns df); reflexivity.
Qed.

Lemma sample_sizes_witness :
  map (fun s => fst (fst s))
      (sampled (events (report lib0 env_no_file two_rows start)))
    = [2000; 2000; 2000].
Proof.
  destruct (sample_sizes lib0 env_no_file two_rows) as [_ Hs].
  - reflexivity.
  - intros f a. reflexivity.
  - rewrite Hs. reflexivity.
Defined.

(* ===================================================================== *)
(** ** Correlation with the label *)
(* ===================================================================== *)

(** C7.  When the correlation matrix has a label column, step 5 (with none
    of its calls raising) writes that column without its own label entry,
    sorted by value, larger first: the entries written are those of the
    column whose index is not the label, each as often as in the column. *)
Theorem corr_with_target_sorted :
  forall (lib : Lib) (df : DataFrame) (n : option Z),
    let c := df_corr lib df in
    mem "label" (frame_columns c) = true ->
    exists col out,
      getitem c "label" = Some col /\
      written (events (step_5_corr_with_target lib no_failure
                         (mkLocals (Some c) n)))
        = [ (out_path "5_corr_with_target.png", Image);
            (out_path "5_corr_with_target.csv", SeriesCsv out) ] /\
      Permutation out (drop "label" col) /\
      (forall e, In e out <-> In e col /\ fst e <> "label") /\
      StronglySorted (fun x y => descending (snd x) (snd y)) out.
Proof.
  intros lib df n c Hmem.
  destruct (getitem_mem c "label" Hmem) as [col Hcol].
  exists col, (label_corr_of lib col).
  split; [exact Hcol | split; [| split; [| split]]].
  - rewrite (step_5_ok lib (mkLocals (Some c) n) c eq_refl). cbn [events].
    rewrite Hmem, Hcol. reflexivity.
  - apply sort_values_desc_perm.
  - apply label_corr_of_entries.
  - apply label_corr_of_sorted.
Qed.

Lemma corr_with_target_sorted_witness :
  exists col out,
    getitem frame0 "label" = Some col /\
    written (events (step_5_corr_with_target lib_frame0 no_failure
                       (mkLocals (Some frame0) None)))
      = [ (out_path "5_corr_with_target.png", Image);
          (out_path "5_corr_with_target.csv", SeriesCsv out) ] /\
    Permutation out (drop "label" col) /\
    (forall e, In e out <-> In e col /\ fst e <> "label") /\
    StronglySorted (fun x y => descending (snd x) (snd y)) out.
Proof.
  apply (corr_with_target_sorted lib_frame0 two_rows None). reflexivity.
Defined.

Example corr_with_target_frame0 :
  written (events (step_5_corr_with_target lib_frame0 no_failure
                     (mkLocals (Some frame0) None)))
    = [ ("results/eda/5_corr_with_target.png", Image);
        ("results/eda/5_corr_with_target.csv",
         SeriesCsv [ ("m_lv", Num (3 # 4)); ("m_jj", Num (1 # 4));
                     ("m_wbb", Num (-1 # 2)); ("m_bb", NaN) ]) ].
Proof. reflexivity. Qed.

(* ===================================================================== *)
(** ** The summary overview *)
(* ===================================================================== *)

(** C8, the claim at a table with one row labelled 2: the summary has one
    row, two positive labels and no negative one. *)
Lemma summary_counts_label_two :
  mem "label" (columns label_two) = true /\
  written (events (step_12_summary label_two no_failure start))
    = [ (out_path "12_summary_overview.csv", SummaryCsv 1 2 2 0) ] /\
  2 + 0 <> 1.
Proof. repeat split. discriminate. Qed.

(** C8, amended.  When every entry of the label column is 0 or 1, the
    summary written by step 12 (with none of its calls raising) has the
    number of rows, the number of columns, the sum of the labels and the
    number of labels equal to 0, and the last two add up to the number of
    rows. *)
Theorem summary_counts_add_up :
  forall (df : DataFrame) (label : list Cell) (l : Locals),
    column df "label" = Some label ->
    Forall is_0_or_1 label ->
    exists positive negative,
      written (events (step_12_summary df no_failure l))
        = [ (out_path "12_summary_overview.csv",
             SummaryCsv (len df) (shape1 df) positive negative) ] /\
      positive = py_int (series_sum label) /\
      negative = count_zero label /\
      positive + negative = len df.
Proof.
  intros df label l Hcol H01.
  exists (py_int (series_sum label)), (count_zero label).
  split; [| split; [reflexivity | split; [reflexivity |]]].
  - rewrite (step_12_ok df l label Hcol). reflexivity.
  - now apply summary_counts.
Qed.

Lemma summary_counts_add_up_witness :
  written (events (step_12_summary two_rows no_failure start))
    = [ ("results/eda/12_summary_overview.csv", SummaryCsv 2 29 1 1) ].
Proof.
  destruct (summary_counts_add_up two_rows [Num 1; Num 0] start)
    as [p [n [Hw [Hp [Hn _]]]]].
  - reflexivity.
  - repeat constructor.
    + exists 1%Q. split; [reflexivity | right; reflexivity].
    + exists 0%Q. split; [reflexivity | left; reflexivity].
  - rewrite Hw, Hp, Hn. reflexivity.
Defined.

(* ===================================================================== *)
(** ** Loading, then reporting *)
(* ===================================================================== *)

Lemma parse_quiet (P : Event -> bool) (file : CsvFile) (names : list string)
    (read : list (list Cell)) :
  quiet P (parse file names read).
Proof.
  destruct (parse_cases file names read)
    as [[line [saw H]] | [df [_ [_ H]]]];
    eexists _, []; (split; [reflexivity | exact H]).
Qed.

(** The loader prints and reads, and does nothing else. *)
Lemma load_data_emits (P : Event -> bool) (env : Env) (path : string)
    (nrows : option Z) :
  P (ReadCsv path) = true -> (forall ps, P (Print ps) = true) ->
  quiet P (load_data env path nrows).
Proof.
  intros Hread Hprint. unfold load_data, read_csv.
  destruct (negb (path_exists env path)); [apply quiet_raise |].
  cbv zeta. unfold print.
  apply quiet_bind; [apply quiet_emit, Hprint | intros _].
  apply quiet_bind.
  - apply quiet_bind; [apply quiet_emit, Hread | intros _].
    destruct (disk env path) as [[e | file] |];
      [apply quiet_raise | | apply quiet_raise].
    destruct nrows as [n |]; [destruct (n <? 0) |];
      (apply quiet_raise || apply parse_quiet).
  - intros df.
    apply quiet_bind; [apply quiet_emit, Hprint | intros _].
    apply quiet_bind; [apply quiet_emit, Hprint | intros _]. apply quiet_ret.
Qed.

Lemma load_data_quiet (env : Env) (path : string) (nrows : option Z) :
  quiet (fun _ => true) (load_data env path nrows).
Proof. now apply load_data_emits. Qed.

Lemma load_data_outputs (env : Env) (path : string) (nrows : option Z) :
  quiet is_output (load_data env path nrows).
Proof. now apply load_data_emits. Qed.

Lemma outputs_not_sampled (evs : list Event) :
  forallb is_output evs = true -> sampled evs = [] /\ written evs = [].
Proof.
  induction evs as [| e rest IH]; simpl; [now split |].
  intros H. apply andb_true_iff in H. destruct H as [He Hrest].
  destruct (IH Hrest) as [Hs Hw]. rewrite Hs, Hw. now destruct e.
Qed.

Lemma load_data_same_disk (env1 env2 : Env) (path : string)
    (nrows : option Z) (l : Locals) :
  disk env1 path = disk env2 path ->
  load_data env1 path nrows l = load_data env2 path nrows l.
Proof.
  intros Hd. unfold load_data, path_exists, read_csv, bind. now rewrite Hd.
Qed.

(** A loaded table has the columns of the schema, the label among them. *)
Lemma load_data_columns (env : Env) (path : string) (nrows : option Z)
    (l : Locals) (df : DataFrame) :
  result (load_data env path nrows l) = inr df ->
  columns df = schema_names.
Proof.
  unfold load_data, read_csv.
  destruct (negb (path_exists env path)); [discriminate |].
  cbv zeta. fold schema_names.
  unfold bind, print, emit, ret, raise. cbn [result locals events].
  destruct (disk env path) as [[e | file] |]; cbn [result locals events];
    [discriminate | | discriminate].
  assert (Hparse : forall read,
            match result (parse file schema_names read l) with
            | inl _ => True
            | inr d => columns d = schema_names
            end).
  { intros read.
    destruct (parse_cases file schema_names read)
      as [[line [saw H]] | [d [Hd [_ H]]]]; rewrite H; [exact I | exact Hd]. }
  destruct nrows as [n |]; [destruct (n <? 0) |]; cbn [result locals events];
    [discriminate | |];
    match goal with
    | |- context [parse file schema_names ?read l] =>
        specialize (Hparse read);
        destruct (parse file schema_names read l) as [[e | d] l1 evs]
    end; cbn [result locals events] in *;
    first [discriminate | intros H; injection H as <-; exact Hparse].
Qed.

(** C4.  [perform_eda] selects the features of the table [load_data]
    returned.  Every such table has a label column, and feature selection
    on it returns a list that is not empty, does not contain the label and
    has at most seven names. *)
Theorem select_features_of_a_loaded_table :
  forall (env : Env) (path : string) (nrows : option Z) (l : Locals)
         (df : DataFrame),
    result (load_data env path nrows l) = inr df ->
    mem "label" (columns df) = true /\
    select_features df <> [] /\
    ~ In "label" (select_features df) /\
    (List.length (select_features df) <= 7)%nat.
Proof.
  intros env path nrows l df Hload.
  pose proof (load_data_columns _ _ _ _ _ Hload) as Hcols.
  destruct (select_features_bounds df) as [Hlab [Hlen _]].
  split; [now rewrite Hcols | split; [| split; [exact Hlab | exact Hlen]]].
  unfold select_features. rewrite Hcols. discriminate.
Qed.

Lemma select_features_of_a_loaded_table_witness :
  result (load_data env_three_rows "HIGGS.csv.gz" (Some 2) start)
    = inr two_rows /\
  mem "label" (columns two_rows) = true /\
  select_features two_rows <> [] /\
  ~ In "label" (select_features two_rows) /\
  (List.length (select_features two_rows) <= 7)%nat.
Proof.
  split; [reflexivity |].
  apply (select_features_of_a_loaded_table env_three_rows "HIGGS.csv.gz"
           (Some 2) start two_rows).
  reflexivity.
Defined.

(** [perform_eda] is the loading, then either the report of the error or
    the report on the table. *)
Lemma perform_eda_run (lib : Lib) (env : Env) (n : Z) :
  let load := load_data env "HIGGS.csv.gz" (Some n) start in
  let before := (Print [Str "Loading up to "; Int n; Str " rows..."]
                 :: events load)%list in
  perform_eda lib env n start
    = match result load with
      | inl e =>
          mkRes (inr tt) start
                (before ++ [Print [Str "Could not load dataset:"; Exn e];
                            Traceback e])
      | inr df => prefix before (report lib env df start)
      end.
Proof.
  cbv zeta. unfold perform_eda, print.
  destruct (load_data_quiet env "HIGGS.csv.gz" (Some n))
    as [r [evs [_ Hload]]].
  rewrite bind_emit.
  match goal with
  | |- context [bind ?t _ start] =>
      assert (HT : t start
                = match r with
                  | inl e =>
                      mkRes (inr None) start
                        (evs ++ [Print [Str "Could not load dataset:"; Exn e];
                                 Traceback e])
                  | inr df => mkRes (inr (Some df)) start evs
                  end)
  end.
  { unfold try_except, bind, emit, ret. rewrite Hload.
    cbn [result locals events].
    destruct r as [e | df]; cbn [result locals events app];
      rewrite ?app_nil_r; reflexivity. }
  unfold bind at 1. rewrite HT, Hload. cbn [result].
  destruct r as [e | df]; cbn [result locals events]; unfold prefix, ret;
    cbn [result locals events app]; rewrite ?app_nil_r; reflexivity.
Qed.

(* ===================================================================== *)
(** ** Sampling is deterministic *)
(* ===================================================================== *)

(** C9.  Two runs of [perform_eda] with the same row count over the same
    file draw the same samples, in the same order, whatever the state of
    numpy's global generator and whichever library calls of the twelve
    steps raise in either run: every sample is drawn with the seed 42. *)
Theorem sampling_is_deterministic :
  forall (lib : Lib) (env1 env2 : Env) (n : Z),
    disk env1 "HIGGS.csv.gz" = disk env2 "HIGGS.csv.gz" ->
    prelim_ok env1 ->
    prelim_ok env2 ->
    sampled (events (perform_eda lib env1 n start))
      = sampled (events (perform_eda lib env2 n start)) /\
    Forall (fun s => snd (fst s) = Some 42)
           (sampled (events (perform_eda lib env1 n start))).
Proof.
  intros lib env1 env2 n Hdisk Hok1 Hok2.
  pose proof (perform_eda_run lib env1 n) as H1.
  pose proof (perform_eda_run lib env2 n) as H2.
  cbv zeta in H1, H2.
  rewrite <- (load_data_same_disk env1 env2 _ _ _ Hdisk) in H2.
  rewrite H1, H2.
  pose proof (allowed_not_sampled) as Hns.
  assert (Hload : sampled (events (load_data env1 "HIGGS.csv.gz" (Some n) start))
                  = []).
  { destruct (load_data_outputs env1 "HIGGS.csv.gz" (Some n))
      as [r [evs [Hevs Hrun]]].
    rewrite Hrun. apply outputs_not_sampled, Hevs. }
  destruct (result (load_data env1 "HIGGS.csv.gz" (Some n) start))
    as [e | df] eqn:Hres.
  - cbn [events].
    change (Print ?x :: ?r) with ([Print x] ++ r)%list.
    rewrite !sampled_app, Hload. split; [reflexivity | constructor].
  - assert (Hlabel : mem "label" (columns df) = true).
    { rewrite (load_data_columns _ _ _ _ _ Hres). reflexivity. }
    unfold prefix. cbn [events].
    change (Print ?x :: ?r) with ([Print x] ++ r)%list.
    rewrite !sampled_app, Hload.
    rewrite (report_sampled lib env1 df Hlabel Hok1).
    rewrite (report_sampled lib env2 df Hlabel Hok2).
    split; [reflexivity |].
    unfold expected_samples. cbv zeta. cbn [app sampled flat_map].
    destruct (has_scatter_columns df); repeat constructor.
Qed.

Lemma sampling_is_deterministic_witness :
  let run1 := events (perform_eda lib_rotating env_2500 500000 start) in
  let run2 := events (perform_eda lib_rotating env_2500_again 500000 start) in
  global_rng env_2500 <> global_rng env_2500_again /\
  printed run1 <> printed run2 /\
  sampled run1 = sampled run2 /\
  sampled run1
    = repeat (2000, Some 42,
              inr (firstn 2000 (skipn 42 rows_2500))) 3.
Proof.
  cbv zeta.
  split; [discriminate |].
  split; [vm_compute; discriminate |].
  split; [| vm_compute; reflexivity].
  destruct (sampling_is_deterministic lib_rotating env_2500 env_2500_again
              500000) as [Hs _].
  - reflexivity.
  - intros f a. reflexivity.
  - intros f a. reflexivity.
  - exact Hs.
Defined.

(** Without a seed the rows drawn follow the global generator: the seed is
    what makes the samples of two runs the same. *)
Example unseeded_sample_follows_the_global_state :
  sampled (events (df_sample lib_rotating 0 two_rows 1 None start))
    <> sampled (events (df_sample lib_rotating 1 two_rows 1 None start)) /\
  sampled (events (df_sample lib_rotating 0 two_rows 1 (Some 42) start))
    = sampled (events (df_sample lib_rotating 1 two_rows 1 (Some 42) start)).
Proof. split; [discriminate | reflexivity]. Qed.

(* ===================================================================== *)
(** ** The files of a step in a run *)
(* ===================================================================== *)

(** The artifacts of step [k] in a run are those of the events of step
    [k]. *)
Lemma report_written_by (lib : Lib) (env : Env) (df : DataFrame) (k : nat) :
  mem "label" (columns df) = true ->
  prelim_ok env ->
  (1 <= k <= 12)%nat ->
  written_by k (events (report lib env df start))
    = written_by k (step_events lib env df k).
Proof.
  intros Hlabel Hok Hk. rewrite report_trace by assumption. cbn [events].
  change (Print ?x :: ?r) with ([Print x] ++ r)%list.
  rewrite !written_by_app.
  rewrite (written_by_other k 0 (prelim_events df)) by (reflexivity || lia).
  rewrite (written_by_steps k (step_events lib env df) (seq 1 12)).
  - cbn [app]. apply app_nil_r.
  - intros j. apply step_events_owns.
  - apply seq_NoDup.
  - apply in_seq. lia.
Qed.

Lemma report_closing_line (lib : Lib) (env : Env) (df : DataFrame) :
  mem "label" (columns df) = true ->
  prelim_ok env ->
  result (report lib env df start) = inr tt /\
  last (events (report lib env df start)) (Traceback too_large) = closing_line.
Proof.
  intros Hlabel Hok. rewrite report_trace by assumption.
  split; [reflexivity |]. cbn [events].
  rewrite app_comm_cons, !app_assoc. apply last_last.
Qed.

(* ===================================================================== *)
(** ** Tables of fewer than 2000 rows *)
(* ===================================================================== *)

Lemma small_table_sample (lib : Lib) (df : DataFrame) :
  len df < 2000 ->
  kde_sample_n df = 2000 /\ pair_size 2000 = 2000 /\ scatter_size 2000 = 2000 /\
  draw lib 42 df 2000 = inl (sample_error df).
Proof.
  intros Hlen. assert (H0 : 0 <= len df) by (unfold len; lia).
  repeat split.
  - unfold kde_sample_n.
    assert (len df / 50 < 2000) by (apply Z.div_lt_upper_bound; lia). lia.
  - unfold draw, sample_error. simpl (2000 <? 0). simpl (0 <? 2000).
    destruct (Z.eqb_spec (len df) 0) as [H | H]; [reflexivity |].
    cbn [andb]. destruct (Z.ltb_spec (len df) 2000); [reflexivity | lia].
Qed.

Section SmallTable.

Variable lib : Lib.
Variable env : Env.
Variable df : DataFrame.
Hypothesis small : len df < 2000.

Lemma small_step_6 :
  step_events lib env df 6
    = [ Sample 2000 (Some 42) (inl (sample_error df));
        Print [Str "Error creating KDE plots:"; Exn (sample_error df)] ].
Proof.
  destruct (small_table_sample lib df small) as [Hn [_ [_ Hdraw]]].
  destruct (step_6_run lib df (select_features df) (fails env 6%nat))
    as [tail [_ [Herr H6]]].
  unfold step_events. rewrite H6. cbn [events].
  rewrite Hn in *. rewrite Hdraw in *. now rewrite (Herr (sample_error df) eq_refl).
Qed.

Lemma small_step_8 :
  step_events lib env df 8
    = [ Sample 2000 (Some 42) (inl (sample_error df));
        Print [Str "Pairplot skipped:"; Exn (sample_error df)] ].
Proof.
  destruct (small_table_sample lib df small) as [Hn [Hp [_ Hdraw]]].
  destruct (step_8_run lib df (select_features df) (fails env 8%nat) 2000)
    as [tail [_ [Herr H8]]].
  unfold step_events. rewrite H8 by (unfold locals_6; now rewrite Hn).
  cbn [events]. rewrite Hp in *. rewrite Hdraw in *.
  now rewrite (Herr (sample_error df) eq_refl).
Qed.

Lemma small_step_10 :
  step_events lib env df 10
    = if has_scatter_columns df
      then [ Sample 2000 (Some 42) (inl (sample_error df));
             Print [Str "Error creating scatter plot:"; Exn (sample_error df)] ]
      else [].
Proof.
  destruct (small_table_sample lib df small) as [Hn [_ [Hs Hdraw]]].
  destruct (step_10_run lib df (fails env 10%nat) 2000)
    as [tail [_ [Herr H10]]].
  unfold step_events. rewrite H10 by (unfold locals_6; now rewrite Hn).
  cbn [events]. unfold has_scatter_columns. rewrite Hs in *.
  rewrite Hdraw in *. now rewrite (Herr (sample_error df) eq_refl).
Qed.

Lemma in_step_events (k : nat) (e : Event) :
  mem "label" (columns df) = true ->
  prelim_ok env ->
  (1 <= k <= 12)%nat ->
  In e (step_events lib env df k) ->
  In e (events (report lib env df start)).
Proof.
  intros Hlabel Hok Hk Hin. rewrite report_trace by assumption. cbn [events].
  apply in_or_app. right. right. apply in_or_app. left.
  apply in_flat_map. exists k. split; [apply in_seq; lia | exact Hin].
Qed.

(** The files written when no call outside the sampling steps raises *)
Lemma small_table_written (label : list Cell) :
  mem "label" (columns df) = true ->
  prelim_ok env ->
  column df "label" = Some label ->
  (forall k, k <> 6%nat -> k <> 8%nat -> k <> 10%nat ->
             fails env k = no_failure) ->
  written (events (report lib env df start))
    = artifacts_without_sampling lib df label.
Proof.
  intros Hlabel Hok Hcol Hnf. rewrite report_trace by assumption.
  cbn [events flat_map seq]. rewrite small_step_6, small_step_8, small_step_10.
  cbv beta iota zeta delta [step_events].
  rewrite (Hnf 1%nat), (Hnf 2%nat), (Hnf 3%nat), (Hnf 4%nat), (Hnf 5%nat),
    (Hnf 7%nat), (Hnf 9%nat), (Hnf 11%nat), (Hnf 12%nat) by lia.
  rewrite step_1_ok, step_2_ok, step_3_ok, step_4_ok, step_7_ok, step_9_ok,
    step_11_ok, (step_12_ok df _ label Hcol).
  rewrite (step_5_ok lib (locals_3 lib no_failure df) (df_corr lib df) eq_refl).
  cbn [events]. unfold artifacts_without_sampling, corr_with_target_files.
  change (Print ?x :: ?r) with ([Print x] ++ r)%list.
  rewrite !written_app.
  destruct (has_scatter_columns df);
    destruct (mem "label" (frame_columns (df_corr lib df)));
    try destruct (getitem (df_corr lib df) "label"); reflexivity.
Qed.

End SmallTable.

(** The names of the files [artifacts_without_sampling] lists *)
Lemma artifacts_without_sampling_names (lib : Lib) (df : DataFrame)
    (label : list Cell) :
  map fst (artifacts_without_sampling lib df label)
    = file_names_without_sampling lib df.
Proof.
  unfold artifacts_without_sampling, file_names_without_sampling,
    corr_with_target_files.
  cbn [seq flat_map sampling_step Nat.eqb orb step_files app prelim_files].
  destruct (mem "label" (frame_columns (df_corr lib df))) eqn:Hmem.
  - destruct (getitem_mem _ _ Hmem) as [col ->]. reflexivity.
  - reflexivity.
Qed.

(** C10.  On a table with a label column and fewer than 2000 rows (the
    preliminary statements passing) the sample size is 2000 and exceeds
    the row count.  The KDE and the pairplot step each ask for 2000 rows,
    which raises (the error of a sample larger than the table, or of a
    sample of a table without rows); each prints its error line and writes
    nothing.  The scatter step does the same when the table has its two
    columns, which every table the loader returns has.  When no call of
    the other steps raises, every file of the other steps is written, in
    step order, and no other file. *)
Theorem small_table_skips_the_sampling_steps :
  forall (lib : Lib) (env : Env) (df : DataFrame),
    mem "label" (columns df) = true ->
    prelim_ok env ->
    len df < 2000 ->
    let tr := events (report lib env df start) in
    let e := sample_error df in
    (kde_sample_n df = 2000 /\ len df < kde_sample_n df) /\
    sampled tr
      = ([ (2000, Some 42, inl e); (2000, Some 42, inl e) ]
         ++ (if has_scatter_columns df
             then [ (2000, Some 42, inl e) ] else []))%list /\
    In (Print [Str "Error creating KDE plots:"; Exn e]) tr /\
    In (Print [Str "Pairplot skipped:"; Exn e]) tr /\
    (has_scatter_columns df = true ->
     In (Print [Str "Error creating scatter plot:"; Exn e]) tr) /\
    (forall env' path nrows l,
       result (load_data env' path nrows l) = inr df ->
       has_scatter_columns df = true) /\
    written_by 6 tr = [] /\ written_by 8 tr = [] /\ written_by 10 tr = [] /\
    ((forall k, sampling_step k = false -> fails env k = no_failure) ->
     map fst (written tr) = file_names_without_sampling lib df).
Proof.
  intros lib env df Hlabel Hok Hsmall tr e. subst tr e.
  destruct (small_table_sample lib df Hsmall) as [Hn [Hp [Hs Hdraw]]].
  split; [split; [exact Hn | lia] |].
  split; [| split; [| split; [| split; [| split;
    [| split; [| split; [| split]]]]]]].
  - rewrite (report_sampled lib env df Hlabel Hok).
    unfold expected_samples. cbv zeta. rewrite Hn, Hp, Hs, Hdraw. reflexivity.
  - apply (in_step_events lib env df 6); try assumption; [lia |].
    rewrite small_step_6 by assumption. right. now left.
  - apply (in_step_events lib env df 8); try assumption; [lia |].
    rewrite small_step_8 by assumption. right. now left.
  - intros Hcols.
    apply (in_step_events lib env df 10); try assumption; [lia |].
    rewrite small_step_10 by assumption. rewrite Hcols. right. now left.
  - intros env' path nrows l Hload.
    unfold has_scatter_columns.
    rewrite (load_data_columns _ _ _ _ _ Hload). reflexivity.
  - rewrite report_written_by by (assumption || lia).
    now rewrite small_step_6.
  - rewrite report_written_by by (assumption || lia).
    now rewrite small_step_8.
  - rewrite report_written_by by (assumption || lia).
    rewrite small_step_10 by assumption.
    now destruct (has_scatter_columns df).
  - intros Hnf. destruct (column_mem df "label" Hlabel) as [label Hcol].
    rewrite (small_table_written lib env df Hsmall label Hlabel Hok Hcol).
    + apply artifacts_without_sampling_names.
    + intros k H6 H8 H10. apply Hnf. unfold sampling_step.
      destruct (Nat.eqb_spec k 6), (Nat.eqb_spec k 8), (Nat.eqb_spec k 10);
        simpl; congruence.
Qed.

Lemma small_table_skips_the_sampling_steps_witness :
  result (load_data env_three_rows "HIGGS.csv.gz" (Some 2) start)
    = inr two_rows /\
  sampled (events (report lib0 env_three_rows two_rows start))
    = repeat (2000, Some 42, inl too_large) 3 /\
  map fst (written (events (report lib0 env_three_rows two_rows start)))
    = [ "results/eda/0_info.txt"; "results/eda/1_describe.csv";
        "results/eda/2_missing_values.csv";
        "results/eda/1_target_distribution.png";
        "results/eda/2_feature_histograms.png";
        "results/eda/3_correlation_matrix.png";
        "results/eda/3_correlation_matrix.csv";
        "results/eda/4_missing_value_heatmap.png";
        "results/eda/5_corr_with_target.png";
        "results/eda/5_corr_with_target.csv";
        "results/eda/7_boxplots_by_label.png";
        "results/eda/9_feature_variance.png";
        "results/eda/9_feature_variance.csv";
        "results/eda/11_outlier_iqr.png";
        "results/eda/12_summary_overview.csv" ].
Proof.
  split; [reflexivity |].
  destruct (small_table_skips_the_sampling_steps lib0 env_three_rows two_rows)
    as [_ [Hs [_ [_ [_ [_ [_ [_ [_ Hw]]]]]]]]].
  - reflexivity.
  - intros f a. reflexivity.
  - reflexivity.
  - split; [exact Hs |].
    rewrite Hw; [reflexivity |]. intros k _. reflexivity.
Defined.

(** A limit of 0 rows gives a table without rows: the three sampling
    steps raise the error of a sample of an empty population. *)
Example empty_table_sampling :
  sampled (events (perform_eda lib0 env_three_rows 0 start))
    = repeat (2000, Some 42, inl empty_population) 3 /\
  In [Str "Error creating KDE plots:"; Exn empty_population]
     (printed (events (perform_eda lib0 env_three_rows 0 start))).
Proof. split; [reflexivity |]. vm_compute. tauto. Qed.

(* ===================================================================== *)
(** ** [save_plot] *)
(* ===================================================================== *)

(** One attempt of [save_plot]: save, then close. *)
Lemma save_attempt (o : Oracle) (obj path arg : string) (h : exn -> M unit)
    (l : Locals) :
  try_except (savefig o obj path ;; call o "plt.close" arg) h l
    = match o (obj ++ ".savefig") path with
      | Some e => h e l
      | None =>
          match o "plt.close" arg with
          | None => mkRes (inr tt) l [Write path Image]
          | Some e => prefix [Write path Image] (h e l)
          end
      end.
Proof.
  unfold try_except, bind, savefig, call, emit, raise, ret, prefix.
  destruct (o (obj ++ ".savefig") path) as [e1 |];
    cbn [result locals events app].
  - apply res_eta.
  - destruct (o "plt.close" arg) as [e2 |]; cbn [result locals events app];
      reflexivity.
Qed.

Lemma save_plot_last_resort (o : Oracle) (path : string) (e : exn)
    (l : Locals) :
  (print [Str "Could not save plot: "; Str path; Exn e] ;;
   call o "plt.close" "all") l
    = mkRes (match o "plt.close" "all" with
             | Some e' => inl e'
             | None => inr tt
             end) l
            [Print [Str "Could not save plot: "; Str path; Exn e]].
Proof.
  unfold bind, print, emit, call, raise, ret.
  destruct (o "plt.close" "all"); reflexivity.
Qed.

Lemma save_plot_cases (o : Oracle) (path : string) (l : Locals) :
  save_plot o path l
    = let last e :=
        mkRes (match o "plt.close" "all" with
               | Some e' => inl e'
               | None => inr tt
               end) l
              [Print [Str "Could not save plot: "; Str path; Exn e]] in
      let fallback :=
        match o "plt.savefig" path with
        | Some e => last e
        | None =>
            match o "plt.close" "" with
            | None => mkRes (inr tt) l [Write path Image]
            | Some e => prefix [Write path Image] (last e)
            end
        end in
      match o "fig.savefig" path with
      | Some _ => fallback
      | None =>
          match o "plt.close" "fig" with
          | None => mkRes (inr tt) l [Write path Image]
          | Some _ => prefix [Write path Image] fallback
          end
      end.
Proof.
  unfold save_plot. cbv zeta.
  rewrite save_attempt. change ("fig" ++ ".savefig") with "fig.savefig".
  rewrite save_attempt. change ("plt" ++ ".savefig") with "plt.savefig".
  destruct (o "fig.savefig" path) as [e1 |];
    [| destruct (o "plt.close" "fig") as [e2 |]];
    try reflexivity;
    (destruct (o "plt.savefig" path) as [e3 |];
       [| destruct (o "plt.close" "") as [e4 |]]);
    rewrite ?save_plot_last_resort; reflexivity.
Qed.

Ltac save_plot_oracles o path :=
  destruct (o "fig.savefig" path) as [? |] eqn:?;
  destruct (o "plt.close" "fig") as [? |] eqn:?;
  destruct (o "plt.savefig" path) as [? |] eqn:?;
  destruct (o "plt.close" "") as [? |] eqn:?;
  destruct (o "plt.close" "all") as [? |] eqn:?;
  unfold prefix; cbn [result locals events app written flat_map List.length].

(** X1.  [save_plot] raises only what the last [plt.close("all")] raises,
    and only after each of its two attempts has failed, at its save or at
    the [plt.close] that follows the save: an error of [fig.savefig], of
    [plt.savefig] or of the two earlier [plt.close] calls never leaves
    it. *)
Theorem save_plot_swallows_errors :
  forall (o : Oracle) (path : string) (l : Locals) (e : exn),
    result (save_plot o path l) = inl e ->
    o "plt.close" "all" = Some e /\
    (o "fig.savefig" path <> None \/ o "plt.close" "fig" <> None) /\
    (o "plt.savefig" path <> None \/ o "plt.close" "" <> None).
Proof.
  intros o path l e. rewrite save_plot_cases. cbv zeta.
  save_plot_oracles o path;
    intros H; try discriminate H; injection H as <-;
    (split; [reflexivity |]);
    split; first [left; discriminate | right; discriminate].
Qed.

Lemma save_plot_swallows_errors_witness :
  let o : Oracle := fun _ _ => Some (LibraryError "no backend") in
  o "plt.close" "all" = Some (LibraryError "no backend").
Proof.
  intros o.
  apply (save_plot_swallows_errors o "results/eda/x.png" start
           (LibraryError "no backend")).
  reflexivity.
Defined.

(** X2.  [save_plot] writes nothing but the image at [path]; it writes it
    if and only if [fig.savefig] or [plt.savefig] succeeds, and twice
    exactly when [fig.savefig] succeeds, [plt.close(fig)] raises and
    [plt.savefig] succeeds.  It leaves the locals alone. *)
Theorem save_plot_writes :
  forall (o : Oracle) (path : string) (l : Locals),
    let files := written (events (save_plot o path l)) in
    Forall (eq (path, Image)) files /\
    (files = [] <->
       o "fig.savefig" path <> None /\ o "plt.savefig" path <> None) /\
    (List.length files = 2%nat <->
       o "fig.savefig" path = None /\ o "plt.close" "fig" <> None /\
       o "plt.savefig" path = None) /\
    (List.length files <= 2)%nat /\
    locals (save_plot o path l) = l.
Proof.
  intros o path l. rewrite save_plot_cases. cbv zeta.
  save_plot_oracles o path;
    (split; [repeat constructor |]);
    (split; [split; [intros H; first [discriminate H | split; discriminate]
                    | intros [Ha Hb]; first [reflexivity | congruence]] |]);
    (split; [split; [intros H; first [discriminate H
                                     | repeat split; first [reflexivity | discriminate]]
                    | intros [Ha [Hb Hc]]; first [reflexivity | congruence]] |]);
    (split; [lia | reflexivity]).
Qed.

Lemma try_step {A} (m : M unit) (k : unit -> M A) (h : exn -> M A)
    (l : Locals) (evs : list Event) :
  m l = mkRes (inr tt) l evs ->
  try_except (bind m k) h l = prefix evs (try_except (k tt) h l).
Proof.
  intros Hm. unfold try_except, bind, prefix. rewrite Hm.
  cbn [result locals events].
  destruct (k tt l) as [[e | a] l1 evs1]; cbn [result locals events].
  - now rewrite app_assoc.
  - reflexivity.
Qed.

(** X3.  In step 3, when the matrix is computed and drawn but the image
    cannot be saved either way, the step prints the line of [save_plot],
    not its own, and still writes the CSV of the matrix: the step leaves
    one of its two files. *)
Theorem step_3_csv_without_image :
  forall (lib : Lib) (df : DataFrame) (o : Oracle) (l : Locals) (e1 e2 : exn),
    o "df.corr" "" = None ->
    o "plt.subplots" "" = None ->
    o "sns.heatmap" "" = None ->
    o "ax.set_title" "Correlation Matrix" = None ->
    o "fig.savefig" (out_path "3_correlation_matrix.png") = Some e1 ->
    o "plt.savefig" (out_path "3_correlation_matrix.png") = Some e2 ->
    o "plt.close" "all" = None ->
    o "corr.to_csv" (out_path "3_correlation_matrix.csv") = None ->
    step_3_correlation_matrix lib df o l
      = mkRes (inr tt) (mkLocals (Some (df_corr lib df)) (sample_n l))
          [ Print [Str "Could not save plot: ";
                   Str (out_path "3_correlation_matrix.png"); Exn e2];
            Write (out_path "3_correlation_matrix.csv")
                  (FrameCsv (df_corr lib df)) ].
Proof.
  intros lib df o l e1 e2 Hcorr Hsub Hheat Htitle Hfig Hplt Hclose Hcsv.
  unfold step_3_correlation_matrix, step_3_try. cbv zeta.
  rewrite try_call_ok by exact Hcorr. rewrite try_set_corr.
  rewrite try_call_ok by exact Hsub.
  rewrite try_call_ok by exact Hheat.
  rewrite try_call_ok by exact Htitle.
  rewrite (try_step _ _ _ _
             [Print [Str "Could not save plot: ";
                     Str (out_path "3_correlation_matrix.png"); Exn e2]]).
  - unfold to_csv, try_except, bind, call, emit, prefix.
    change ("corr" ++ ".to_csv") with "corr.to_csv". rewrite Hcsv. reflexivity.
  - rewrite save_plot_cases. cbv zeta. now rewrite Hfig, Hplt, Hclose.
Qed.

Lemma step_3_csv_without_image_witness :
  map fst (written (events
    (step_3_correlation_matrix lib0 two_rows (fails env_no_savefig 3) start)))
    = [ "results/eda/3_correlation_matrix.csv" ].
Proof.
  rewrite (step_3_csv_without_image lib0 two_rows (fails env_no_savefig 3)
             start (LibraryError "disk full") (LibraryError "disk full"));
    reflexivity.
Defined.

(* ===================================================================== *)
(** ** Loading: the other outcomes *)
(* ===================================================================== *)

(** X4.  When the file exists and the reader raises, [load_data] lets the
    exception through after its first line of output; [perform_eda]
    catches it, prints it with the traceback and returns without writing
    a file. *)
Theorem reader_failure_stops_the_run :
  forall (lib : Lib) (env : Env) (path : string) (nrows : option Z)
         (l : Locals) (e : exn),
    disk env path = Some (inl e) ->
    load_data env path nrows l
      = mkRes (inl e) l
          [ Print [Str "Loading data from "; Str path; Str "..."];
            ReadCsv path ] /\
    (path = "HIGGS.csv.gz" ->
     forall n : Z,
       perform_eda lib env n start
         = mkRes (inr tt) start
             [ Print [Str "Loading up to "; Int n; Str " rows..."];
               Print [Str "Loading data from "; Str "HIGGS.csv.gz"; Str "..."];
               ReadCsv "HIGGS.csv.gz";
               Print [Str "Could not load dataset:"; Exn e];
               Traceback e ]).
Proof.
  intros lib env path nrows l e Hdisk.
  assert (Hload : forall nr l', load_data env path nr l'
            = mkRes (inl e) l'
                [ Print [Str "Loading data from "; Str path; Str "..."];
                  ReadCsv path ]).
  { intros nr l'. unfold load_data, path_exists, read_csv. rewrite Hdisk.
    cbv zeta. unfold bind, print, emit, raise.
    cbn [negb result locals events app]. reflexivity. }
  split; [apply Hload |].
  intros -> n. pose proof (perform_eda_run lib env n) as Hrun.
  cbv zeta in Hrun. rewrite Hload in Hrun. exact Hrun.
Qed.

Lemma reader_failure_stops_the_run_witness :
  written (events (perform_eda lib0 env_bad_file 500000 start)) = [].
Proof.
  destruct (reader_failure_stops_the_run lib0 env_bad_file "HIGGS.csv.gz"
              (Some 500000) start (LibraryError "Error tokenizing data")
              eq_refl) as [_ Hrun].
  rewrite (Hrun eq_refl 500000). reflexivity.
Defined.

(** X5.  A table that [load_data] returns has the label column, the two
    columns of the scatter plot and all seven preferred features: on it
    the label guard does not fire and feature selection returns the
    preferred list, never the fallback. *)
Theorem loaded_table_uses_the_preferred_features :
  forall (env : Env) (path : string) (nrows : option Z) (l : Locals)
         (df : DataFrame),
    result (load_data env path nrows l) = inr df ->
    mem "label" (columns df) = true /\
    select_features df = default_features /\
    has_scatter_columns df = true /\
    NoDup (columns df) /\
    shape1 df = 29.
Proof.
  intros env path nrows l df Hres.
  pose proof (load_data_columns env path nrows l df Hres) as Hcols.
  unfold select_features, has_scatter_columns, shape1.
  rewrite <- (length_map fst (schema df)). fold (columns df). rewrite Hcols.
  repeat split; try reflexivity. apply schema_names_count.
Qed.

Lemma loaded_table_uses_the_preferred_features_witness :
  exists df,
    result (load_data env_three_rows "HIGGS.csv.gz" (Some 2) start) = inr df /\
    select_features df = default_features.
Proof.
  eexists. split; [reflexivity |].
  apply (loaded_table_uses_the_preferred_features env_three_rows
           "HIGGS.csv.gz" (Some 2) start). reflexivity.
Defined.

(** X6.  Whatever the disk holds and whichever calls of the twelve steps
    raise, [perform_eda] returns when the three preliminary statements
    pass; when the table loads, the run ends with the closing line. *)
Theorem perform_eda_returns :
  forall (lib : Lib) (env : Env) (n : Z),
    prelim_ok env ->
    result (perform_eda lib env n start) = inr tt /\
    (forall df,
       result (load_data env "HIGGS.csv.gz" (Some n) start) = inr df ->
       last (events (perform_eda lib env n start)) (Traceback too_large)
         = closing_line).
Proof.
  intros lib env n Hok. pose proof (perform_eda_run lib env n) as Hrun.
  cbv zeta in Hrun. rewrite Hrun.
  destruct (result (load_data env "HIGGS.csv.gz" (Some n) start))
    as [e | df] eqn:Hres.
  - split; [reflexivity | intros df H; discriminate H].
  - assert (Hlabel : mem "label" (columns df) = true).
    { rewrite (load_data_columns env "HIGGS.csv.gz" (Some n) start df Hres).
      reflexivity. }
    destruct (report_closing_line lib env df Hlabel Hok) as [Hr Hlast].
    split; [exact Hr |].
    intros df' Hdf'. injection Hdf' as <-.
    unfold prefix. cbn [events].
    rewrite (report_trace lib env df Hlabel Hok) in *. cbn [events] in *.
    rewrite app_comm_cons, !app_assoc. apply last_last.
Qed.

Lemma perform_eda_returns_witness :
  result (perform_eda lib0 env_three_rows_again 2 start) = inr tt.
Proof.
  apply (perform_eda_returns lib0 env_three_rows_again 2).
  intros f a. reflexivity.
Defined.

(* ===================================================================== *)
(** ** The statements outside any [try] *)
(* ===================================================================== *)

Lemma bind_call_raises {B} (o : Oracle) (f a : string) (e : exn)
    (k : unit -> M B) (l : Locals) :
  o f a = Some e -> bind (call o f a) k l = mkRes (inl e) l [].
Proof. intros Hf. unfold bind, call. now rewrite Hf. Qed.

(** X7.  An exception of a preliminary statement leaves [report] (and
    with it [perform_eda]): no step runs.  When [df.info] raises, the
    info file that [open] created is left behind; when [df.describe]
    raises, the info file is the only one written. *)
Theorem preliminary_failure_ends_the_run :
  forall (lib : Lib) (env : Env) (df : DataFrame) (l : Locals) (e : exn),
    fails env 0%nat "open" (out_path "0_info.txt") = None ->
    let loaded := Print [Str "Loaded "; Int (len df); Str " rows and ";
                         Int (shape1 df); Str " columns."] in
    (fails env 0%nat "df.info" "" = Some e ->
     report lib env df l
       = mkRes (inl e) l [loaded; Write (out_path "0_info.txt") Text]) /\
    (fails env 0%nat "df.info" "" = None ->
     fails env 0%nat "df.describe" "" = Some e ->
     report lib env df l
       = mkRes (inl e) l
           [loaded; Write (out_path "0_info.txt") Text;
            Print [Str "Saved dataset info."]]).
Proof.
  intros lib env df l e Hopen loaded. subst loaded. split.
  - intros Hinfo. unfold report, print. cbv zeta.
    rewrite bind_emit. rewrite bind_call_ok by exact Hopen.
    rewrite bind_emit. rewrite (bind_call_raises _ _ _ e) by exact Hinfo.
    reflexivity.
  - intros Hinfo Hdesc. unfold report, print. cbv zeta.
    rewrite bind_emit. rewrite bind_call_ok by exact Hopen.
    rewrite bind_emit. rewrite bind_call_ok by exact Hinfo.
    rewrite bind_emit. rewrite (bind_call_raises _ _ _ e) by exact Hdesc.
    reflexivity.
Qed.

Lemma preliminary_failure_ends_the_run_witness :
  result (report lib0 env_info_raises two_rows start)
    = inl (LibraryError "info failed") /\
  result (report lib0 env_describe_raises two_rows start)
    = inl (ValueError "Cannot describe a DataFrame without columns").
Proof.
  split.
  - destruct (preliminary_failure_ends_the_run lib0 env_info_raises two_rows
                start (LibraryError "info failed") eq_refl) as [H _].
    now rewrite (H eq_refl).
  - destruct (preliminary_failure_ends_the_run lib0 env_describe_raises
                two_rows start
                (ValueError "Cannot describe a DataFrame without columns")
                eq_refl) as [_ H].
    now rewrite (H eq_refl eq_refl).
Defined.

(* ===================================================================== *)
(** ** When [df.corr()] raises *)
(* ===================================================================== *)

(** X8.  When [df.corr()] raises in step 3, [corr] stays unbound: step 3
    prints its error and writes nothing, and step 5 fails on the unbound
    name, prints that and writes nothing either, whatever its own calls
    would have done. *)
Theorem corr_failure_silences_step_5 :
  forall (lib : Lib) (env : Env) (df : DataFrame) (e : exn),
    mem "label" (columns df) = true ->
    prelim_ok env ->
    fails env 3%nat "df.corr" "" = Some e ->
    let tr := events (report lib env df start) in
    step_events lib env df 3
      = [Print [Str "Error computing correlation matrix:"; Exn e]] /\
    step_events lib env df 5
      = [Print [Str "Error while computing correlation with target:";
                Exn (UnboundLocalError "corr")]] /\
    written_by 3 tr = [] /\ written_by 5 tr = [] /\
    In (Print [Str "Error while computing correlation with target:";
               Exn (UnboundLocalError "corr")]) tr.
Proof.
  intros lib env df e Hlabel Hok Hcorr tr. subst tr.
  assert (H3 : step_events lib env df 3
               = [Print [Str "Error computing correlation matrix:"; Exn e]]).
  { unfold step_events, step_3_correlation_matrix, step_3_try. cbv zeta.
    now rewrite (try_call_raises _ _ _ e) by exact Hcorr. }
  assert (H5 : step_events lib env df 5
               = [Print [Str "Error while computing correlation with target:";
                         Exn (UnboundLocalError "corr")]]).
  { unfold step_events, step_5_corr_with_target, step_5_try, locals_3. cbv zeta.
    rewrite try_read_corr, Hcorr. reflexivity. }
  split; [exact H3 | split; [exact H5 |]].
  split; [| split].
  - rewrite report_written_by by (assumption || lia). now rewrite H3.
  - rewrite report_written_by by (assumption || lia). now rewrite H5.
  - apply (in_step_events lib env df 5); try assumption; [lia |].
    rewrite H5. now left.
Qed.

Lemma corr_failure_silences_step_5_witness :
  written_by 5 (events (report lib0 env_corr_raises two_rows start)) = [].
Proof.
  apply (corr_failure_silences_step_5 lib0 env_corr_raises two_rows
           (LibraryError "could not convert string to float")).
  - reflexivity.
  - intros f a. reflexivity.
  - reflexivity.
Defined.

(* ===================================================================== *)
(** ** Tables of at least 2000 rows *)
(* ===================================================================== *)

(** X9.  The sample size lies between 2000 and 20000 and never exceeds a
    table of at least 2000 rows; on such a table each sample a run asks
    for is drawn: no sampling step fails for lack of rows. *)
Theorem large_table_samples_are_drawn :
  forall (lib : Lib) (env : Env) (df : DataFrame),
    mem "label" (columns df) = true ->
    prelim_ok env ->
    2000 <= len df ->
    let s := kde_sample_n df in
    2000 <= s <= 20000 /\ s <= len df /\
    pair_size s <= s /\ scatter_size s <= s /\
    Forall (fun smp => exists picked, snd smp = inr picked)
           (sampled (events (report lib env df start))).
Proof.
  intros lib env df Hlabel Hok Hlen s. subst s.
  assert (Hs : 2000 <= kde_sample_n df <= 20000)
    by (unfold kde_sample_n; lia).
  assert (Hle : kde_sample_n df <= len df).
  { unfold kde_sample_n.
    assert (len df / 50 <= len df) by (apply Z.div_le_upper_bound; lia). lia. }
  assert (Hp : pair_size (kde_sample_n df) <= kde_sample_n df)
    by (unfold pair_size; lia).
  assert (Hc : scatter_size (kde_sample_n df) <= kde_sample_n df)
    by (unfold scatter_size; lia).
  assert (Hdraw : forall n, 0 <= n <= len df ->
            exists picked, draw lib 42 df n = inr picked).
  { intros n Hn. unfold draw.
    destruct (Z.ltb_spec n 0); [lia |].
    destruct (Z.eqb_spec (len df) 0); [lia |]. cbn [andb].
    destruct (Z.ltb_spec (len df) n); [lia |]. eexists. reflexivity. }
  repeat split; try lia.
  rewrite (report_sampled lib env df Hlabel Hok).
  unfold expected_samples. cbv zeta.
  assert (H1 : 0 <= pair_size (kde_sample_n df))
    by (unfold pair_size; lia).
  assert (H2 : 0 <= scatter_size (kde_sample_n df))
    by (unfold scatter_size; lia).
  destruct (has_scatter_columns df); cbn [app];
    repeat (apply Forall_cons; [cbn [snd]; apply Hdraw; lia |]);
    apply Forall_nil.
Qed.

Lemma large_table_samples_are_drawn_witness :
  Forall (fun smp => exists picked, snd smp = inr picked)
         (sampled (events (report lib0 env_no_file table_2000 start))).
Proof.
  apply (large_table_samples_are_drawn lib0 env_no_file table_2000).
  - reflexivity.
  - intros f a. reflexivity.
  - vm_compute. discriminate.
Defined.

(* ===================================================================== *)
(** ** The most variable features *)
(* ===================================================================== *)

Lemma sorted_firstn {A} (R : A -> A -> Prop) (n : nat) (s : list A) :
  StronglySorted R s -> StronglySorted R (firstn n s).
Proof.
  intros Hs. revert n. induction Hs as [| x rest Hrest IH Hall]; intros n.
  - rewrite firstn_nil. constructor.
  - destruct n as [| n]; simpl; constructor.
    + apply IH.
    + apply Forall_forall. intros y Hy.
      rewrite Forall_forall in Hall. apply Hall. now apply in_firstn with n.
Qed.

Lemma sorted_firstn_skipn {A} (R : A -> A -> Prop) (n : nat) (s : list A) :
  StronglySorted R s ->
  forall x y, In x (firstn n s) -> In y (skipn n s) -> R x y.
Proof.
  intros Hs. revert n. induction Hs as [| a rest Hrest IH Hall]; intros n x y.
  - rewrite firstn_nil. intros [].
  - destruct n as [| n]; simpl; [intros [] |].
    intros [<- | Hx] Hy.
    + rewrite Forall_forall in Hall. apply Hall.
      rewrite <- (firstn_skipn n rest). apply in_or_app. now right.
    + now apply (IH n).
Qed.

(** X10.  Step 9 (with none of its calls raising) writes its image and a
    series of variances: at most 15 of them, all of them when there are
    fewer, sorted by value, larger first; together with the variances left
    out they are the variances of the table, each as often as there, and
    no variance left out is larger than one kept.  Which of two equal
    variances comes first, or is kept, is the library's choice. *)
Theorem top_variances :
  forall (lib : Lib) (df : DataFrame) (l : Locals),
    exists top_var left_out,
      written (events (step_9_feature_variance lib df no_failure l))
        = [ (out_path "9_feature_variance.png", Image);
            (out_path "9_feature_variance.csv", SeriesCsv top_var) ] /\
      List.length top_var = Nat.min 15 (List.length (df_var lib df)) /\
      StronglySorted by_value top_var /\
      Permutation (top_var ++ left_out) (df_var lib df) /\
      (forall kept out,
         In kept top_var -> In out left_out ->
         descending (snd kept) (snd out)).
Proof.
  intros lib df l.
  exists (firstn 15 (sort_values_desc lib (df_var lib df))),
         (skipn 15 (sort_values_desc lib (df_var lib df))).
  split; [now rewrite step_9_ok |].
  split; [| split; [| split]].
  - rewrite length_firstn.
    now rewrite (Permutation_length
                   (sort_values_desc_perm lib (df_var lib df))).
  - apply sorted_firstn, sort_values_desc_sorted.
  - rewrite firstn_skipn. apply sort_values_desc_perm.
  - intros kept out Hk Hl.
    apply (sorted_firstn_skipn by_value 15
             (sort_values_desc lib (df_var lib df)));
      [apply sort_values_desc_sorted | exact Hk | exact Hl].
Qed.

(* ===================================================================== *)
(** ** The loader run as a script *)
(* ===================================================================== *)

Lemma try_raised {A B} (m : M A) (k : A -> M B) (h : exn -> M B)
    (l : Locals) (e : exn) (evs : list Event) :
  m l = mkRes (inl e) l evs ->
  try_except (bind m k) h l = prefix evs (h e l).
Proof.
  intros Hm. unfold try_except, bind, prefix. rewrite Hm. reflexivity.
Qed.

Lemma try_returned {A B} (m : M A) (k : A -> M B) (h : exn -> M B)
    (l : Locals) (a : A) (evs : list Event) :
  m l = mkRes (inr a) l evs ->
  try_except (bind m k) h l = prefix evs (try_except (k a) h l).
Proof.
  intros Hm. unfold try_except, bind, prefix. rewrite Hm.
  cbn [result locals events].
  destruct (k a l) as [[e | b] l1 evs1]; cbn [result locals events].
  - now rewrite app_assoc.
  - reflexivity.
Qed.

(** X11.  The loader's own script never raises and writes no file: when
    loading fails it prints one line with the error (and no traceback);
    when it succeeds it ends with the dtypes of the 29 columns. *)
Theorem loader_main_reports_errors :
  forall (env : Env),
    let run := loader_main env start in
    result run = inr tt /\
    written (events run) = [] /\
    (forall e,
       result (load_data env "HIGGS.csv.gz" (Some 1000) start) = inl e ->
       last (events run) closing_line
         = Print [Str "Error loading data: "; Exn e] /\
       ~ In (Traceback e) (events run)) /\
    (forall df,
       result (load_data env "HIGGS.csv.gz" (Some 1000) start) = inr df ->
       last (events run) closing_line = Print [Table (dtypes df)] /\
       columns (dtypes df) = schema_names).
Proof.
  intros env run. subst run. unfold loader_main.
  destruct (load_data_quiet env "HIGGS.csv.gz" (Some 1000))
    as [r [evs [_ Hload]]].
  assert (Hw : written evs = [] /\ forall e, ~ In (Traceback e) evs).
  { destruct (load_data_outputs env "HIGGS.csv.gz" (Some 1000))
      as [r' [evs' [Hout Hload']]].
    specialize (Hload start). rewrite Hload' in Hload.
    injection Hload as _ <-. clear - Hout.
    induction evs' as [| ev rest IH]; [split; [reflexivity | intros e []] |].
    cbn [forallb] in Hout. apply andb_true_iff in Hout.
    destruct Hout as [Hev Hrest]. destruct (IH Hrest) as [IHw IHt].
    destruct ev; try discriminate Hev; (split; [exact IHw |]);
      intros e [Hin | Hin]; first [discriminate Hin | exact (IHt e Hin)]. }
  destruct Hw as [Hw Htb].
  destruct r as [e | df].
  - rewrite (try_raised _ _ _ _ e evs) by apply Hload.
    rewrite Hload. unfold prefix, print, emit. cbn [result locals events].
    split; [reflexivity |]. split.
    + rewrite written_app, Hw. reflexivity.
    + split.
      * intros e' He'. injection He' as <-. split.
        -- apply last_last.
        -- intros Hin. apply in_app_or in Hin. destruct Hin as [Hin | Hin].
           ++ exact (Htb e Hin).
           ++ simpl in Hin. intuition discriminate.
      * intros df H. discriminate H.
  - rewrite (try_returned _ _ _ _ df evs) by apply Hload.
    rewrite Hload.
    match goal with
    | |- context [try_except ?body ?h start] =>
        change (try_except body h start)
          with (mkRes (inr tt) start
                  [ Print [Str "First 5 rows:"]; Print [Table (head 5 df)];
                    Print [Str "Data types:"]; Print [Table (dtypes df)] ])
    end.
    unfold prefix. cbn [result locals events].
    split; [reflexivity |]. split.
    + rewrite written_app, Hw. reflexivity.
    + split.
      * intros e H. discriminate H.
      * intros df' Hdf'. injection Hdf' as <-. split.
        -- change (evs ++ [Print [Str "First 5 rows:"];
                           Print [Table (head 5 df)];
                           Print [Str "Data types:"];
                           Print [Table (dtypes df)]])%list
             with (evs ++ ([Print [Str "First 5 rows:"];
                            Print [Table (head 5 df)];
                            Print [Str "Data types:"]]
                           ++ [Print [Table (dtypes df)]]))%list.
           rewrite app_assoc. apply last_last.
        -- unfold dtypes, columns. cbn [schema]. fold (columns df).
           apply (load_data_columns env "HIGGS.csv.gz" (Some 1000) start).
           now rewrite Hload.
Qed.

(* ===================================================================== *)
(** ** The files a run can write *)
(* ===================================================================== *)

Section Emits.

Variable P : Event -> bool.

Lemma quiet_emits {A} (m : M A) : quiet P m -> emits P m.
Proof. intros Hq l. now apply quiet_events. Qed.

Lemma emits_bind {A B} (m : M A) (f : A -> M B) :
  emits P m -> (forall a, emits P (f a)) -> emits P (bind m f).
Proof.
  intros Hm Hf l. unfold bind. specialize (Hm l).
  destruct (m l) as [[e | a] l1 evs]; cbn [result locals events] in *.
  - exact Hm.
  - rewrite forallb_app, Hm. apply Hf.
Qed.

Lemma emits_try {A} (m : M A) (h : exn -> M A) :
  emits P m -> (forall e, emits P (h e)) -> emits P (try_except m h).
Proof.
  intros Hm Hh l. unfold try_except. specialize (Hm l).
  destruct (m l) as [[e | a] l1 evs]; cbn [result locals events] in *.
  - rewrite forallb_app, Hm. apply Hh.
  - exact Hm.
Qed.

End Emits.

Lemma forallb_weaken {A} (P Q : A -> bool) (xs : list A) :
  (forall x, P x = true -> Q x = true) ->
  forallb P xs = true -> forallb Q xs = true.
Proof.
  intros HPQ. induction xs as [| x rest IH]; [reflexivity |].
  cbn [forallb]. intros H. apply andb_true_iff in H. destruct H as [Hx Hrest].
  now rewrite (HPQ x Hx), (IH Hrest).
Qed.

Lemma owner_in_mem (table : list (string * nat)) (p : string) (k : nat) :
  owner_in table p = Some k -> mem p (map fst table) = true.
Proof.
  induction table as [| [q j] rest IH]; [discriminate |].
  unfold mem in *. cbn [owner_in map fst existsb].
  destruct (String.eqb p q); [reflexivity | exact IH].
Qed.

Lemma allowed_fixed (k : nat) (e : Event) :
  allowed k e = true -> fixed_artifact e = true.
Proof.
  destruct e; try reflexivity; try discriminate.
  unfold allowed, owned_by, fixed_artifact.
  destruct (owner_in artifact_steps path) as [j |] eqn:Ho; [| discriminate].
  intros _. now apply owner_in_mem with j.
Qed.

Lemma quiet_fixed {A} (k : nat) (m : M A) :
  quiet (allowed k) m -> emits fixed_artifact m.
Proof.
  intros Hq l. apply (forallb_weaken (allowed k)); [apply allowed_fixed |].
  now apply quiet_events.
Qed.

Lemma sampling_step_fixed (k : nat) (m : M unit) (smp : Event)
    (tail : list Event) (l l' : Locals) :
  forallb (allowed k) tail = true ->
  (exists n s d, smp = Sample n s d) ->
  m l = mkRes (inr tt) l' (smp :: tail) ->
  forallb fixed_artifact (events (m l)) = true.
Proof.
  intros Htail [n [s [d ->]]] Hm. rewrite Hm. cbn [events forallb].
  apply (forallb_weaken (allowed k)); [apply allowed_fixed | exact Htail].
Qed.

Lemma report_fixed (lib : Lib) (env : Env) (df : DataFrame) :
  emits fixed_artifact (report lib env df).
Proof.
  unfold report. cbv zeta.
  assert (Hcall : forall f a, emits fixed_artifact (call (fails env 0%nat) f a)).
  { intros f a. apply (quiet_fixed 0). apply quiet_call. }
  assert (Hprint : forall line, emits fixed_artifact (print line)).
  { intros line. apply (quiet_fixed 0). now apply quiet_emit. }
  assert (Hcsv : forall obj name,
            owned_by 0 (out_path name) = true ->
            emits fixed_artifact
              (to_csv (fails env 0%nat) obj (out_path name) Csv)).
  { intros obj name Ho. apply (quiet_fixed 0). now apply quiet_to_csv. }
  apply emits_bind; [apply Hprint | intros _].
  apply emits_bind; [apply Hcall | intros _].
  apply emits_bind;
    [apply (quiet_fixed 0); now apply quiet_emit | intros _].
  apply emits_bind; [apply Hcall | intros _].
  apply emits_bind; [apply Hprint | intros _].
  apply emits_bind; [apply Hcall | intros _].
  apply emits_bind; [apply Hcall | intros _].
  apply emits_bind; [now apply Hcsv | intros _].
  apply emits_bind; [apply Hprint | intros _].
  apply emits_bind; [apply Hcall | intros _].
  apply emits_bind; [apply Hcall | intros _].
  apply emits_bind; [now apply Hcsv | intros _].
  apply emits_bind; [apply Hprint | intros _].
  destruct (negb (mem "label" (columns df))); [apply Hprint |].
  apply emits_bind; [apply Hprint | intros _].
  apply emits_bind; [apply (quiet_fixed 1), step_1_quiet | intros _].
  apply emits_bind; [apply (quiet_fixed 2), step_2_quiet | intros _].
  apply emits_bind.
  { intros l. destruct (step_3_run lib df (fails env 3%nat)) as [evs [Hevs H3]].
    rewrite H3. cbn [events].
    now apply (forallb_weaken (allowed 3)); [apply allowed_fixed |]. }
  intros _.
  apply emits_bind; [apply (quiet_fixed 4), step_4_quiet | intros _].
  apply emits_bind.
  { intros l. apply (forallb_weaken (allowed 5)); [apply allowed_fixed |].
    apply step_5_run. }
  intros _.
  apply emits_bind.
  { intros l.
    destruct (step_6_run lib df (select_features df) (fails env 6%nat))
      as [tail [Htail [_ H6]]].
    eapply (sampling_step_fixed 6); [exact Htail | | apply H6].
    do 3 eexists. reflexivity. }
  intros _.
  apply emits_bind; [apply (quiet_fixed 7), step_7_quiet | intros _].
  apply emits_bind.
  { intros l. destruct (sample_n l) as [n |] eqn:Hn.
    - destruct (step_8_run lib df (select_features df) (fails env 8%nat) n)
        as [tail [Htail [_ H8]]].
      eapply (sampling_step_fixed 8); [exact Htail | | now apply H8].
      do 3 eexists. reflexivity.
    - unfold step_8_pairplot, step_8_try. now rewrite try_read_sample_n, Hn. }
  intros _.
  apply emits_bind; [apply (quiet_fixed 9), step_9_quiet | intros _].
  apply emits_bind.
  { intros l. destruct (sample_n l) as [n |] eqn:Hn.
    - destruct (step_10_run lib df (fails env 10%nat) n)
        as [tail [Htail [_ H10]]].
      rewrite (H10 _ l Hn). cbn [events].
      destruct (mem "lepton_pT" (columns df)
                && mem "missing_energy_magnitude" (columns df));
        [| reflexivity].
      cbn [forallb].
      now apply (forallb_weaken (allowed 10)); [apply allowed_fixed |].
    - unfold step_10_scatter, step_10_try.
      destruct (mem "lepton_pT" (columns df)
                && mem "missing_energy_magnitude" (columns df));
        [| reflexivity].
      now rewrite try_read_sample_n, Hn. }
  intros _.
  apply emits_bind; [apply (quiet_fixed 11), step_11_quiet | intros _].
  apply emits_bind; [apply (quiet_fixed 12), step_12_quiet | intros _].
  apply Hprint.
Qed.

Lemma written_fixed (evs : list Event) (p : string) (a : Artifact) :
  forallb fixed_artifact evs = true ->
  In (p, a) (written evs) -> In p (map fst artifact_steps).
Proof.
  induction evs as [| e rest IH]; [intros _ [] |].
  cbn [forallb]. intros H. apply andb_true_iff in H. destruct H as [He Hrest].
  change (e :: rest) with ([e] ++ rest)%list. rewrite written_app.
  intros Hin. apply in_app_or in Hin. destruct Hin as [Hin | Hin].
  - destruct e; try destruct Hin.
    + cbn [written flat_map app] in *. injection H as <- _.
      now apply mem_In.
    + destruct H.
  - now apply IH.
Qed.

(** X12.  Whatever the disk holds and whichever library calls raise, a
    run of [perform_eda] writes no file other than the eighteen fixed
    artifacts under [results/eda]. *)
Theorem only_the_fixed_artifacts_are_written :
  forall (lib : Lib) (env : Env) (n : Z) (p : string) (a : Artifact),
    In (p, a) (written (events (perform_eda lib env n start))) ->
    In p (map fst artifact_steps) /\
    exists name, p = out_path name.
Proof.
  intros lib env n p a Hin.
  assert (Hp : In p (map fst artifact_steps)).
  { apply (written_fixed (events (perform_eda lib env n start)) p a);
      [| exact Hin].
    unfold perform_eda.
    apply emits_bind; [apply (quiet_fixed 0); now apply quiet_emit | intros _].
    apply emits_bind.
    - apply emits_try.
      + apply emits_bind; [| intros df; apply (quiet_fixed 0), quiet_ret].
        intros l. apply (forallb_weaken is_output).
        * intros e He. destruct e; try reflexivity; discriminate He.
        * apply quiet_events, load_data_outputs.
      + intros e. apply (quiet_fixed 0).
        unfold print. repeat (apply quiet_bind; [| intros ?]);
          first [now apply quiet_emit | apply quiet_ret].
    - intros [df |]; [apply report_fixed | apply (quiet_fixed 0), quiet_ret]. }
  split; [exact Hp |].
  cbn [artifact_steps map fst] in Hp.
  repeat (destruct Hp as [<- | Hp]; [eexists; reflexivity |]).
  destruct Hp.
Qed.

Lemma only_the_fixed_artifacts_are_written_witness :
  exists name, "results/eda/0_info.txt" = out_path name.
Proof.
  apply (only_the_fixed_artifacts_are_written lib0 env_three_rows 2
           "results/eda/0_info.txt" Text).
  vm_compute. tauto.
Defined.

(* ===================================================================== *)
(** ** The grid of a figure *)
(* ===================================================================== *)

(** X13.  The number of rows of a grid is the number of features divided
    by the number of columns, rounded up: the grid has a cell for every
    feature, fewer than one row of cells stays unused, and no feature
    gives no row.  The rows of the KDE grid, [(n + 2) // 3], are the same
    for three columns. *)
Theorem grid_rows_round_up :
  forall (num_feats cols : nat),
    (0 < cols)%nat ->
    let rows := grid_rows num_feats cols in
    (num_feats <= rows * cols)%nat /\
    (rows * cols - num_feats < cols)%nat /\
    (num_feats = 0%nat -> rows = 0%nat) /\
    (cols = 3%nat -> ((num_feats + 2) / 3)%nat = rows).
Proof.
  intros num_feats cols Hcols rows. subst rows. unfold grid_rows.
  pose proof (Nat.div_mod_eq (num_feats + cols - 1) cols) as Hdm.
  pose proof (Nat.mod_upper_bound (num_feats + cols - 1) cols) as Hmod.
  assert (Hc : cols <> 0%nat) by lia. specialize (Hmod Hc).
  repeat split.
  - nia.
  - nia.
  - intros ->. apply Nat.div_small. lia.
  - intros ->. f_equal. lia.
Qed.

Lemma grid_rows_round_up_witness :
  (7 <= grid_rows 7 3 * 3)%nat /\ (grid_rows 7 3 * 3 - 7 < 3)%nat.
Proof.
  destruct (grid_rows_round_up 7 3) as [H1 [H2 _]]; [lia |].
  split; [exact H1 | exact H2].
Defined.

(* ===================================================================== *)
(** ** A run in which nothing fails *)
(* ===================================================================== *)

Lemma try_sample_ok (lib : Lib) (df : DataFrame) (n : Z)
    (picked : list (list Cell)) (rest : DataFrame -> M unit)
    (h : exn -> M unit) (global : Z) (l : Locals) :
  draw lib 42 df n = inr picked ->
  try_except (bind (df_sample lib global df n (Some 42)) rest) h l
    = prefix [Sample n (Some 42) (inr picked)]
             (try_except (rest (mkDataFrame (schema df) picked)) h l).
Proof.
  intros Hdraw. unfold try_except, bind, df_sample, emit, ret, prefix.
  cbv zeta. rewrite Hdraw. simpl.
  destruct (rest _ l) as [[e | []] l1 evs]; simpl; reflexivity.
Qed.

Section NoFailureSampling.

Variable lib : Lib.
Variable df : DataFrame.
Variable features : list string.

Lemma step_6_ok (global : Z) (l : Locals) (picked : list (list Cell)) :
  draw lib 42 df (kde_sample_n df) = inr picked ->
  step_6_kde_plots lib df features no_failure global l
    = mkRes (inr tt) (mkLocals (corr l) (Some (kde_sample_n df)))
        [ Sample (kde_sample_n df) (Some 42) (inr picked);
          Write (out_path "6_kde_plots.png") Image ].
Proof.
  intros Hdraw. unfold step_6_kde_plots, step_6_try. cbv zeta.
  rewrite try_set_sample_n. unfold step_6_body.
  rewrite (try_sample_ok _ _ _ picked) by exact Hdraw. cbv zeta.
  rewrite !try_call_ok by reflexivity.
  rewrite try_silent by (apply for_each_silent; reflexivity).
  rewrite try_silent by apply hide_unused_silent.
  reflexivity.
Qed.

Lemma step_8_ok (global : Z) (l : Locals) (n : Z)
    (picked : list (list Cell)) :
  sample_n l = Some n ->
  draw lib 42 df (pair_size n) = inr picked ->
  step_8_pairplot lib df features no_failure global l
    = mkRes (inr tt) l
        [ Sample (pair_size n) (Some 42) (inr picked);
          Write (out_path "8_pairplot_sample.png") Image ].
Proof.
  intros Hn Hdraw. unfold step_8_pairplot, step_8_try.
  rewrite try_read_sample_n, Hn. unfold step_8_body.
  rewrite (try_sample_ok _ _ _ picked) by exact Hdraw.
  reflexivity.
Qed.

Lemma step_10_ok (global : Z) (l : Locals) (n : Z)
    (picked : list (list Cell)) :
  sample_n l = Some n ->
  draw lib 42 df (scatter_size n) = inr picked ->
  step_10_scatter lib df no_failure global l
    = mkRes (inr tt) l
        (if has_scatter_columns df
         then [ Sample (scatter_size n) (Some 42) (inr picked);
                Write (out_path "10_jointplot_scatter.png") Image ]
         else []).
Proof.
  intros Hn Hdraw. unfold step_10_scatter, step_10_try, has_scatter_columns.
  destruct (mem "lepton_pT" (columns df)
            && mem "missing_energy_magnitude" (columns df)); [| reflexivity].
  rewrite try_read_sample_n, Hn. unfold step_10_body.
  rewrite (try_sample_ok _ _ _ picked) by exact Hdraw.
  reflexivity.
Qed.

End NoFailureSampling.

Lemma draw_in_range (lib : Lib) (df : DataFrame) (n : Z) :
  2000 <= len df -> 0 <= n <= len df ->
  exists picked, draw lib 42 df n = inr picked.
Proof.
  intros Hlen Hn. unfold draw.
  destruct (Z.ltb_spec n 0); [lia |].
  destruct (Z.eqb_spec (len df) 0); [lia |]. cbn [andb].
  destruct (Z.ltb_spec (len df) n); [lia |]. eexists. reflexivity.
Qed.

Lemma kde_sample_n_in_range (df : DataFrame) :
  2000 <= len df -> 2000 <= kde_sample_n df <= len df.
Proof.
  intros Hlen. unfold kde_sample_n.
  assert (len df / 50 <= len df) by (apply Z.div_le_upper_bound; lia). lia.
Qed.

(** What a run writes when nothing raises *)
Lemma complete_run_written (lib : Lib) (env : Env) (df : DataFrame)
    (label : list Cell) :
  mem "label" (columns df) = true ->
  2000 <= len df ->
  (forall k, fails env k = no_failure) ->
  column df "label" = Some label ->
  written (events (report lib env df start)) = all_artifacts lib df label.
Proof.
  intros Hlabel Hlen Hnf Hcol.
  assert (Hok : prelim_ok env).
  { intros f a. now rewrite (Hnf 0%nat). }
  pose proof (kde_sample_n_in_range df Hlen) as Hs.
  destruct (draw_in_range lib df (kde_sample_n df) Hlen) as [p6 Hp6]; [lia |].
  destruct (draw_in_range lib df (pair_size (kde_sample_n df)) Hlen)
    as [p8 Hp8]; [unfold pair_size; lia |].
  destruct (draw_in_range lib df (scatter_size (kde_sample_n df)) Hlen)
    as [p10 Hp10]; [unfold scatter_size; lia |].
  rewrite report_trace by assumption.
  cbn [events flat_map seq].
  cbv beta iota zeta delta [step_events].
  rewrite !Hnf.
  rewrite step_1_ok, step_2_ok, step_3_ok, step_4_ok, step_7_ok, step_9_ok,
    step_11_ok, (step_12_ok df _ label Hcol).
  rewrite (step_5_ok lib (locals_3 lib no_failure df) (df_corr lib df) eq_refl).
  rewrite (step_6_ok lib df _ _ _ p6 Hp6).
  rewrite (step_8_ok lib df _ _ (locals_6 lib no_failure df)
             (kde_sample_n df) p8 eq_refl Hp8).
  rewrite (step_10_ok lib df _ (locals_6 lib no_failure df)
             (kde_sample_n df) p10 eq_refl Hp10).
  cbn [events]. unfold all_artifacts, corr_with_target_files.
  change (Print ?x :: ?r) with ([Print x] ++ r)%list.
  rewrite !written_app.
  destruct (has_scatter_columns df);
    destruct (mem "label" (frame_columns (df_corr lib df)));
    try destruct (getitem (df_corr lib df) "label"); reflexivity.
Qed.

Lemma all_artifacts_names (lib : Lib) (df : DataFrame) (label : list Cell) :
  map fst (all_artifacts lib df label) = all_file_names lib df.
Proof.
  unfold all_artifacts, all_file_names, corr_with_target_files.
  cbn [seq flat_map step_files app prelim_files].
  destruct (has_scatter_columns df);
    destruct (mem "label" (frame_columns (df_corr lib df))) eqn:Hmem;
    try (destruct (getitem_mem _ _ Hmem) as [col ->]); reflexivity.
Qed.

Lemma all_file_names_NoDup (lib : Lib) (df : DataFrame) :
  NoDup (all_file_names lib df).
Proof.
  unfold all_file_names.
  cbn [seq flat_map step_files app prelim_files].
  destruct (has_scatter_columns df);
    destruct (mem "label" (frame_columns (df_corr lib df)));
    cbn [app];
    repeat (constructor; [simpl; intuition discriminate |]);
    constructor.
Qed.

(** X14.  On a table with a label column and at least 2000 rows, when no
    library call raises, the run returns and writes every file once, in
    the order of the steps: the three preliminary files, then the files of
    steps 1 to 12 (those of step 5 when the correlation matrix has a label
    column, that of step 10 when the table has its two columns). *)
Theorem complete_run_writes_every_artifact :
  forall (lib : Lib) (env : Env) (df : DataFrame),
    mem "label" (columns df) = true ->
    2000 <= len df ->
    (forall k, fails env k = no_failure) ->
    result (report lib env df start) = inr tt /\
    map fst (written (events (report lib env df start)))
      = all_file_names lib df /\
    NoDup (all_file_names lib df).
Proof.
  intros lib env df Hlabel Hlen Hnf.
  assert (Hok : prelim_ok env).
  { intros f a. now rewrite (Hnf 0%nat). }
  destruct (column_mem df "label" Hlabel) as [label Hcol].
  split; [now apply report_closing_line |].
  split; [| apply all_file_names_NoDup].
  rewrite (complete_run_written lib env df label) by assumption.
  apply all_artifacts_names.
Qed.

Lemma complete_run_writes_every_artifact_witness :
  result (report lib0 env_no_file table_2000 start) = inr tt /\
  map fst (written (events (report lib0 env_no_file table_2000 start)))
    = map fst artifact_steps.
Proof.
  destruct (complete_run_writes_every_artifact lib0 env_no_file table_2000)
    as [Hr [Hw _]].
  - reflexivity.
  - vm_compute. discriminate.
  - intros k. reflexivity.
  - split; [exact Hr |]. rewrite Hw. reflexivity.
Defined.

(* ===================================================================== *)
(** ** Isolation of the steps *)
(* ===================================================================== *)

Lemma handled_steps_of_report (lib : Lib) (env : Env) (df : DataFrame) :
  handled_steps lib env df
    = [ step_1_target_distribution (fails env 1%nat);
        step_2_feature_histograms (select_features df) (fails env 2%nat);
        step_3_correlation_matrix lib df (fails env 3%nat);
        step_4_missing_value_heatmap (fails env 4%nat);
        step_5_corr_with_target lib (fails env 5%nat);
        step_6_kde_plots lib df (select_features df) (fails env 6%nat)
                         (global_rng env);
        step_7_boxplots_by_label (select_features df) (fails env 7%nat);
        step_8_pairplot lib df (select_features df) (fails env 8%nat)
                        (global_rng env);
        step_9_feature_variance lib df (fails env 9%nat);
        step_10_scatter lib df (fails env 10%nat) (global_rng env);
        step_11_outliers df (fails env 11%nat);
        step_12_summary df (fails env 12%nat) ].
Proof. reflexivity. Qed.

(** The twelve handled steps, run one after the other from no local
    bound, emit the events of steps 1 to 12. *)
Lemma handled_steps_trace (lib : Lib) (env : Env) (df : DataFrame) :
  trace_all (handled_steps lib env df) start
    = flat_map (step_events lib env df) (seq 1 12).
Proof.
  rewrite handled_steps_of_report. cbn [trace_all].
  destruct (step_3_run lib df (fails env 3%nat)) as [ev3 [_ H3]].
  rewrite (quiet_locals _ _ _ (step_1_quiet _)).
  rewrite (quiet_locals _ _ _ (step_2_quiet _ _)).
  assert (Hl3 : locals (step_3_correlation_matrix lib df (fails env 3%nat) start)
                = locals_3 lib (fails env 3%nat) df).
  { rewrite H3. unfold locals_3. simpl.
    now destruct (fails env 3%nat "df.corr" ""). }
  rewrite Hl3.
  rewrite (quiet_locals _ _ _ (step_4_quiet _)).
  assert (Hl5 : locals (step_5_corr_with_target lib (fails env 5%nat)
                          (locals_3 lib (fails env 3%nat) df))
                = locals_3 lib (fails env 3%nat) df).
  { now rewrite (proj1 (step_5_run _ _ _)). }
  rewrite Hl5.
  rewrite step_6_locals. fold (locals_6 lib (fails env 3%nat) df).
  rewrite (quiet_locals _ _ _ (step_7_quiet _ _)).
  rewrite (step_8_locals _ _ _ _ _ _ (kde_sample_n df)) by reflexivity.
  rewrite (quiet_locals _ _ _ (step_9_quiet _ _ _)).
  rewrite (step_10_locals _ _ _ _ _ (kde_sample_n df)) by reflexivity.
  rewrite (quiet_locals _ _ _ (step_11_quiet _ _)).
  cbn [flat_map seq]. cbv beta iota zeta delta [step_events].
  reflexivity.
Qed.

Lemma trace_all_nth (ms : list (M unit)) :
  forall (k : nat) (m : M unit) (l : Locals) (e : Event),
    nth_error ms k = Some m ->
    In e (events (m (locals_all (firstn k ms) l))) ->
    In e (trace_all ms l).
Proof.
  induction ms as [| m0 rest IH]; intros k m l e Hnth Hin.
  - destruct k; discriminate.
  - destruct k as [| k]; simpl in *.
    + injection Hnth as <-. apply in_or_app. now left.
    + apply in_or_app. right. eapply IH; eassumption.
Qed.

Lemma handled_prints (body : M unit) (msg : string) (l : Locals) (e : exn) :
  result (body l) = inl e ->
  In (Print [Str msg; Exn e]) (events (handled body msg l)).
Proof.
  unfold handled, try_except, print, emit.
  destruct (body l) as [[e' | []] l1 evs]; simpl; [| discriminate].
  intros [= ->]. apply in_or_app. right. now left.
Qed.

Lemma nth_error_combine {A B} (xs : list A) (ys : list B) :
  forall (k : nat) (x : A) (y : B),
    nth_error xs k = Some x -> nth_error ys k = Some y ->
    nth_error (combine xs ys) k = Some (x, y).
Proof.
  revert ys. induction xs as [| x0 xs IH]; intros ys k x y Hx Hy.
  - destruct k; discriminate.
  - destruct ys as [| y0 ys]; [destruct k; discriminate |].
    destruct k as [| k]; simpl in *.
    + congruence.
    + now apply IH.
Qed.

(** The files step [k] writes when none of its own calls raises, its
    sample can be drawn and, for step 5, [df.corr()] returned *)
Lemma step_files_written (lib : Lib) (env : Env) (df : DataFrame) (k : nat) :
  mem "label" (columns df) = true ->
  (1 <= k <= 12)%nat ->
  fails env k = no_failure ->
  (k = 5%nat -> fails env 3%nat "df.corr" "" = None) ->
  (sampling_step k = true -> 2000 <= len df) ->
  map fst (written_by k (step_events lib env df k)) = step_files lib df k.
Proof.
  intros Hlabel Hk Hnf H5 Hlen.
  destruct k as [|[|[|[|[|[|[|[|[|[|[|[|[| k]]]]]]]]]]]]]; try lia;
    cbv beta iota zeta delta [step_events]; rewrite Hnf.
  - now rewrite step_1_ok.
  - now rewrite step_2_ok.
  - now rewrite step_3_ok.
  - now rewrite step_4_ok.
  - rewrite (step_5_ok lib _ (df_corr lib df))
      by (unfold locals_3; now rewrite (H5 eq_refl)).
    cbn [events step_files].
    destruct (mem "label" (frame_columns (df_corr lib df))) eqn:Hmem;
      [| reflexivity].
    destruct (getitem_mem _ _ Hmem) as [col ->]. reflexivity.
  - specialize (Hlen eq_refl).
    pose proof (kde_sample_n_in_range df Hlen) as Hs.
    destruct (draw_in_range lib df (kde_sample_n df) Hlen) as [p Hp]; [lia |].
    now rewrite (step_6_ok lib df _ _ _ p Hp).
  - now rewrite step_7_ok.
  - specialize (Hlen eq_refl).
    pose proof (kde_sample_n_in_range df Hlen) as Hs.
    destruct (draw_in_range lib df (pair_size (kde_sample_n df)) Hlen)
      as [p Hp]; [unfold pair_size; lia |].
    now rewrite (step_8_ok lib df _ _ (locals_6 lib (fails env 3%nat) df)
                   (kde_sample_n df) p eq_refl Hp).
  - now rewrite step_9_ok.
  - specialize (Hlen eq_refl).
    pose proof (kde_sample_n_in_range df Hlen) as Hs.
    destruct (draw_in_range lib df (scatter_size (kde_sample_n df)) Hlen)
      as [p Hp]; [unfold scatter_size; lia |].
    rewrite (step_10_ok lib df _ (locals_6 lib (fails env 3%nat) df)
               (kde_sample_n df) p eq_refl Hp).
    cbn [events step_files]. now destruct (has_scatter_columns df).
  - now rewrite step_11_ok.
  - destruct (column_mem df "label" Hlabel) as [label Hcol].
    now rewrite (step_12_ok df _ label Hcol).
Qed.

(** C1, the claim at the file of 2500 rows.  In the run in which only
    [df.corr()] raises (the correlation matrix of step 3 cannot be
    computed), step 5 prints an error and writes neither of its two files,
    which it writes in the run in which nothing raises: the failure of one
    step has taken the artifacts of another. *)
Lemma isolation_fails_when_corr_raises :
  (forall k f a, fails env_2500_corr_raises k f a <> None ->
                 k = 3%nat /\ f = "df.corr") /\
  result (load_data env_2500 "HIGGS.csv.gz" (Some 500000) start)
    = inr loaded_2500 /\
  map fst (written_by 5 (events (perform_eda lib0 env_2500 500000 start)))
    = [ "results/eda/5_corr_with_target.png";
        "results/eda/5_corr_with_target.csv" ] /\
  written_by 5 (events (perform_eda lib0 env_2500_corr_raises 500000 start))
    = [] /\
  In [Str "Error while computing correlation with target:";
      Exn (UnboundLocalError "corr")]
     (printed (events (perform_eda lib0 env_2500_corr_raises 500000 start))).
Proof.
  split; [| split; [| split; [| split]]].
  - intros k f a. unfold env_2500_corr_raises, env_corr_raises, fails.
    destruct (Nat.eqb_spec k 3), (String.eqb_spec f "df.corr"); simpl;
      intuition congruence.
  - vm_compute. reflexivity.
  - vm_compute. reflexivity.
  - vm_compute. reflexivity.
  - vm_compute. tauto.
Qed.

(** C1, amended.  On a table with a label column, the three preliminary
    statements passing: the run returns, and it is the preliminary
    statements, the line of the features, the twelve [try] blocks, each
    under the handler of its step, run one after the other, and the closing
    line.  When a [try] block raises, where the run has brought it, its
    handler prints the step's message and the exception.  The files of a
    step are the same in any two runs that agree on the library calls of
    that step (for step 5, also on whether [df.corr()] returned in step 3),
    whatever raises in the other steps.  And a step none of whose own calls
    raises writes all its files, whatever raises in the other steps,
    provided that [df.corr()] returned in step 3 for step 5, and that the
    table has at least 2000 rows for the three sampling steps. *)
Theorem guarded_steps_are_isolated :
  forall (lib : Lib) (env : Env) (df : DataFrame),
    mem "label" (columns df) = true ->
    prelim_ok env ->
    let run := events (report lib env df start) in
    let steps := handled_steps lib env df in
    result (report lib env df start) = inr tt /\
    run = (prelim_events df
           ++ Print [Str "Using these features:"; Names (select_features df)]
           :: trace_all steps start
           ++ [closing_line])%list /\
    (forall (k : nat) (body : M unit) (msg : string) (e : exn),
       nth_error (try_blocks lib env df) k = Some body ->
       nth_error step_messages k = Some msg ->
       result (body (locals_all (firstn k steps) start)) = inl e ->
       In (Print [Str msg; Exn e]) run) /\
    (forall (env' : Env) (k : nat),
       prelim_ok env' ->
       (1 <= k <= 12)%nat ->
       fails env' k = fails env k ->
       (k = 5%nat ->
        fails env' 3%nat "df.corr" "" = fails env 3%nat "df.corr" "") ->
       written_by k (events (report lib env' df start)) = written_by k run) /\
    (forall k : nat,
       (1 <= k <= 12)%nat ->
       fails env k = no_failure ->
       (k = 5%nat -> fails env 3%nat "df.corr" "" = None) ->
       (sampling_step k = true -> 2000 <= len df) ->
       map fst (written_by k run) = step_files lib df k).
Proof.
  intros lib env df Hlabel Hok run steps. subst run steps.
  assert (Hrun : events (report lib env df start)
            = (prelim_events df
               ++ Print [Str "Using these features:";
                         Names (select_features df)]
               :: trace_all (handled_steps lib env df) start
               ++ [closing_line])%list).
  { rewrite report_trace by assumption. cbn [events].
    now rewrite handled_steps_trace. }
  split; [now apply report_closing_line |].
  split; [exact Hrun |].
  split; [| split].
  - intros k body msg e Hbody Hmsg Hraise. rewrite Hrun.
    apply in_or_app. right. right. apply in_or_app. left.
    apply (trace_all_nth _ k (handled body msg)).
    + unfold handled_steps.
      apply (map_nth_error (fun step => handled (fst step) (snd step))
               k _ (nth_error_combine _ _ k body msg Hbody Hmsg)).
    + now apply handled_prints.
  - intros env' k Hok' Hk Hsame H5.
    rewrite !report_written_by by assumption.
    now rewrite (step_events_local lib df env env' k Hsame H5).
  - intros k Hk Hnf H5 Hlen.
    rewrite report_written_by by assumption.
    now apply step_files_written.
Qed.

Lemma guarded_steps_are_isolated_witness :
  result (load_data env_2500_corr_raises "HIGGS.csv.gz" (Some 500000) start)
    = inr loaded_2500 /\
  (let run := events (report lib0 env_2500_corr_raises loaded_2500 start) in
   In (Print [Str "Error computing correlation matrix:";
              Exn (LibraryError "could not convert string to float")]) run /\
   In (Print [Str "Error while computing correlation with target:";
              Exn (UnboundLocalError "corr")]) run /\
   map fst (written_by 4 run) = [ "results/eda/4_missing_value_heatmap.png" ] /\
   map fst (written_by 6 run) = [ "results/eda/6_kde_plots.png" ] /\
   written_by 9 (events (report lib0 env_2500 loaded_2500 start))
     = written_by 9 run).
Proof.
  split; [vm_compute; reflexivity |].
  destruct (guarded_steps_are_isolated lib0 env_2500_corr_raises loaded_2500)
    as [_ [_ [Hlog [Hiso Hfiles]]]].
  - reflexivity.
  - intros f a. reflexivity.
  - cbv zeta. split; [| split; [| split; [| split]]].
    + apply (Hlog 2%nat (step_3_try lib0 loaded_2500
                           (fails env_2500_corr_raises 3%nat)));
        [reflexivity | reflexivity | vm_compute; reflexivity].
    + apply (Hlog 4%nat (step_5_try lib0 (fails env_2500_corr_raises 5%nat)));
        [reflexivity | reflexivity | vm_compute; reflexivity].
    + apply (Hfiles 4%nat);
        [lia | reflexivity | discriminate | discriminate].
    + apply (Hfiles 6%nat);
        [lia | reflexivity | discriminate | intros _; vm_compute; discriminate].
    + apply (Hiso env_2500 9%nat);
        [intros f a; reflexivity | lia | reflexivity | discriminate].
Defined.

(* ===================================================================== *)
(** ** The guards inside steps 5 and 10 *)
(* ===================================================================== *)

(** X15.  When the correlation matrix has no label column, step 5 makes
    no call, prints nothing and writes nothing; so does step 10 when the
    table lacks one of its two columns.  Neither is an error. *)
Theorem guarded_steps_without_their_columns :
  forall (lib : Lib) (df : DataFrame) (o : Oracle) (global : Z) (l : Locals),
    (forall c, corr l = Some c ->
               mem "label" (frame_columns c) = false ->
               step_5_corr_with_target lib o l = mkRes (inr tt) l []) /\
    (has_scatter_columns df = false ->
     step_10_scatter lib df o global l = mkRes (inr tt) l []).
Proof.
  intros lib df o global l. split.
  - intros c Hc Hmem. unfold step_5_corr_with_target, step_5_try.
    rewrite try_read_corr, Hc. unfold step_5_body. now rewrite Hmem.
  - unfold has_scatter_columns, step_10_scatter, step_10_try. intros ->. reflexivity.
Qed.

Lemma guarded_steps_without_their_columns_witness :
  step_10_scatter lib0 label_only (fun _ _ => Some (LibraryError "down")) 0
                  start
    = mkRes (inr tt) start [].
Proof.
  apply (guarded_steps_without_their_columns lib0 label_only
           (fun _ _ => Some (LibraryError "down")) 0 start).
  reflexivity.
Defined.
